(** * SLEAP GUI glue: track overlays and the YAML form builder

    A shallow embedding of [sleap/gui/overlays/tracks.py] and
    [sleap/gui/formbuilder.py], and the properties of both that the
    specification states.

    Python values are modelled as they are used by the code: integers as [Z],
    lists as [list] with Python's slicing and negative indexing written out,
    ordered dicts as association lists, the result dict of a form as a
    [gmap], a raised exception as the [Raise] of a result.  Qt objects are
    modelled by the part of their state the code reads back: a spin box by
    its range and value, a combo box by its items and current index, a scene
    by the sequence of items added to it. *)

From Stdlib Require Import ZArith QArith Qround Ascii String.
From stdpp Require Import base decidable option list gmap strings sorting.

Set Warnings "-register-all".

Local Open Scope Z_scope.

(** ** Python built-ins used by the two modules *)

Module Py.

(** [l[start:]] for an arbitrary integer [start]: a negative start counts
    from the end and both are clamped to the list. *)
Definition slice_from {A} (start : Z) (l : list A) : list A :=
  let len := Z.of_nat (length l) in
  let s := if start <? 0 then Z.max (len + start) 0 else Z.min start len in
  drop (Z.to_nat s) l.

(** [l[:stop]]. *)
Definition slice_to {A} (stop : Z) (l : list A) : list A :=
  let len := Z.of_nat (length l) in
  let s := if stop <? 0 then Z.max (len + stop) 0 else Z.min stop len in
  take (Z.to_nat s) l.

(** [l[i]]: [None] stands for [IndexError]. *)
Definition index {A} (l : list A) (i : Z) : option A :=
  let len := Z.of_nat (length l) in
  if (0 <=? i) && (i <? len) then l !! Z.to_nat i
  else if (- len <=? i) && (i <? 0) then l !! Z.to_nat (len + i)
  else None.

(** [list.sort(key=...)]: a stable sort on an integer key, here by
    insertion from the right. *)
Fixpoint insert_by {A} (key : A → Z) (x : A) (l : list A) : list A :=
  match l with
  | [] => [x]
  | y :: l' => if key x <=? key y then x :: y :: l' else y :: insert_by key x l'
  end.

Definition sort_by {A} (key : A → Z) (l : list A) : list A :=
  foldr (insert_by key) [] l.

(** The order the sort establishes. *)
Definition key_le {A} (key : A → Z) (a b : A) : Prop := key a ≤ key b.

(** Digits of a number in a base up to 16, upper case, most significant
    first, as [str(n)] and the format code [X] print them. *)
Definition digit (d : N) : ascii :=
  match d with
  | 0 => "0" | 1 => "1" | 2 => "2" | 3 => "3" | 4 => "4" | 5 => "5"
  | 6 => "6" | 7 => "7" | 8 => "8" | 9 => "9" | 10 => "A" | 11 => "B"
  | 12 => "C" | 13 => "D" | 14 => "E" | _ => "F"
  end%N%char.

Fixpoint digits_go (fuel : nat) (base n : N) (acc : string) : string :=
  match fuel with
  | O => acc
  | S fuel' =>
      let acc' := String (digit (n mod base)) acc in
      if (n / base =? 0)%N then acc' else digits_go fuel' base (n / base) acc'
  end.

Definition digits (base n : N) : string :=
  digits_go (S (N.to_nat (N.log2 n))) base n EmptyString.

(** [str(n)] for an integer. *)
Definition str_of_int (n : Z) : string :=
  if n <? 0 then String "-" (digits 10 (Z.to_N (- n))) else digits 10 (Z.to_N n).

(** [f"{n:02X}"] for a non-negative integer. *)
Definition format_02X (n : N) : string :=
  let s := digits 16 n in
  if (String.length s <? 2)%nat then String "0" s else s.

(** Exceptions are results: a call returns [Ok] or raises. *)
Inductive exn :=
  AttributeError | IndexError | KeyError | OverflowError | TypeError | ValueError.

Inductive result (A : Type) : Type :=
| Ok (a : A)
| Raise (e : exn).
Arguments Ok {A} a.
Arguments Raise {A} e.

#[global] Instance result_ret : MRet result := @Ok.
#[global] Instance result_bind : MBind result :=
  λ A B f m, match m with Ok a => f a | Raise e => Raise e end.
#[global] Instance result_fmap : FMap result :=
  λ A B f m, match m with Ok a => Ok (f a) | Raise e => Raise e end.

Definition of_option {A} (e : exn) (o : option A) : result A :=
  match o with Some a => Ok a | None => Raise e end.

Definition mjoin_result {A} (r : result (result A)) : result A :=
  match r with Ok a => a | Raise e => Raise e end.

(** The values that travel through a form: [None], [bool], [int], [float]
    and [str].  A float is represented by the rational it denotes; binary
    rounding is not part of the model. *)
Inductive pyval :=
| PyNone
| PyBool (b : bool)
| PyInt (z : Z)
| PyFloat (q : Q)
| PyStr (s : string).

(** The conversions between numbers and text that the interpreter provides
    and the form code calls: [str(x)] and [float(s)], [int(s)]. *)
Class Runtime := {
  str_of_float : Q → string;
  float_of_str : string → result Q;
  int_of_str : string → result Z
}.

Definition Z_of_bool (b : bool) : Z := if b then 1 else 0.

(** The number a value compares as, if it is one ([bool] is an [int]). *)
Definition num_of (v : pyval) : option Q :=
  match v with
  | PyBool b => Some (inject_Z (Z_of_bool b))
  | PyInt z => Some (inject_Z z)
  | PyFloat q => Some q
  | _ => None
  end.

(** [a == b]. *)
Definition py_eq (a b : pyval) : Prop :=
  match a, b with
  | PyNone, PyNone => True
  | PyStr s, PyStr t => s = t
  | _, _ =>
      match num_of a, num_of b with
      | Some p, Some q => (p == q)%Q
      | _, _ => False
      end
  end.

(** [str(v)]. *)
Definition str `{Runtime} (v : pyval) : string :=
  match v with
  | PyNone => "None"
  | PyBool b => if b then "True" else "False"
  | PyInt z => str_of_int z
  | PyFloat q => str_of_float q
  | PyStr s => s
  end.

(** Truncation towards zero, as [int(x)] does on a float. *)
Definition trunc (q : Q) : Z := Z.quot (Qnum q) (Z.pos (Qden q)).

(** [int(v)]. *)
Definition int `{Runtime} (v : pyval) : result Z :=
  match v with
  | PyNone => Raise TypeError
  | PyBool b => Ok (Z_of_bool b)
  | PyInt z => Ok z
  | PyFloat q => Ok (trunc q)
  | PyStr s => int_of_str s
  end.

(** [float(v)]. *)
Definition float `{Runtime} (v : pyval) : result Q :=
  match v with
  | PyNone => Raise TypeError
  | PyBool b => Ok (inject_Z (Z_of_bool b))
  | PyInt z => Ok (inject_Z z)
  | PyFloat q => Ok q
  | PyStr s => float_of_str s
  end.

(** [s.split(sep)] for a one-character separator: never empty. *)
Fixpoint split (sep : ascii) (s : string) : list string :=
  match s with
  | EmptyString => [EmptyString]
  | String c s' =>
      if bool_decide (c = sep) then EmptyString :: split sep s'
      else match split sep s' with
           | h :: t => String c h :: t
           | [] => [String c EmptyString]
           end
  end.

(** [s.lower()] on ASCII letters. *)
Definition lower_ascii (c : ascii) : ascii :=
  let n := nat_of_ascii c in
  if ((65 <=? n) && (n <=? 90))%nat then ascii_of_nat (n + 32) else c.

Fixpoint lower (s : string) : string :=
  match s with
  | EmptyString => EmptyString
  | String c s' => String (lower_ascii c) (lower s')
  end.

(** [needle in hay] for two strings: the substring test. *)
Fixpoint contains (needle hay : string) : bool :=
  String.prefix needle hay ||
  match hay with
  | EmptyString => false
  | String _ hay' => contains needle hay'
  end.

(** A [str] object, as far as [is] can tell it from another: its characters
    and whether it is the interned constant of its text.  String constants of
    the source are interned; a string built at run time by [str.split] or by
    the YAML loader is a fresh object. *)
Record str_obj := mk_str { chars : string; interned : bool }.

(** [s is "lit"] for a string constant of the source. *)
Definition is_literal (s : str_obj) (lit : string) : bool :=
  interned s && bool_decide (chars s = lit).

(** Ordered dicts with string keys: [d[k]], [k in d] and [d[k] = v], which
    keeps the position of a key already present. *)
Fixpoint dict_get {V} (k : string) (d : list (string * V)) : option V :=
  match d with
  | [] => None
  | (k', v) :: d' => if bool_decide (k' = k) then Some v else dict_get k d'
  end.

Fixpoint dict_set {V} (k : string) (v : V) (d : list (string * V)) : list (string * V) :=
  match d with
  | [] => [(k, v)]
  | (k', v') :: d' =>
      if bool_decide (k' = k) then (k, v) :: d' else (k', v') :: dict_set k v d'
  end.

End Py.

(** ** The Qt widgets the form is made of

    Each widget is the part of its state that the form code reads back.  An
    argument is converted as the binding does it: a Python number to the C++
    [int], [double] or [bool] of the parameter, anything else raises
    [TypeError]. *)

Module Qt.
Import Py.

Definition c_int (z : Z) : result Z :=
  if (- 2 ^ 31 <=? z) && (z <? 2 ^ 31) then Ok z else Raise OverflowError.

(** A float given for an [int] parameter is truncated by the binding. *)
Definition arg_int (v : pyval) : result Z :=
  match v with
  | PyInt z => c_int z
  | PyBool b => Ok (Z_of_bool b)
  | PyFloat q => c_int (trunc q)
  | _ => Raise TypeError
  end.

Definition arg_double (v : pyval) : result Q :=
  match v with
  | PyInt z => Ok (inject_Z z)
  | PyBool b => Ok (inject_Z (Z_of_bool b))
  | PyFloat q => Ok q
  | _ => Raise TypeError
  end.

Definition arg_bool (v : pyval) : result bool :=
  match v with
  | PyBool b => Ok b
  | PyInt z => Ok (negb (z =? 0))
  | _ => Raise TypeError
  end.

(** [QSpinBox]: range 0..99 and value 0 when created. *)
Record QSpinBox := mkQSpinBox { sb_minimum : Z; sb_maximum : Z; sb_value : Z }.

Definition QSpinBox_new : QSpinBox := mkQSpinBox 0 99 0.

Definition sb_bound (lo hi v : Z) : Z := Z.max lo (Z.min hi v).

Definition sb_setRange (lo hi : Z) (s : QSpinBox) : QSpinBox :=
  let hi := Z.max lo hi in
  mkQSpinBox lo hi (sb_bound lo hi (sb_value s)).

Definition sb_setValue (v : Z) (s : QSpinBox) : QSpinBox :=
  mkQSpinBox (sb_minimum s) (sb_maximum s)
             (sb_bound (sb_minimum s) (sb_maximum s) v).

(** [QDoubleSpinBox]: range 0..99.99, two decimals and value 0 when created;
    a value is rounded to the decimals, then bounded. *)
Record QDoubleSpinBox := mkQDoubleSpinBox {
  dsb_minimum : Q; dsb_maximum : Q; dsb_decimals : N; dsb_value : Q
}.

Definition QDoubleSpinBox_new : QDoubleSpinBox := mkQDoubleSpinBox 0 (9999 # 100) 2 0.

Definition dsb_round (decimals : N) (q : Q) : Q :=
  let scale := Z.pow 10 (Z.of_N decimals) in
  Qred (Qmake (Qfloor (q * inject_Z scale + (1 # 2))) (Z.to_pos scale)).

Definition dsb_bound (lo hi v : Q) : Q :=
  if Qle_bool v lo then lo else if Qle_bool hi v then hi else v.

Definition dsb_setValue (v : Q) (s : QDoubleSpinBox) : QDoubleSpinBox :=
  mkQDoubleSpinBox (dsb_minimum s) (dsb_maximum s) (dsb_decimals s)
    (dsb_bound (dsb_minimum s) (dsb_maximum s) (dsb_round (dsb_decimals s) v)).

(** [QLineEdit.setText] cuts the text at [maxLength], 32767 by default. *)
Definition le_setText (s : string) : string :=
  if Z.of_nat (String.length s) <=? 32767 then s
  else String.substring 0 (Z.to_nat 32767) s.

(** [QComboBox], not editable: its items, a separator being an item without
    text, and the current index, -1 when there is none. *)
Record combo_item := mkItem { item_text : string; item_separator : bool }.

Record QComboBox := mkQComboBox { items : list combo_item; currentIndex : Z }.

Definition QComboBox_new : QComboBox := mkQComboBox [] (-1).

Definition count (c : QComboBox) : Z := Z.of_nat (length (items c)).

Definition clear (c : QComboBox) : QComboBox := QComboBox_new.

(** The first item inserted into an empty box becomes the current one. *)
Definition append_item (it : combo_item) (c : QComboBox) : QComboBox :=
  mkQComboBox (items c ++ [it])
              (match items c with [] => 0 | _ => currentIndex c end).

Definition addItem (text : string) (c : QComboBox) : QComboBox :=
  append_item (mkItem text false) c.

(** [insertSeparator(self.count())]. *)
Definition insertSeparator_at_end (c : QComboBox) : QComboBox :=
  append_item (mkItem EmptyString true) c.

Definition setCurrentIndex (i : Z) (c : QComboBox) : QComboBox :=
  mkQComboBox (items c) (if (0 <=? i) && (i <? count c) then i else -1).

Definition itemText (i : Z) (c : QComboBox) : string :=
  if 0 <=? i then default EmptyString (item_text <$> items c !! Z.to_nat i)
  else EmptyString.

Definition currentText (c : QComboBox) : string := itemText (currentIndex c) c.

(** [findText]: the index of the first item with exactly this text, or -1. *)
Definition findText (text : string) (c : QComboBox) : Z :=
  match list_find (λ it, item_text it = text) (items c) with
  | Some (i, _) => Z.of_nat i
  | None => -1
  end.

Definition setCurrentText (text : string) (c : QComboBox) : QComboBox :=
  let i := findText text c in
  if -1 <? i then setCurrentIndex i c else c.

End Qt.

(** ** [sleap/gui/overlays/tracks.py] *)

Module Tracks.

Section overlays.

(** Identities owned by the labeled-frame store.  A track is compared with
    [==]; the nodes are the landmarks of the skeleton. *)
Context {Track Node Video Coord : Type}.
Context `{!EqDecision Track, !EqDecision Node, !EqDecision Video}.

Record Point := mkPoint { x : Coord; y : Coord; visible : bool }.

(** An instance: its track, and the points of the nodes it has. *)
Record Instance := mkInstance {
  track : Track;
  points : list (Node * Point)
}.

(** [inst[node]], and [node in inst.nodes] is [is_Some] of it. *)
Definition inst_get (inst : Instance) (node : Node) : option Point :=
  (λ r, r.2.2) <$> list_find (λ p, p.1 = node) (points inst).

Record LabeledFrame := mkLabeledFrame {
  video : Video;
  frame_idx : Z;
  instances : list Instance
}.

Record Labels := mkLabels {
  labeled_frames : list LabeledFrame;
  nodes : list Node;
  tracks : list Track
}.

(** Modelled from the spec: [Labels.find] of [sleap/io/dataset.py], of
    which the overlays only see the interface
    [find(video, frameIndexOrRange) -> ordered sequence of LabeledFrame]:
    the labeled frames of the video whose index is in the range
    [range(lo, hi)], in the order of the store. *)
Definition find_range (labels : Labels) (v : Video) (lo hi : Z) : list LabeledFrame :=
  filter (λ lf, video lf = v ∧ lo ≤ frame_idx lf < hi) (labeled_frames labels).

(** Modelled from the spec: [Labels.find] called with one frame index. *)
Definition find_idx (labels : Labels) (v : Video) (idx : Z) : list LabeledFrame :=
  filter (λ lf, video lf = v ∧ frame_idx lf = idx) (labeled_frames labels).

(** What [QGraphicsScene.addPolygon(polygon, pen)] receives: the points of
    the polygon, and the colour of the pen at the time of the call with the
    alpha given to [setAlphaF]. *)
Record DrawCall := mkDrawCall {
  polygon : list (Coord * Coord);
  rgb : N * N * N;
  alphaF : Q
}.

(** [TrackTrailOverlay]; the player is reduced to its colour manager. *)
Record TrackTrailOverlay := mkTrackTrailOverlay {
  labels : Labels;
  get_track_color : Track → N * N * N;
  trail_length : Z;
  show : bool
}.

(** [get_frame_selection]: [frame_selection[-self.trail_length :]] of the
    sorted frames up to the current one. *)
Definition get_frame_selection (o : TrackTrailOverlay) (v : Video) (idx : Z)
  : list LabeledFrame :=
  let frame_selection := find_range (labels o) v 0 (idx + 1) in
  let frame_selection := Py.sort_by frame_idx frame_selection in
  Py.slice_from (- trail_length o) frame_selection.

(** One pass of the loop over [enumerate(self.labels.nodes)] for the
    instance [inst] of the current frame. *)
Definition node_step (inst : Instance) (all_trails : list (list (Coord * Coord)))
    (node_i : nat) (node : Node) : list (list (Coord * Coord)) :=
  let carried := last (default [] (all_trails !! node_i)) in
  let point :=
    match inst_get inst node with
    | Some p => if visible p then Some (x p, y p) else carried
    | None => carried
    end in
  match point with
  | Some pt => alter (λ trail, trail ++ [pt]) node_i all_trails
  | None => all_trails
  end.

(** One pass of the loop over [frame_selection]. *)
Definition frame_step (node_list : list Node) (tr : Track)
    (all_trails : list (list (Coord * Coord))) (frame : LabeledFrame)
  : list (list (Coord * Coord)) :=
  let inst_on_track := filter (λ inst, track inst = tr) (instances frame) in
  match inst_on_track with
  | inst :: _ =>
      foldl (λ acc p, node_step inst acc p.1 p.2) all_trails
            (imap (λ node_i node, (node_i, node)) node_list)
  | [] => all_trails
  end.

(** [get_track_trails]: one trail per node of the store. *)
Definition get_track_trails (o : TrackTrailOverlay)
    (frame_selection : list LabeledFrame) (tr : Track)
  : list (list (Coord * Coord)) :=
  let all_trails := replicate (length (nodes (labels o))) [] in
  foldl (frame_step (nodes (labels o)) tr) all_trails frame_selection.

(** [get_tracks_in_frame]: the list comprehension over frames and
    instances. *)
Definition get_tracks_in_frame (o : TrackTrailOverlay) (v : Video) (idx : Z)
    (include_trails : bool) : list Track :=
  let lfs :=
    if include_trails then get_frame_selection o v idx
    else find_idx (labels o) v idx in
  lf ← lfs; inst ← instances lf; [track inst].

(** The body of the loop over [trails]: two polygons are added to the
    scene, in this order. *)
Definition draw_trail (color : N * N * N) (scene : list DrawCall)
    (trail : list (Coord * Coord)) : list DrawCall :=
  let half := Z.of_nat (length trail) `div` 2 in
  let scene := scene ++ [mkDrawCall (Py.slice_to half trail) color 1] in
  scene ++ [mkDrawCall (Py.slice_from half trail) color (1 # 2)].

(** [TrackTrailOverlay.add_to_scene]: the scene is the list of the items
    added so far. *)
Definition add_to_scene (o : TrackTrailOverlay) (v : Video) (idx : Z)
    (scene : list DrawCall) : list DrawCall :=
  if negb (show o) then scene
  else
    let frame_selection := get_frame_selection o v idx in
    let tracks_in_frame := get_tracks_in_frame o v idx true in
    foldl (λ scene tr,
             let trails := get_track_trails o frame_selection tr in
             let color := get_track_color o tr in
             foldl (draw_trail color) scene trails)
          scene tracks_in_frame.

(** *** [TrackListOverlay] *)

(** [track.name] of [sleap.instance.Track]. *)
Context (track_name : Track → string).

Definition html_color (color : N * N * N) : string :=
  "#" +:+ Py.format_02X color.1.1 +:+ Py.format_02X color.1.2
      +:+ Py.format_02X color.2.

Definition track_text (idx : Z) (tr : Track) : string :=
  let text := "<b>" +:+ track_name tr +:+ "</b>" in
  if bool_decide (Py.str_of_int idx ≠ track_name tr)
  then text +:+ " (" +:+ Py.str_of_int idx +:+ ")"
  else text.

(** One pass of the loop over [enumerate(self.labels.tracks[:num_to_show])]. *)
Definition list_step (color_of : Track → N * N * N) (html : string)
    (i : nat) (tr : Track) : string :=
  let idx := Z.of_nat i + 1 in
  let html := if bool_decide (html ≠ EmptyString) then html +:+ "<br />" else html in
  let color := color_of tr in
  html +:+ "<span style='color:" +:+ html_color color +:+ "'>"
       +:+ track_text idx tr +:+ "</span>".

(** [TrackListOverlay.add_to_scene]: the html given to the text box. *)
Definition list_html (lbls : Labels) (color_of : Track → N * N * N) : string :=
  let num_to_show := Z.min 9 (Z.of_nat (length (tracks lbls))) in
  foldl (λ html p, list_step color_of html p.1 p.2) EmptyString
        (imap (λ i tr, (i, tr)) (Py.slice_to num_to_show (tracks lbls))).

(** *** [TrackListOverlay]: the text box and its visibility *)

(** A [QtTextWithBackground] item, by the part of its state that the overlay
    sets or reads: the html, the opacity, the position in the scene and the
    visibility. *)
Record TextBox := mkTextBox {
  tb_html : string;
  tb_opacity : Q;
  tb_pos : Q * Q;
  tb_visible : bool
}.

Definition setPos (p : Q * Q) (tb : TextBox) : TextBox :=
  mkTextBox (tb_html tb) (tb_opacity tb) p (tb_visible tb).

Definition setVisible (b : bool) (tb : TextBox) : TextBox :=
  mkTextBox (tb_html tb) (tb_opacity tb) (tb_pos tb) b.

(** [TrackListOverlay] with the view and the scene of its player.  The text
    boxes are objects: [text_boxes] holds the state of every one created so
    far, a box is referred to by its position there, [text_box] is
    [self.text_box] and [scene_items] the boxes added to the scene, in the
    order of [scene.addItem]. *)
Record TrackListOverlay := mkTrackListOverlay {
  list_labels : Labels;
  list_track_color : Track → N * N * N;
  mapToScene : Z → Z → Q * Q;
  text_boxes : list TextBox;
  text_box : option nat;
  scene_items : list nat
}.

(** The getter of the property [visible]. *)
Definition visible_get (o : TrackListOverlay) : bool :=
  match text_box o with
  | None => false
  | Some box => default false (tb_visible <$> text_boxes o !! box)
  end.

(** The setter of [visible]. *)
Definition visible_set (val : bool) (o : TrackListOverlay) : TrackListOverlay :=
  match text_box o with
  | None => o
  | Some box =>
      let place tb :=
        if val then
          let pos := mapToScene o 10 10 in
          if negb (Qle_bool pos.1 0) then setPos pos tb else setPos (10 : Q, 10 : Q) tb
        else tb in
      mkTrackListOverlay (list_labels o) (list_track_color o) (mapToScene o)
        (alter (λ tb, setVisible val (place tb)) box (text_boxes o))
        (text_box o) (scene_items o)
  end.

(** [TrackListOverlay.add_to_scene]; [new_text_box] is the item that
    [QtTextWithBackground()] returns. *)
Definition list_add_to_scene (new_text_box : TextBox) (o : TrackListOverlay)
    (v : Video) (idx : Z) : TrackListOverlay :=
  let html := list_html (list_labels o) (list_track_color o) in
  let box := length (text_boxes o) in
  let created := mkTextBox html (7 # 10) (tb_pos new_text_box) (tb_visible new_text_box) in
  let o := mkTrackListOverlay (list_labels o) (list_track_color o) (mapToScene o)
             (text_boxes o ++ [created]) (Some box) (scene_items o) in
  let o := visible_set false o in
  mkTrackListOverlay (list_labels o) (list_track_color o) (mapToScene o)
    (text_boxes o) (text_box o) (scene_items o ++ [box]).

(** What is done with the overlay from outside: it is asked to draw
    itself, its visibility is set, or the view of the player is moved, which
    changes the point of the scene that a point of the viewport maps to. *)
Inductive list_call :=
| AddToScene (v : Video) (idx : Z)
| SetVisible (val : bool)
| MoveView (mapToScene : Z → Z → Q * Q).

Definition list_run (new_text_box : TextBox) (o : TrackListOverlay) (c : list_call)
  : TrackListOverlay :=
  match c with
  | AddToScene v idx => list_add_to_scene new_text_box o v idx
  | SetVisible val => visible_set val o
  | MoveView f =>
      mkTrackListOverlay (list_labels o) (list_track_color o) f
        (text_boxes o) (text_box o) (scene_items o)
  end.

(** The states that calls lead to: every text box created is an item of
    the scene, once; [self.text_box] is the one created last; and a box that
    is visible has been placed right of the scene's origin. *)
Definition list_state_ok (o : TrackListOverlay) : Prop :=
  scene_items o = seq 0 (length (text_boxes o))
  ∧ text_box o = (if decide (text_boxes o = []) then None
                  else Some (pred (length (text_boxes o))))
  ∧ Forall (λ tb, tb_visible tb = true → (0 < (tb_pos tb).1)%Q) (text_boxes o).

(** *** The behaviour in the words of the specification *)

(** The instance used for a track in a frame, and the sample a visible
    landmark contributes. *)
Definition inst_of (tr : Track) (frame : LabeledFrame) : option Instance :=
  head (filter (λ inst, track inst = tr) (instances frame)).

Definition sample (inst : Instance) (node : Node) : option (Coord * Coord) :=
  match inst_get inst node with
  | Some p => if visible p then Some (x p, y p) else None
  | None => None
  end.

Definition carry_forward (trail : list (Coord * Coord)) : list (Coord * Coord) :=
  match last trail with
  | Some pt => trail ++ [pt]
  | None => trail
  end.

(** The trail of one landmark after one more frame, as the specification
    words it: the sample if the track has an instance and the landmark is
    visible, otherwise the last known sample if there is one. *)
Definition stated_trail_step (tr : Track) (node : Node)
    (trail : list (Coord * Coord)) (frame : LabeledFrame) : list (Coord * Coord) :=
  match inst_of tr frame ≫= (λ inst, sample inst node) with
  | Some pt => trail ++ [pt]
  | None => carry_forward trail
  end.

(** The same step, carrying forward only in a frame where the track has an
    instance. *)
Definition trail_step (tr : Track) (node : Node)
    (trail : list (Coord * Coord)) (frame : LabeledFrame) : list (Coord * Coord) :=
  match inst_of tr frame with
  | None => trail
  | Some inst =>
      match sample inst node with
      | Some pt => trail ++ [pt]
      | None => carry_forward trail
      end
  end.

(** The two polygons of a trail, split at [half]: as the specification
    orders them (later half first, opaque), and earlier half first. *)
Definition stated_trail_calls (color : N * N * N) (trail : list (Coord * Coord))
  : list DrawCall :=
  let half := (length trail `div` 2)%nat in
  [mkDrawCall (drop half trail) color 1; mkDrawCall (take half trail) color (1 # 2)].

Definition trail_calls (color : N * N * N) (trail : list (Coord * Coord))
  : list DrawCall :=
  let half := (length trail `div` 2)%nat in
  [mkDrawCall (take half trail) color 1; mkDrawCall (drop half trail) color (1 # 2)].

(** All the polygons of one track, landmark after landmark. *)
Definition track_calls (o : TrackTrailOverlay) (frame_selection : list LabeledFrame)
    (tr : Track) : list DrawCall :=
  trail ← get_track_trails o frame_selection tr;
  trail_calls (get_track_color o tr) trail.

(** The tracks with an instance in one of the frames, and how many
    instances a track has in them. *)
Definition has_instance (tr : Track) (frames : list LabeledFrame) : Prop :=
  ∃ lf inst, lf ∈ frames ∧ inst ∈ instances lf ∧ track inst = tr.

Definition instance_count (tr : Track) (frames : list LabeledFrame) : nat :=
  sum_list ((λ lf, length (filter (λ inst, track inst = tr) (instances lf))) <$> frames).

(** One label of the track list, and the text in it: the name in bold, with
    the position in parentheses unless the name is that number. *)
Definition span (color : N * N * N) (text : string) : string :=
  "<span style='color:" +:+ html_color color +:+ "'>" +:+ text +:+ "</span>".

Definition label_text (idx : Z) (tr : Track) : string :=
  "<b>" +:+ track_name tr +:+ "</b>" +:+
  (if bool_decide (track_name tr = Py.str_of_int idx) then EmptyString
   else " (" +:+ Py.str_of_int idx +:+ ")").

End overlays.

(** *** A small store for the examples: one video, one landmark, tracks and
    coordinates that are numbers *)

Definition at_ (a b : Z) : Point (Coord := Z) := mkPoint a b true.
Definition hidden : Point (Coord := Z) := mkPoint 0 0 false.

Definition inst1 (tr : nat) (p : Point (Coord := Z)) : Instance (Track := nat) (Node := nat) :=
  mkInstance tr [(0%nat, p)].

Definition frame (idx : Z) (insts : list (Instance (Track := nat) (Node := nat) (Coord := Z)))
  : LabeledFrame (Video := nat) :=
  mkLabeledFrame 0%nat idx insts.

Definition overlay (frames : list (LabeledFrame (Track := nat) (Node := nat) (Video := nat) (Coord := Z)))
    (trail_length : Z) : TrackTrailOverlay :=
  mkTrackTrailOverlay (mkLabels frames [0%nat] [7%nat]) (λ _, (0, 0, 255)%N)
                      trail_length true.

(** Track 7 seen at (5,5), hidden for two frames, seen at (9,9). *)
Definition occluded_frames := [
  frame 1 [inst1 7 (at_ 5 5)]; frame 2 [inst1 7 hidden];
  frame 3 [inst1 7 hidden]; frame 4 [inst1 7 (at_ 9 9)] ].

(** Track 7 seen at (5,5), then absent from a frame that holds track 8. *)
Definition absent_frames := [
  frame 1 [inst1 7 (at_ 5 5)]; frame 2 [inst1 8 (at_ 1 1)] ].

(** Track 7 moving along the diagonal for four frames. *)
Definition diagonal_frames := [
  frame 1 [inst1 7 (at_ 1 1)]; frame 2 [inst1 7 (at_ 2 2)];
  frame 3 [inst1 7 (at_ 3 3)]; frame 4 [inst1 7 (at_ 4 4)] ].

End Tracks.

(** ** [sleap/gui/formbuilder.py] *)

Module Form.
Import Py Qt.

Section formbuilder.

Context `{RT : Runtime}.

(** *** [OptionalSpinWidget] *)

Inductive spin_widget :=
| IntSpin (s : QSpinBox)
| DoubleSpin (s : QDoubleSpinBox).

Record OptionalSpinWidget := mkOptionalSpinWidget {
  none_string : string;
  spin : spin_widget;
  check_widget : bool
}.

(** [OptionalSpinWidget.__init__]: the spinner is chosen by [type is "double"]. *)
Definition OptionalSpinWidget_new (type : str_obj) (none_string : string)
  : OptionalSpinWidget :=
  mkOptionalSpinWidget none_string
    (if is_literal type "double" then DoubleSpin QDoubleSpinBox_new
     else IntSpin QSpinBox_new)
    false.

(** [isNoneVal]: note that [("none")] and [("auto")] are strings, so [in]
    is the substring test there, and that [("", "none")] is a tuple. *)
Definition isNoneVal (w : OptionalSpinWidget) (val : pyval) : bool :=
  match val with
  | PyNone => true
  | PyStr s =>
      let ns := lower (none_string w) in
      if bool_decide (ns = EmptyString ∨ ns = "none") then contains (lower s) "none"
      else if contains ns "auto" then contains (lower s) "auto"
      else false
  | _ => false
  end.

Definition spin_value (s : spin_widget) : pyval :=
  match s with
  | IntSpin s => PyInt (sb_value s)
  | DoubleSpin s => PyFloat (dsb_value s)
  end.

Definition spin_setValue (val : pyval) (s : spin_widget) : result spin_widget :=
  match s with
  | IntSpin s => z ← arg_int val; Ok (IntSpin (sb_setValue z s))
  | DoubleSpin s => q ← arg_double val; Ok (DoubleSpin (dsb_setValue q s))
  end.

Definition OptionalSpinWidget_value (w : OptionalSpinWidget) : pyval :=
  if check_widget w then PyNone else spin_value (spin w).

Definition OptionalSpinWidget_setValue (val : pyval) (w : OptionalSpinWidget)
  : result OptionalSpinWidget :=
  let is_none := isNoneVal w val in
  let w := mkOptionalSpinWidget (none_string w) (spin w) is_none in
  if negb is_none then
    s ← spin_setValue val (spin w);
    Ok (mkOptionalSpinWidget (none_string w) s is_none)
  else Ok w.

(** *** [FieldComboWidget] *)

(** [options_list] is an attribute only once [set_options] has run. *)
Record FieldComboWidget := mkFieldComboWidget {
  result_as_idx : bool;
  add_blank_option : bool;
  options_list : option (list string);
  combo : QComboBox
}.

Definition FieldComboWidget_new (result_as_idx add_blank_option : bool)
  : FieldComboWidget :=
  mkFieldComboWidget result_as_idx add_blank_option None QComboBox_new.

Definition FieldComboWidget_value (w : FieldComboWidget) : pyval :=
  if result_as_idx w then
    let val := currentIndex (combo w) in
    let val := if add_blank_option w then val - 1 else val in
    PyInt val
  else PyStr (currentText (combo w)).

Definition FieldComboWidget_setValue (val : pyval) (w : FieldComboWidget)
  : result FieldComboWidget :=
  val ←
    match val with
    | PyInt z =>
        opts ← of_option AttributeError (options_list w);
        if (z <=? Z.of_nat (length opts)) && result_as_idx w
        then PyStr <$> of_option IndexError (index opts z)
        else Ok val
    | _ => Ok val
    end;
  Ok (mkFieldComboWidget (result_as_idx w) (add_blank_option w) (options_list w)
        (setCurrentText (str val) (combo w))).

Definition FieldComboWidget_set_options (opts : list string)
    (select_item : pyval) (w : FieldComboWidget) : result FieldComboWidget :=
  let c := clear (combo w) in
  let c := if add_blank_option w then addItem EmptyString c else c in
  let c :=
    foldl (λ c item,
             if bool_decide (item = "---") then insertSeparator_at_end c
             else addItem item c) c opts in
  let w := mkFieldComboWidget (result_as_idx w) (add_blank_option w) (Some opts) c in
  match select_item with
  | PyNone => Ok w
  | _ => FieldComboWidget_setValue select_item w
  end.

(** *** The widgets of a form *)

Inductive control :=
| DoubleSpinBox (s : QDoubleSpinBox)
| SpinBox (s : QSpinBox)
| OptionalSpin (s : OptionalSpinWidget)
| CheckBox (checked : bool)
| FieldCombo (c : FieldComboWidget)
| PushButton (text : string)
| LineEdit (text : string) (disabled : bool).

(** A widget carries its object name and its [field_data_type] property.  A
    [StackBuilderWidget] owns the menu and one [FormBuilderLayout] per page,
    in the dict [page_layouts]; a layout is its dict [fields]. *)
Inductive widget :=
| Leaf (objectName field_data_type : string) (c : control)
| StackBuilderWidget (objectName field_data_type : string)
    (option_list : list string) (combo_box : QComboBox)
    (page_layouts : list (string * list (string * widget))).

Abbreviation layout := (list (string * widget)).

Definition objectName (w : widget) : string :=
  match w with
  | Leaf n _ _ => n
  | StackBuilderWidget n _ _ _ _ => n
  end.

Definition field_data_type (w : widget) : string :=
  match w with
  | Leaf _ t _ => t
  | StackBuilderWidget _ t _ _ _ => t
  end.

(** [type(w) == StackBuilderWidget] and [type(w) == QPushButton] (no
    [QLabel] is ever stored in [fields]). *)
Definition is_stack (w : widget) : bool :=
  match w with
  | StackBuilderWidget _ _ _ _ _ => true
  | _ => false
  end.

Definition is_button (w : widget) : bool :=
  match w with
  | Leaf _ _ (PushButton _) => true
  | _ => false
  end.

(** [StackBuilderWidget.value] and [setValue]. *)
Definition stack_setValue (val : pyval) (option_list : list string)
    (combo_box : QComboBox) : QComboBox :=
  match val with
  | PyStr s =>
      match list_find (λ o, o = s) option_list with
      | Some (idx, _) => setCurrentIndex (Z.of_nat idx) combo_box
      | None => combo_box
      end
  | _ => combo_box
  end.

(** The first half of [get_widget_value]: the dispatch on the methods the
    widget has ([isChecked], then [value], then [text]). *)
Definition read_widget (w : widget) : pyval :=
  match w with
  | Leaf _ _ c =>
      match c with
      | CheckBox b => PyBool b
      | PushButton _ => PyBool false
      | SpinBox s => PyInt (sb_value s)
      | DoubleSpinBox s => PyFloat (dsb_value s)
      | OptionalSpin s => OptionalSpinWidget_value s
      | FieldCombo c => FieldComboWidget_value c
      | LineEdit t _ => PyStr t
      end
  | StackBuilderWidget _ _ _ combo_box _ => PyStr (currentText combo_box)
  end.

Definition get_widget_value (w : widget) : result pyval :=
  let val := read_widget w in
  let t := field_data_type w in
  if bool_decide (t = "sci") then PyFloat <$> float val
  else if bool_decide (t = "int") then PyInt <$> int val
  else if String.prefix "file_" t then
    Ok (match val with
        | PyStr s => if bool_decide (s = "None") then PyNone else val
        | _ => val
        end)
  else Ok val.

Definition set_control (val : pyval) (c : control) : result control :=
  match c with
  | CheckBox _ => CheckBox <$> arg_bool val
  | PushButton t => _ ← arg_bool val; Ok (PushButton t)
  | SpinBox s => z ← arg_int val; Ok (SpinBox (sb_setValue z s))
  | DoubleSpinBox s => q ← arg_double val; Ok (DoubleSpinBox (dsb_setValue q s))
  | OptionalSpin s => OptionalSpin <$> OptionalSpinWidget_setValue val s
  | FieldCombo c => FieldCombo <$> FieldComboWidget_setValue val c
  | LineEdit _ d => Ok (LineEdit (le_setText (str val)) d)
  end.

Definition set_widget_value (w : widget) (val : pyval) : result widget :=
  match w with
  | Leaf n t c => Leaf n t <$> set_control val c
  | StackBuilderWidget n t opts combo_box pages =>
      Ok (StackBuilderWidget n t opts (stack_setValue val opts combo_box) pages)
  end.

(** The dict comprehension of [get_form_data]: the value of every widget
    with a name that is not a button. *)
Definition own_data_step (acc : result (gmap string pyval)) (kw : string * widget)
  : result (gmap string pyval) :=
  data ← acc;
  let w := kw.2 in
  if negb (String.length (objectName w) =? 0)%nat && negb (is_button w)
  then val ← get_widget_value w; Ok (<[objectName w := val]> data)
  else Ok data.

Definition own_form_data (fields : layout) : result (gmap string pyval) :=
  foldl own_data_step (Ok ∅) fields.

(** [data.update(stack)] for the data of a stacked widget. *)
Definition stack_data_step (get_data : widget → result (gmap string pyval))
    (acc : result (gmap string pyval)) (kw : string * widget)
  : result (gmap string pyval) :=
  data ← acc;
  if is_stack kw.2 then stack ← get_data kw.2; Ok (stack ∪ data) else Ok data.

(** [FormBuilderLayout.get_form_data], given [get_data] of the stacked
    widgets: the comprehension, updated with the data of each of them. *)
Definition form_data_with (get_data : widget → result (gmap string pyval))
    (fields : layout) : result (gmap string pyval) :=
  data ← own_form_data fields;
  foldl (stack_data_step get_data) (Ok data) fields.

(** [StackBuilderWidget.get_data]: [page_layouts[self.value()].get_form_data()].
    The form data of every page is written down and the one of the current
    page is taken, which is the recursion the termination check accepts. *)
Fixpoint get_data (w : widget) : result (gmap string pyval) :=
  match w with
  | Leaf _ _ _ => Raise AttributeError
  | StackBuilderWidget _ _ _ combo_box pages =>
      let per_page := map (λ p, (p.1, form_data_with get_data p.2)) pages in
      mjoin_result (of_option KeyError (dict_get (currentText combo_box) per_page))
  end.

Definition get_form_data (fields : layout) : result (gmap string pyval) :=
  form_data_with get_data fields.

(** [FormBuilderLayout.set_form_data]; [data] is the dict in the order of
    its items, and a name that is not in [fields] is passed over. *)
Definition set_data_step (acc : result layout) (item : string * pyval) : result layout :=
  fields ← acc;
  match dict_get item.1 fields with
  | Some w => w' ← set_widget_value w item.2; Ok (dict_set item.1 w' fields)
  | None => Ok fields
  end.

Definition set_form_data (fields : layout) (data : list (string * pyval))
  : result layout :=
  foldl set_data_step (Ok fields) data.

(** [FormBuilderLayout.find_field], given [find_field] of the stacked
    widgets. *)
Definition find_field_with (stack_find : widget → result (list widget))
    (field_name : string) (fields : layout) : result (list widget) :=
  let found :=
    filter (λ w, objectName w = field_name ∧ is_button w = false) (fields.*2) in
  foldl (λ acc kw,
           found ← acc;
           if is_stack kw.2 then more ← stack_find kw.2; Ok (found ++ more)
           else Ok found)
        (Ok found) fields.

(** [StackBuilderWidget.find_field]. *)
Fixpoint stack_find_field (field_name : string) (w : widget) : result (list widget) :=
  match w with
  | Leaf _ _ _ => Raise AttributeError
  | StackBuilderWidget _ _ _ combo_box pages =>
      let per_page :=
        map (λ p, (p.1, find_field_with (stack_find_field field_name) field_name p.2))
            pages in
      mjoin_result (of_option KeyError (dict_get (currentText combo_box) per_page))
  end.

Definition find_field (fields : layout) (field_name : string) : result (list widget) :=
  find_field_with (stack_find_field field_name) field_name fields.

(** *** [build_form] *)

(** One entry of [items_to_create]: the keys the builder reads.  [name] and
    [type] are always there; [i_default] is [None] when the key is absent and
    [Some PyNone] for a YAML null; [i_pages] holds, for a stacked field, the
    list of items under the key of each page. *)
Inductive item := Item {
  i_name : string;
  i_type : string;
  i_label : option string;
  i_default : option pyval;
  i_options : option string;
  i_range : option string;
  i_dtype : option string;
  i_type_options : option string;
  i_pages : list (string * list item)
}.

(** [item["default"] > 100] and [item["default"] * 10]. *)
Definition gt_100 (v : pyval) : result bool :=
  match num_of v with
  | Some q => Ok (negb (Qle_bool q 100))
  | None => Raise TypeError
  end.

Definition times_10 (v : pyval) : pyval :=
  match v with
  | PyInt z => PyInt (z * 10)
  | PyBool b => PyInt (Z_of_bool b * 10)
  | PyFloat q => PyFloat (q * 10)
  | _ => v
  end.

(** The branches of [build_form] that create a widget without sub-forms.
    The string given to [OptionalSpinWidget] is an element of the list made
    by [split], a fresh object. *)
Definition build_control (field_options_lists : list (string * list string))
    (it : item) : result control :=
  let ty := i_type it in
  let dflt := of_option KeyError (i_default it) in
  if bool_decide (ty = "double") then
    d ← dflt; q ← arg_double d;
    Ok (DoubleSpinBox (dsb_setValue q QDoubleSpinBox_new))
  else if bool_decide (ty = "int") then
    field ←
      match i_range it with
      | Some r =>
          bounds ← mapM int_of_str (split "," r);
          match bounds with
          | [lo; hi] => lo ← c_int lo; hi ← c_int hi; Ok (sb_setRange lo hi QSpinBox_new)
          | _ => Raise ValueError
          end
      | None =>
          d ← dflt; big ← gt_100 d;
          if big : bool then hi ← arg_int (times_10 d); Ok (sb_setRange 0 hi QSpinBox_new)
          else Ok QSpinBox_new
      end;
    d ← dflt; z ← arg_int d;
    Ok (SpinBox (sb_setValue z field))
  else if bool_decide (ty = "optional_int" ∨ ty = "optional_double" ∨ ty = "auto_int") then
    let spin_type := mk_str (List.last (split "_" ty) EmptyString) false in
    let none_string := if String.prefix "auto" ty then "auto" else "none" in
    d ← dflt;
    OptionalSpin <$>
      OptionalSpinWidget_setValue d (OptionalSpinWidget_new spin_type none_string)
  else if bool_decide (ty = "bool") then
    d ← dflt; CheckBox <$> arg_bool d
  else if bool_decide (ty = "list") then
    let result_as_optional_idx :=
      bool_decide (i_type_options it = Some "optional_index") in
    let field := FieldComboWidget_new result_as_optional_idx result_as_optional_idx in
    FieldCombo <$>
      match dict_get (i_name it) field_options_lists with
      | Some opts => FieldComboWidget_set_options opts PyNone field
      | None =>
          match i_options it with
          | Some opts =>
              FieldComboWidget_set_options (split "," opts)
                (default (PyStr EmptyString) (i_default it)) field
          | None => Ok field
          end
      end
  else if bool_decide (ty = "button") then
    PushButton <$> of_option KeyError (i_label it)
  else if bool_decide (ty = "string" ∨ ty = "optional_string") then
    let val := default (PyStr EmptyString) (i_default it) in
    let val := match val with PyNone => PyStr EmptyString | _ => val end in
    Ok (LineEdit (le_setText (str val)) false)
  else
    Ok (LineEdit (le_setText (str (default (PyStr EmptyString) (i_default it))))
                 (bool_decide (head (split "_" ty) = Some "file"))).

(** The loop of [build_form], given the builder of one field:
    [self.fields[item["name"]] = field]. *)
Definition build_form_step (build : item → result widget) (acc : result layout)
    (it : item) : result layout :=
  fields ← acc; w ← build it; Ok (dict_set (i_name it) w fields).

Definition build_form_with (build : item → result widget) (items : list item)
  : result layout :=
  foldl (build_form_step build) (Ok []) items.

(** One pass of the loop over the options in [StackBuilderWidget.__init__]:
    the layout built for the page is stored in [page_layouts] and the page is
    added to the menu. *)
Definition add_page (built : list (string * result layout))
    (acc : result (list (string * layout) * QComboBox)) (page : string)
  : result (list (string * layout) * QComboBox) :=
  st ← acc;
  lay ← mjoin_result (of_option KeyError (dict_get page built));
  Ok (dict_set page lay st.1, addItem page st.2).

(** One pass of the loop of [build_form]: the widget stored under the name
    of the item.  For a stacked field this is [StackBuilderWidget.__init__],
    which builds a [FormBuilderLayout] for every option.  The row of the form
    needs [item["label"]] unless the type is found in the string
    [("stacked")] or [("button")]. *)
Fixpoint build_field (field_options_lists : list (string * list string))
    (it : item) : result widget :=
  let ty := i_type it in
  let field_data_type := default ty (i_dtype it) in
  w ←
    (if bool_decide (ty = "stacked") then
       opts ← of_option KeyError (i_options it);
       let option_list := split "," opts in
       let built :=
         map (λ p, (p.1, build_form_with (build_field field_options_lists) p.2))
             (i_pages it) in
       st ← foldl (add_page built) (Ok ([], QComboBox_new)) option_list;
       d ← of_option KeyError (i_default it);
       Ok (StackBuilderWidget (i_name it) field_data_type option_list
             (stack_setValue d option_list st.2) st.1)
     else Leaf (i_name it) field_data_type <$> build_control field_options_lists it);
  if contains ty "stacked" || contains ty "button" then Ok w
  else _ ← of_option KeyError (i_label it); Ok w.

(** [FormBuilderLayout(items_to_create, field_options_lists).fields]. *)
Definition build_form (field_options_lists : list (string * list string))
    (items : list item) : result layout :=
  build_form_with (build_field field_options_lists) items.

(** *** [YamlFormWidget] *)

(** [YamlFormWidget.__getitem__] and [__setitem__]: [self.fields[key]]
    raises [KeyError] for a key that is not a field. *)
Definition __getitem__ (fields : layout) (key : string) : result pyval :=
  w ← of_option KeyError (dict_get key fields);
  get_widget_value w.

Definition __setitem__ (fields : layout) (key : string) (val : pyval) : result layout :=
  w ← of_option KeyError (dict_get key fields);
  w' ← set_widget_value w val;
  Ok (dict_set key w' fields).

(** *** [_make_file_button] *)

(** What a click on the button made for a [file_*] field does to the field
    [x]; [filename] is what the file or directory dialog returns, the empty
    string when it is cancelled.  For a type that ends neither in [open] nor
    in [dir] the button only prints a message. *)
Definition select_file (type : string) (filename : string) (x : widget) : widget :=
  let kind := List.last (split "_" type) EmptyString in
  if bool_decide (kind = "open") || bool_decide (kind = "dir") then
    if negb (String.length filename =? 0)%nat then
      match x with
      | Leaf n t (LineEdit _ disabled) => Leaf n t (LineEdit (le_setText filename) disabled)
      | _ => x
      end
    else x
  else x.

(** *** [set_field_options] *)

(** [field.set_options(options)] as [update_field_options] calls it: of
    the widgets of a form only a [FieldComboWidget] has the method. *)
Definition set_options (opts : list string) (w : widget) : result widget :=
  match w with
  | Leaf n t (FieldCombo c) =>
      (λ c', Leaf n t (FieldCombo c')) <$> FieldComboWidget_set_options opts PyNone c
  | _ => Raise AttributeError
  end.

(** [update_field_options]: one pass of the loop over [self.fields.items()],
    and the loop. *)
Definition update_options_step (field_options_lists : list (string * list string))
    (acc : result layout) (kw : string * widget) : result layout :=
  fields ← acc;
  match dict_get kw.1 field_options_lists with
  | Some opts => w' ← set_options opts kw.2; Ok (dict_set kw.1 w' fields)
  | None => Ok fields
  end.

Definition update_field_options (field_options_lists : list (string * list string))
    (fields : layout) : result layout :=
  foldl (update_options_step field_options_lists) (Ok fields) fields.

(** One pass of the loop over [self.stacked] in [set_field_options]. *)
Definition stacked_options_step (stack_set : widget → result widget)
    (acc : result layout) (kw : string * widget) : result layout :=
  fields ← acc;
  if is_stack kw.2 then w' ← stack_set kw.2; Ok (dict_set kw.1 w' fields)
  else Ok fields.

(** [FormBuilderLayout.set_field_options], given [set_field_options] of the
    stacked widgets.  [field_options_lists] is what the dict of the layout
    holds before the call.  The layouts of the pages have the same entries in
    theirs: a form built with options lists shares one dict among all its
    layouts, a form built without gives each layout an empty dict of its own,
    and this method, called on the form, writes the same entry into the dict
    of every layout. *)
Definition set_field_options_with (stack_set : widget → result widget)
    (field_options_lists : list (string * list string))
    (field_name : string) (options_list : list string) (fields : layout)
  : result layout :=
  let field_options_lists := dict_set field_name options_list field_options_lists in
  fields ← foldl (stacked_options_step stack_set) (Ok fields) fields;
  update_field_options field_options_lists fields.

(** [StackBuilderWidget.set_field_options]: [set_field_options] of the
    layout of every page. *)
Fixpoint stack_set_field_options (field_options_lists : list (string * list string))
    (field_name : string) (options_list : list string) (w : widget) : result widget :=
  match w with
  | Leaf _ _ _ => Raise AttributeError
  | StackBuilderWidget n t opts combo_box pages =>
      let per_page :=
        map (λ p, (p.1, set_field_options_with
                          (stack_set_field_options field_options_lists field_name
                                                   options_list)
                          field_options_lists field_name options_list p.2))
            pages in
      pages' ← mapM (λ p : string * result layout, lay ← p.2; Ok (p.1, lay)) per_page;
      Ok (StackBuilderWidget n t opts combo_box pages')
  end.

(** [YamlFormWidget.set_field_options], which is the one of its layout:
    the entries of the dict and the fields after the call. *)
Definition set_field_options (field_options_lists : list (string * list string))
    (field_name : string) (options_list : list string) (fields : layout)
  : result (list (string * list string) * layout) :=
  fields' ← set_field_options_with
              (stack_set_field_options field_options_lists field_name options_list)
              field_options_lists field_name options_list fields;
  Ok (dict_set field_name options_list field_options_lists, fields').

(** *** The behaviour in the words of the specification *)

(** The user picks entry [i] of the menu of a list field. *)
Definition FieldComboWidget_select (i : Z) (w : FieldComboWidget) : FieldComboWidget :=
  mkFieldComboWidget (result_as_idx w) (add_blank_option w) (options_list w)
                     (setCurrentIndex i (combo w)).

(** The entry of the menu that [set_options] makes of an option. *)
Definition option_item (opt : string) : combo_item :=
  if bool_decide (opt = "---") then mkItem EmptyString true else mkItem opt false.

(** The matches among the form's own fields. *)
Definition own_matches (field_name : string) (fields : layout) : list widget :=
  filter (λ w, objectName w = field_name ∧ is_button w = false) (fields.*2).

(** The layout of the page that the menu of a stacked widget shows. *)
Definition current_page (w : widget) : result layout :=
  match w with
  | Leaf _ _ _ => Raise AttributeError
  | StackBuilderWidget _ _ _ combo_box pages =>
      of_option KeyError (dict_get (currentText combo_box) pages)
  end.

(** A control with this name that is one of the form's own fields, or is
    found, in the same way, on the selected page of one of its stacked
    widgets. *)
Inductive on_selected_page (field_name : string) : layout → widget → Prop :=
| on_form fields w :
    w ∈ own_matches field_name fields → on_selected_page field_name fields w
| on_page fields stack page w :
    stack ∈ fields.*2 → current_page stack = Ok page →
    on_selected_page field_name page w → on_selected_page field_name fields w.

(** Every stacked widget, on every page, has a layout for the text its menu
    shows. *)
Fixpoint pages_ok (w : widget) : bool :=
  match w with
  | Leaf _ _ _ => true
  | StackBuilderWidget _ _ _ combo_box pages =>
      bool_decide (is_Some (dict_get (currentText combo_box) pages))
      && forallb (λ p, forallb (λ kw, pages_ok kw.2) p.2) pages
  end.

Definition form_pages_ok (fields : layout) : bool :=
  forallb (λ kw, pages_ok kw.2) fields.

(** The names of the fields on the pages of a stacked widget, all pages and
    all depths, and those below the fields of a form. *)
Fixpoint nested_names (w : widget) : list string :=
  match w with
  | Leaf _ _ _ => []
  | StackBuilderWidget _ _ _ _ pages =>
      p ← pages; kw ← p.2; objectName kw.2 :: nested_names kw.2
  end.


(** A widget that can be read, whose menu, if it is a stacked widget, lists
    its options with one selected, and whose pages, one per option, hold
    widgets of the same kind. *)
Fixpoint wf_widget (w : widget) : bool :=
  match get_widget_value w with Ok _ => true | Raise _ => false end
  && match w with
     | Leaf _ _ _ => true
     | StackBuilderWidget _ _ opts combo_box pages =>
         bool_decide (item_text <$> items combo_box = opts)
         && bool_decide (0 ≤ currentIndex combo_box < count combo_box)
         && forallb (λ o, bool_decide (is_Some (dict_get o pages))) opts
         && forallb (λ p, forallb (λ kw, wf_widget kw.2) p.2) pages
     end.


(** The values that satisfy the constraints of a field: its type, its range
    and decimals, the entries of its menu, the length a text field holds. *)
Definition plain_type (t : string) : bool :=
  negb (bool_decide (t = "sci")) && negb (bool_decide (t = "int")).

Definition keeps_text (t s : string) : bool :=
  plain_type t && negb (String.prefix "file_" t && bool_decide (s = "None")).

Definition accepts_int (s : QSpinBox) (v : pyval) : bool :=
  match v with
  | PyInt z =>
      bool_decide (sb_minimum s ≤ z ≤ sb_maximum s) && bool_decide (- 2 ^ 31 ≤ z < 2 ^ 31)
  | _ => false
  end.

Definition accepts_double (s : QDoubleSpinBox) (v : pyval) : bool :=
  match v with
  | PyFloat q =>
      Qle_bool (dsb_minimum s) q && Qle_bool q (dsb_maximum s)
      && bool_decide ((Qnum q * 10 ^ Z.of_N (dsb_decimals s)) `mod` Z.pos (Qden q) = 0)
  | _ => false
  end.

Definition accepts_control (t : string) (c : control) (v : pyval) : bool :=
  match c with
  | SpinBox s => accepts_int s v
  | DoubleSpinBox s => accepts_double s v && negb (bool_decide (t = "int"))
  | OptionalSpin s =>
      match v with
      | PyNone => plain_type t
      | _ =>
          match spin s with
          | IntSpin s' => accepts_int s' v
          | DoubleSpin s' => accepts_double s' v && negb (bool_decide (t = "int"))
          end
      end
  | CheckBox _ => match v with PyBool _ => true | _ => false end
  | FieldCombo c =>
      if result_as_idx c then
        match v, options_list c with
        | PyInt z, Some opts =>
            bool_decide (0 ≤ z)
            && match opts !! Z.to_nat z with
               | Some o =>
                   findText o (combo c) =? z + (if add_blank_option c then 1 else 0)
               | None => false
               end
        | _, _ => false
        end
      else
        match v with
        | PyStr s => keeps_text t s && (0 <=? findText s (combo c))
        | _ => false
        end
  | PushButton _ => false
  | LineEdit _ _ =>
      match v with
      | PyStr s => keeps_text t s && (Z.of_nat (String.length s) <=? 32767)
      | PyNone => String.prefix "file_" t
      | _ => false
      end
  end.

Definition accepts (w : widget) (v : pyval) : bool :=
  negb (String.length (objectName w) =? 0)%nat
  && match w with
     | Leaf _ t c => accepts_control t c v
     | StackBuilderWidget _ t opts combo_box _ =>
         match v with
         | PyStr s =>
             keeps_text t s && bool_decide (s ∈ opts)
             && bool_decide (item_text <$> items combo_box = opts)
         | _ => false
         end
     end.

(** What writing a value into a widget leaves as it was. *)
Definition same_shape (w w' : widget) : Prop :=
  objectName w' = objectName w ∧ is_button w' = is_button w
  ∧ is_stack w' = is_stack w ∧ nested_names w' = nested_names w.



(** The form after [set_field_options], read off the dict: the list field
    under a key that has an entry shows the options of the entry, on the form
    and on every page of its stacked widgets, shown or not. *)
Definition options_field (fol : list (string * list string)) (k : string)
    (w : widget) : widget :=
  match dict_get k fol, w with
  | Some opts, Leaf n t (FieldCombo c) =>
      match FieldComboWidget_set_options opts PyNone c with
      | Ok c' => Leaf n t (FieldCombo c')
      | Raise _ => w
      end
  | _, _ => w
  end.

Fixpoint options_pages (fol : list (string * list string)) (w : widget) : widget :=
  match w with
  | Leaf _ _ _ => w
  | StackBuilderWidget n t opts combo_box pages =>
      StackBuilderWidget n t opts combo_box
        (map (λ p, (p.1, map (λ kw, (kw.1, options_field fol kw.1 (options_pages fol kw.2)))
                             p.2))
             pages)
  end.

Definition options_form (fol : list (string * list string)) (fields : layout) : layout :=
  map (λ kw, (kw.1, options_field fol kw.1 (options_pages fol kw.2))) fields.

(** Every field under a key that has an entry in the dict is a list
    field, on the form and on every page. *)
Definition is_list_field (w : widget) : bool :=
  match w with
  | Leaf _ _ (FieldCombo _) => true
  | _ => false
  end.

Definition options_field_ok (fol : list (string * list string)) (k : string)
    (w : widget) : bool :=
  match dict_get k fol with
  | Some _ => is_list_field w
  | None => true
  end.

Fixpoint options_pages_ok (fol : list (string * list string)) (w : widget) : bool :=
  match w with
  | Leaf _ _ _ => true
  | StackBuilderWidget _ _ _ _ pages =>
      forallb (λ p, forallb (λ kw, options_field_ok fol kw.1 kw.2
                                   && options_pages_ok fol kw.2) p.2) pages
  end.

Definition options_form_ok (fol : list (string * list string)) (fields : layout) : bool :=
  forallb (λ kw, options_field_ok fol kw.1 kw.2 && options_pages_ok fol kw.2) fields.

(** The fields of a layout are a dict: no key twice, on the form and on
    every page. *)
Fixpoint keys_unique (w : widget) : bool :=
  match w with
  | Leaf _ _ _ => true
  | StackBuilderWidget _ _ _ _ pages =>
      forallb (λ p, bool_decide (NoDup (p.2.*1))
                    && forallb (λ kw, keys_unique kw.2) p.2) pages
  end.

Definition form_keys_unique (fields : layout) : bool :=
  bool_decide (NoDup (fields.*1)) && forallb (λ kw, keys_unique kw.2) fields.

End formbuilder.

(** *** Forms for the examples *)

(** A runtime for the examples, which convert no number to or from text. *)
Definition example_runtime : Runtime := {|
  str_of_float := λ _, "0.0";
  float_of_str := λ _, Raise ValueError;
  int_of_str := λ _, Raise ValueError
|}.

Definition field (name type : string) (default : option pyval) : item :=
  Item name type (Some name) default None None None None [].

(** A list field in optional-index mode over the options a and b. *)
Definition index_list_item : item :=
  Item "node" "list" (Some "node") None (Some "a,b") None None (Some "optional_index") [].

(** An [optional_double] field whose default is none. *)
Definition optional_double_item : item := field "sigma" "optional_double" (Some PyNone).

(** A form with an integer field and a stacked field of two pages, the
    first one selected. *)
Definition stacked_items : list item := [
  field "batch" "int" (Some (PyInt 5));
  Item "method" "stacked" None (Some (PyStr "one")) (Some "one,two") None None None
       [("one", [field "n" "int" (Some (PyInt 3))]);
        ("two", [field "s" "string" None])] ].

(** The form that [build_form] makes of [stacked_items]. *)
Definition stacked_form : list (string * widget) := [
  ("batch", Leaf "batch" "int" (SpinBox (mkQSpinBox 0 99 5)));
  ("method",
   StackBuilderWidget "method" "stacked" ["one"; "two"]
     (mkQComboBox [mkItem "one" false; mkItem "two" false] 0)
     [("one", [("n", Leaf "n" "int" (SpinBox (mkQSpinBox 0 99 3)))]);
      ("two", [("s", Leaf "s" "string" (LineEdit EmptyString false))])]) ].

(** A runtime for the examples that read numbers: [int(s)] for a decimal
    numeral with an optional minus sign. *)
Definition digit_value (c : ascii) : option Z :=
  let n := Z.of_nat (nat_of_ascii c) in
  if (48 <=? n) && (n <=? 57) then Some (n - 48) else None.

Fixpoint read_digits (acc : Z) (s : string) : result Z :=
  match s with
  | EmptyString => Ok acc
  | String c s' =>
      match digit_value c with
      | Some d => read_digits (10 * acc + d) s'
      | None => Raise ValueError
      end
  end.

Definition read_int (s : string) : result Z :=
  match s with
  | EmptyString => Raise ValueError
  | String "-" (String c s') => Z.opp <$> read_digits 0 (String c s')
  | _ => read_digits 0 s
  end.

Definition decimal_runtime : Runtime := {|
  str_of_float := λ _, "0.0";
  float_of_str := λ _, Raise ValueError;
  int_of_str := read_int
|}.

(** An integer field with a range, and one without. *)
Definition ranged_int_item : item :=
  Item "epochs" "int" (Some "Epochs") (Some (PyInt 500)) None (Some "1,1000") None None [].

Definition plain_int_item : item := field "batch" "int" (Some (PyInt 8)).

(** A form in which the page shown by the stacked widget has a field with
    the name of one of the form's own fields. *)
Definition clash_form : list (string * widget) := [
  ("n", Leaf "n" "int" (SpinBox (mkQSpinBox 0 99 1)));
  ("method",
   StackBuilderWidget "method" "stacked" ["one"]
     (mkQComboBox [mkItem "one" false] 0)
     [("one", [("n", Leaf "n" "int" (SpinBox (mkQSpinBox 0 99 3)))])]) ].

(** A form with a list field, and a list field of the same name on the
    page that its stacked widget does not show. *)
Definition node_form : list (string * widget) := [
  ("node", Leaf "node" "list" (FieldCombo (FieldComboWidget_new false false)));
  ("method",
   StackBuilderWidget "method" "stacked" ["one"; "two"]
     (mkQComboBox [mkItem "one" false; mkItem "two" false] 0)
     [("one", [("n", Leaf "n" "int" (SpinBox (mkQSpinBox 0 99 3)))]);
      ("two", [("node", Leaf "node" "list"
                          (FieldCombo (FieldComboWidget_new true true)))])]) ].

(** [node_form] after the options a and b have been set for the name
    node. *)
Definition node_form_ab : list (string * widget) := [
  ("node", Leaf "node" "list"
             (FieldCombo (mkFieldComboWidget false false (Some ["a"; "b"])
                (mkQComboBox [mkItem "a" false; mkItem "b" false] 0))));
  ("method",
   StackBuilderWidget "method" "stacked" ["one"; "two"]
     (mkQComboBox [mkItem "one" false; mkItem "two" false] 0)
     [("one", [("n", Leaf "n" "int" (SpinBox (mkQSpinBox 0 99 3)))]);
      ("two", [("node", Leaf "node" "list"
                 (FieldCombo (mkFieldComboWidget true true (Some ["a"; "b"])
                    (mkQComboBox [mkItem EmptyString false; mkItem "a" false;
                                  mkItem "b" false] 0))))])]) ].

(** A form in which a page that the stacked widget does not show has a
    field with the name of one of the form's own fields. *)
Definition hidden_clash_form : list (string * widget) := [
  ("n", Leaf "n" "int" (SpinBox (mkQSpinBox 0 99 1)));
  ("method",
   StackBuilderWidget "method" "stacked" ["one"; "two"]
     (mkQComboBox [mkItem "one" false; mkItem "two" false] 0)
     [("one", [("k", Leaf "k" "int" (SpinBox (mkQSpinBox 0 99 2)))]);
      ("two", [("n", Leaf "n" "int" (SpinBox (mkQSpinBox 0 99 3)))])]) ].

End Form.

(** * Properties *)

(** ** Python built-ins *)

Module PyFacts.
Import Py.

(** *** Slices and sorting *)

Section lists.
Context {A : Type}.
Implicit Types l : list A.

Lemma slice_to_take (n : nat) l :
  (n ≤ length l)%nat → slice_to (Z.of_nat n) l = take n l.
Proof.
  intros Hn. unfold slice_to.
  destruct (Z.ltb_spec (Z.of_nat n) 0) as [?|_]; [lia|].
  by rewrite Z.min_l, Nat2Z.id by lia.
Qed.

Lemma slice_from_drop (n : nat) l :
  (n ≤ length l)%nat → slice_from (Z.of_nat n) l = drop n l.
Proof.
  intros Hn. unfold slice_from.
  destruct (Z.ltb_spec (Z.of_nat n) 0) as [?|_]; [lia|].
  by rewrite Z.min_l, Nat2Z.id by lia.
Qed.

(** [l[-0:]] is [l[0:]], the whole list. *)
Lemma slice_from_0 l : slice_from (- 0) l = l.
Proof.
  unfold slice_from. simpl. by rewrite Z.min_l by lia.
Qed.

(** [l[-n:]] for a positive [n]: the last [n] elements. *)
Lemma slice_from_last (n : Z) l :
  0 < n → slice_from (- n) l = drop (length l - Z.to_nat n) l.
Proof.
  intros Hn. unfold slice_from.
  destruct (Z.ltb_spec (- n) 0) as [_|?]; [|lia].
  f_equal. lia.
Qed.

Context (key : A → Z).

Lemma insert_by_Permutation x l : insert_by key x l ≡ₚ x :: l.
Proof.
  induction l as [|y l IH]; simpl; [done|].
  destruct (key x <=? key y); [done|].
  rewrite IH. apply Permutation_swap.
Qed.

Lemma sort_by_Permutation l : sort_by key l ≡ₚ l.
Proof.
  induction l as [|x l IH]; simpl; [done|].
  unfold sort_by in *. simpl. by rewrite insert_by_Permutation, IH.
Qed.

Lemma insert_by_Sorted x l :
  StronglySorted (key_le key) l → StronglySorted (key_le key) (insert_by key x l).
Proof.
  induction 1 as [|y l Hl IH Hy]; simpl.
  - repeat constructor.
  - destruct (Z.leb_spec (key x) (key y)) as [Hxy|Hxy].
    + constructor; [by constructor|].
      constructor; [done|].
      eapply Forall_impl; [exact Hy|]. unfold key_le. intros; lia.
    + constructor; [done|].
      rewrite insert_by_Permutation. constructor; [unfold key_le; lia|done].
Qed.

Lemma sort_by_Sorted l : StronglySorted (key_le key) (sort_by key l).
Proof.
  induction l as [|x l IH]; [constructor|].
  by apply insert_by_Sorted.
Qed.

End lists.

(** *** Strings *)

Lemma append_assoc (a b c : string) : (a +:+ b) +:+ c = a +:+ b +:+ c.
Proof.
  induction a as [|ch a IH]; [done|].
  change (String ch ((a +:+ b) +:+ c) = String ch (a +:+ b +:+ c)). by f_equal.
Qed.

Lemma append_nil_r (a : string) : a +:+ EmptyString = a.
Proof.
  induction a as [|ch a IH]; [done|].
  change (String ch (a +:+ EmptyString) = String ch a). by f_equal.
Qed.

(** Joining with a separator, as a loop that puts the separator before
    every piece but the first. *)
Lemma join_loop (sep : string) (pieces : list string) :
  Forall (λ e, e ≠ EmptyString) pieces →
  foldl (λ acc e, (if bool_decide (acc ≠ EmptyString) then acc +:+ sep else acc) +:+ e)
        EmptyString pieces
  = String.concat sep pieces.
Proof.
  set (step := λ acc e, (if bool_decide (acc ≠ EmptyString) then acc +:+ sep else acc) +:+ e).
  assert (Hne : ∀ a b, a ≠ EmptyString → a +:+ b ≠ EmptyString).
  { by intros [|??] ? ?. }
  assert (Hgen : ∀ es acc e, e ≠ EmptyString → Forall (λ e, e ≠ EmptyString) es →
    foldl step (acc +:+ e) es = acc +:+ String.concat sep (e :: es)).
  { induction es as [|e' es IH]; intros acc e He Hes.
    - done.
    - inv Hes. change (foldl step (acc +:+ e) (e' :: es))
        with (foldl step (step (acc +:+ e) e') es).
      unfold step at 2. rewrite bool_decide_eq_true_2.
      2:{ destruct acc; [done|]. done. }
      rewrite IH by done.
      change (String.concat sep (e :: e' :: es))
        with (e +:+ sep +:+ String.concat sep (e' :: es)).
      by rewrite !append_assoc. }
  intros Hall. destruct pieces as [|e es]; [done|]. inv Hall.
  exact (Hgen es EmptyString e ltac:(done) ltac:(done)).
Qed.

(** *** Dicts *)

Section dicts.
Context {V : Type}.
Implicit Types d : list (string * V).

Lemma dict_get_map {W} (f : V → W) (k : string) d :
  dict_get k (map (λ p, (p.1, f p.2)) d) = f <$> dict_get k d.
Proof.
  induction d as [|[k' v] d IH]; simpl; [done|]. by case_bool_decide.
Qed.

Lemma dict_get_elem (k : string) (v : V) d :
  dict_get k d = Some v → (k, v) ∈ d.
Proof.
  induction d as [|[k' v'] d IH]; simpl; [done|].
  case_bool_decide; intros; simplify_eq; [left|right; auto].
Qed.

Lemma dict_get_set_eq (k : string) (v : V) d :
  dict_get k (dict_set k v d) = Some v.
Proof.
  induction d as [|[k' v'] d IH]; simpl.
  - by rewrite bool_decide_eq_true_2.
  - case_bool_decide; simpl; [by rewrite bool_decide_eq_true_2|].
    by rewrite bool_decide_eq_false_2.
Qed.

Lemma dict_get_set_ne (k k2 : string) (v : V) d :
  k ≠ k2 → dict_get k2 (dict_set k v d) = dict_get k2 d.
Proof.
  intros Hne. induction d as [|[k' v'] d IH]; simpl.
  - by rewrite bool_decide_eq_false_2.
  - case_bool_decide; simpl; subst.
    + by rewrite !bool_decide_eq_false_2.
    + by rewrite IH.
Qed.


Lemma dict_set_elem (k : string) (v : V) d (kv : string * V) :
  kv ∈ dict_set k v d → kv = (k, v) ∨ kv ∈ d.
Proof.
  induction d as [|[k' v'] d IH]; simpl.
  - rewrite list_elem_of_singleton. auto.
  - case_bool_decide; rewrite !elem_of_cons.
    + intros [->|?]; auto.
    + intros [->|Hin]; [auto|]. destruct (IH Hin); auto.
Qed.

End dicts.

(** *** Results *)

Lemma mapM_Ok {A B} (f : A → result B) (l : list A) (ys : list B) :
  mapM f l = Ok ys ↔ Forall2 (λ x y, f x = Ok y) l ys.
Proof.
  revert ys. induction l as [|x l IH]; intros ys; simpl; unfold mret, result_ret.
  - split; [intros; simplify_eq; constructor|by inversion 1].
  - destruct (f x) as [y|e] eqn:Hfx; simpl.
    + destruct (mapM f l) as [k|e] eqn:Hm; simpl.
      * split.
        -- intros; simplify_eq. constructor; [done|]. by apply IH.
        -- inversion 1 as [|???? Hy Hl]; simplify_eq.
           apply IH in Hl. congruence.
      * split; [done|]. inversion 1 as [|???? Hy Hl]; simplify_eq.
        by apply IH in Hl.
    + split; [done|]. inversion 1; congruence.
Qed.

Lemma mapM_success {A B} (f : A → result B) (l : list A) :
  (∀ x, x ∈ l → ∃ y, f x = Ok y) → ∃ ys, mapM f l = Ok ys.
Proof.
  induction l as [|x l IH]; intros Hl.
  - by eexists.
  - destruct (Hl x) as [y Hy]; [left|].
    destruct IH as [ys Hys]; [intros; apply Hl; by right|].
    exists (y :: ys). simpl. by rewrite Hy, Hys.
Qed.

Lemma bind_Ok {A B} (m : result A) (f : A → result B) (b : B) :
  m ≫= f = Ok b ↔ ∃ a, m = Ok a ∧ f a = Ok b.
Proof.
  destruct m as [a|e]; simpl; split; try (intros (a' & Ha & Hf); congruence); eauto.
  done.
Qed.

(** *** Substrings *)

Lemma append_cons (c : ascii) (s t : string) :
  String c s +:+ t = String c (s +:+ t).
Proof. done. Qed.

Lemma append_nil_l (s : string) : EmptyString +:+ s = s.
Proof. done. Qed.

Lemma prefix_spec (s1 s2 : string) :
  String.prefix s1 s2 = true ↔ ∃ post, s2 = s1 +:+ post.
Proof.
  revert s1. induction s2 as [|b s2 IH]; intros [|a s1]; simpl.
  - split; [by exists EmptyString|done].
  - split; [done|]. intros [post Hpost]. by rewrite append_cons in Hpost.
  - split; [|done]. intros _. by exists (String b s2).
  - destruct (ascii_dec a b) as [->|Hne].
    + rewrite IH. split; intros [post Hpost]; exists post.
      * by rewrite append_cons, Hpost.
      * rewrite append_cons in Hpost. by injection Hpost.
    + split; [done|]. intros [post Hpost]. rewrite append_cons in Hpost.
      injection Hpost as -> _. done.
Qed.

(** [needle in hay] holds when the needle occurs somewhere in the hay. *)
Lemma contains_spec (needle hay : string) :
  contains needle hay = true ↔ ∃ pre post, hay = pre +:+ needle +:+ post.
Proof.
  induction hay as [|c hay IH].
  - cbn [contains]. rewrite orb_false_r, prefix_spec. split.
    + intros [post Hpost]. by exists EmptyString, post.
    + intros (pre & post & Heq). destruct pre; [|by rewrite append_cons in Heq].
      by exists post.
  - cbn [contains]. rewrite orb_true_iff, prefix_spec, IH. split.
    + intros [[post Hpost]|(pre & post & Heq)].
      * by exists EmptyString, post.
      * exists (String c pre), post. by rewrite append_cons, Heq.
    + intros (pre & post & Heq). destruct pre as [|c' pre].
      * left. by exists post.
      * right. rewrite append_cons in Heq. injection Heq as -> ->. by exists pre, post.
Qed.

End PyFacts.

(** ** Track overlays *)

Module TracksFacts.
Import Py PyFacts Tracks.

Section overlays.
Context {Track Node Video Coord : Type}.
Context `{!EqDecision Track, !EqDecision Node, !EqDecision Video}.

Abbreviation Trail := (list (Coord * Coord)).
Abbreviation Inst := (Instance (Track := Track) (Node := Node) (Coord := Coord)).
Abbreviation Frame :=
  (LabeledFrame (Track := Track) (Node := Node) (Video := Video) (Coord := Coord)).
Abbreviation Store :=
  (Labels (Track := Track) (Node := Node) (Video := Video) (Coord := Coord)).
Abbreviation Overlay :=
  (TrackTrailOverlay (Track := Track) (Node := Node) (Video := Video) (Coord := Coord)).
Abbreviation Call := (DrawCall (Coord := Coord)).

Implicit Types (o : Overlay) (tr : Track) (node : Node) (trail : Trail) (inst : Inst).

(** *** The frame window *)

Lemma get_frame_selection_zero (lbls : Store) color sh (v : Video) idx :
  get_frame_selection (mkTrackTrailOverlay lbls color 0 sh) v idx
  = sort_by frame_idx (find_range lbls v 0 (idx + 1)).
Proof. unfold get_frame_selection. simpl. apply slice_from_0. Qed.

(** For a positive trail length the window is what the specification says:
    the frames of the video up to the current index, in ascending order, cut
    to the last [trail_length] of them. *)
Lemma get_frame_selection_positive o (v : Video) idx :
  0 < trail_length o →
  let history := sort_by frame_idx (find_range (labels o) v 0 (idx + 1)) in
  let window := get_frame_selection o v idx in
  window = drop (length history - Z.to_nat (trail_length o)) history
  ∧ length window = (Z.to_nat (trail_length o) `min` length history)%nat
  ∧ StronglySorted (key_le frame_idx) window
  ∧ history ≡ₚ filter (λ lf, video lf = v ∧ 0 ≤ frame_idx lf ≤ idx)
                      (labeled_frames (labels o)).
Proof.
  intros Hpos history window.
  assert (Hw : window = drop (length history - Z.to_nat (trail_length o)) history).
  { unfold window, get_frame_selection. by apply slice_from_last. }
  split_and!; [done|..].
  - rewrite Hw, length_drop. lia.
  - rewrite Hw. pose proof (sort_by_Sorted frame_idx
      (find_range (labels o) v 0 (idx + 1))) as Hs. fold history in Hs.
    rewrite <-(take_drop (length history - Z.to_nat (trail_length o)) history) in Hs.
    by apply StronglySorted_app_1_r in Hs.
  - unfold history. rewrite sort_by_Permutation. unfold find_range.
    erewrite list_filter_iff; [done|]. intros lf. simpl.
    split; intros [? ?]; (split; [done|lia]).
Qed.

(** *** Trails *)

Lemma foldl_ext {A B} (f g : A → B → A) (l : list B) (a : A) :
  (∀ a b, f a b = g a b) → foldl f a l = foldl g a l.
Proof. intros Hfg. revert a. induction l; intros; simpl; [done|]. by rewrite Hfg. Qed.

Lemma alter_fixed {A} (f : A → A) (i : nat) (l : list A) :
  (∀ a, l !! i = Some a → f a = a) → alter f i l = l.
Proof.
  intros Hf. rewrite (list_alter_ext f id l l i); [by apply list_alter_id|done..].
Qed.

Lemma node_step_alter inst (all_trails : list Trail) (i : nat) node :
  node_step inst all_trails i node
  = alter (λ trail, match sample inst node with
                    | Some pt => trail ++ [pt]
                    | None => carry_forward trail
                    end) i all_trails.
Proof.
  unfold node_step.
  assert (Hcarry :
    match last (default [] (all_trails !! i)) with
    | Some pt => alter (λ trail, trail ++ [pt]) i all_trails
    | None => all_trails
    end = alter carry_forward i all_trails).
  { destruct (all_trails !! i) as [t|] eqn:Hi; simpl.
    - destruct (last t) as [q|] eqn:Hl.
      + apply list_alter_ext; [|done]. intros t' ?; simplify_eq.
        unfold carry_forward. by rewrite Hl.
      + symmetry. apply alter_fixed. intros t' ?; simplify_eq.
        unfold carry_forward. by rewrite Hl.
    - symmetry. apply alter_fixed. intros t' ?; simplify_eq. }
  unfold sample. destruct (inst_get inst node) as [p|]; [destruct (visible p)|]; done.
Qed.

(** The loop over the landmarks touches each trail once. *)
Lemma node_loop (f : Node → Trail → Trail) (ns : list Node) :
  ∀ (pre ts : list Trail),
    length ts = length ns →
    foldl (λ acc p, alter (f p.2) p.1 acc) (pre ++ ts)
          (imap (λ i n, (length pre + i, n)%nat) ns)
    = pre ++ zip_with f ns ts.
Proof.
  induction ns as [|n ns IH]; intros pre ts Hlen.
  - by destruct ts.
  - destruct ts as [|t ts]; [done|].
    rewrite imap_cons. simpl in *.
    rewrite Nat.add_0_r, alter_app_r_alt, Nat.sub_diag by lia. simpl.
    rewrite (imap_ext _ (λ i n', (length (pre ++ [f n t]) + i, n')%nat)).
    2:{ intros i n' _. simpl. rewrite length_app. simpl. f_equal. lia. }
    rewrite (cons_middle (f n t) pre ts), app_assoc.
    rewrite (IH (pre ++ [f n t]) ts) by lia.
    by rewrite <-app_assoc.
Qed.

(** [get_track_trails] computes, for each landmark on its own, the trail
    that [trail_step] builds frame after frame. *)
Lemma frame_step_map tr (ns : list Node) (ts : list Trail) (lf : Frame) :
  length ts = length ns →
  frame_step ns tr ts lf = zip_with (λ node trail, trail_step tr node trail lf) ns ts.
Proof.
  intros Hlen. unfold frame_step, trail_step, inst_of.
  destruct (filter _ (instances lf)) as [|inst rest]; simpl.
  - clear -Hlen. revert ts Hlen. induction ns; intros [|??] ?; simplify_eq/=; f_equal; auto.
  - rewrite (foldl_ext _ (λ acc p, alter
      (λ trail, match sample inst p.2 with
                | Some pt => trail ++ [pt]
                | None => carry_forward trail
                end) p.1 acc)) by (intros; apply node_step_alter).
    exact (node_loop (λ node trail, match sample inst node with
                                    | Some pt => trail ++ [pt]
                                    | None => carry_forward trail
                                    end) ns [] ts Hlen).
Qed.

Lemma get_track_trails_per_node o (sel : list Frame) tr :
  get_track_trails o sel tr
  = (λ node, foldl (trail_step tr node) [] sel) <$> nodes (labels o).
Proof.
  unfold get_track_trails.
  set (ns := nodes (labels o)).
  assert (Hgen : ∀ (g : Node → Trail),
    foldl (frame_step ns tr) (g <$> ns) sel
    = (λ node, foldl (trail_step tr node) (g node) sel) <$> ns).
  { induction sel as [|lf sel IH]; intros g; [done|]. simpl.
    rewrite frame_step_map by by rewrite length_fmap.
    rewrite zip_with_fmap_r, zip_with_diag.
    apply (IH (λ node, trail_step tr node (g node) lf)). }
  rewrite <-(Hgen (λ _, [])). f_equal.
  symmetry. by apply const_fmap.
Qed.

(** *** Drawing *)

Lemma draw_trail_calls color (scene : list Call) trail :
  draw_trail color scene trail = scene ++ trail_calls color trail.
Proof.
  unfold draw_trail, trail_calls.
  assert (Hhalf : Z.of_nat (length trail) `div` 2 = Z.of_nat (length trail `div` 2)).
  { by rewrite Nat2Z.inj_div. }
  assert (Hle : (length trail `div` 2 ≤ length trail)%nat).
  { apply Nat.Div0.div_le_upper_bound. lia. }
  rewrite Hhalf, slice_to_take, slice_from_drop by done.
  by rewrite <-app_assoc.
Qed.

Lemma draw_trails_calls color (scene : list Call) (trails : list Trail) :
  foldl (draw_trail color) scene trails = scene ++ (trails ≫= trail_calls color).
Proof.
  revert scene. induction trails as [|t ts IH]; intros scene; simpl.
  - by rewrite app_nil_r.
  - by rewrite IH, draw_trail_calls, <-app_assoc.
Qed.

Lemma add_to_scene_calls o (v : Video) idx (scene : list Call) :
  add_to_scene o v idx scene
  = scene ++ (if show o
              then get_tracks_in_frame o v idx true
                     ≫= track_calls o (get_frame_selection o v idx)
              else []).
Proof.
  unfold add_to_scene. destruct (show o); simpl; [|by rewrite app_nil_r].
  generalize (get_tracks_in_frame o v idx true) as trs.
  intros trs. revert scene. induction trs as [|tr trs IH]; intros scene; simpl.
  - by rewrite app_nil_r.
  - rewrite IH, draw_trails_calls, <-app_assoc. done.
Qed.

(** *** The tracks of the window *)

Lemma tracks_of_frames_elem tr (frames : list Frame) :
  tr ∈ (frames ≫= λ lf, instances lf ≫= λ inst, [track inst])
  ↔ has_instance tr frames.
Proof.
  unfold has_instance. rewrite list_elem_of_bind. split.
  - intros (lf & Hin & Hlf). apply list_elem_of_bind in Hin as (inst & Hin & ?).
    apply list_elem_of_singleton in Hin. eauto.
  - intros (lf & inst & ? & ? & <-). exists lf. split; [|done].
    apply list_elem_of_bind. exists inst. by rewrite list_elem_of_singleton.
Qed.

Lemma tracks_of_frames_count tr (frames : list Frame) :
  length (filter (λ t, t = tr) (frames ≫= λ lf, instances lf ≫= λ inst, [track inst]))
  = instance_count tr frames.
Proof.
  unfold instance_count. induction frames as [|lf frames IH]; [done|].
  rewrite bind_cons, filter_app, length_app, IH. simpl. f_equal.
  induction (instances lf) as [|inst insts IHi]; [done|].
  rewrite bind_cons. simpl. rewrite !filter_cons.
  destruct (decide (track inst = tr)); simpl; by rewrite IHi.
Qed.

(** *** The track list *)

Context (track_name : Track → string).

Lemma track_text_label idx tr :
  track_text track_name idx tr = label_text track_name idx tr.
Proof.
  unfold track_text, label_text.
  destruct (decide (track_name tr = str_of_int idx)) as [Heq|Hne].
  - rewrite bool_decide_eq_false_2, bool_decide_eq_true_2 by (done || by intros []).
    by rewrite append_nil_r.
  - rewrite bool_decide_eq_true_2, bool_decide_eq_false_2 by (done || by intros ?).
    by rewrite !append_assoc.
Qed.

Lemma list_loop (color_of : Track → N * N * N) (trs : list Track) :
  ∀ (k : nat) (html : string),
    foldl (λ html p, list_step track_name color_of html p.1 p.2) html
          (imap (λ i tr, ((k + i)%nat, tr)) trs)
    = foldl (λ acc e, (if bool_decide (acc ≠ EmptyString) then acc +:+ "<br />" else acc) +:+ e)
            html
            (imap (λ i tr, span (color_of tr)
                             (label_text track_name (Z.of_nat (k + i) + 1) tr)) trs).
Proof.
  induction trs as [|tr trs IH]; intros k html; [done|].
  rewrite !imap_cons. simpl.
  rewrite (imap_ext _ (λ i tr, ((S k + i)%nat, tr))) by (intros; simpl; f_equal; lia).
  rewrite IH. f_equal.
  - unfold list_step, span. by rewrite track_text_label.
  - apply imap_ext. intros i tr' _. simpl. do 3 f_equal. lia.
Qed.

(** *** More on the frame window *)

Lemma slice_from_positive {A} (n : Z) (l : list A) :
  0 ≤ n → slice_from n l = drop (Z.to_nat n) l.
Proof.
  intros Hn. unfold slice_from.
  destruct (Z.ltb_spec n 0) as [?|_]; [lia|].
  destruct (Z.le_gt_cases n (Z.of_nat (length l))).
  - by rewrite Z.min_l.
  - rewrite Z.min_r, Nat2Z.id, !drop_ge by lia. done.
Qed.

Lemma filter_all {A} (P : A → Prop) `{!∀ a, Decision (P a)} (l : list A) :
  Forall P l → filter P l = l.
Proof.
  induction 1 as [|a l Ha _ IH]; [done|]. by rewrite filter_cons_True, IH.
Qed.

Lemma filter_none {A} (P : A → Prop) `{!∀ a, Decision (P a)} (l : list A) :
  Forall (λ a, ¬ P a) l → filter P l = [].
Proof.
  induction 1 as [|a l Ha _ IH]; [done|]. by rewrite filter_cons_False.
Qed.

Lemma sorted_last_keys {A} (key : A → Z) (m : Z) (l : list A) :
  StronglySorted (key_le key) l → Forall (λ a, key a ≤ m) l →
  l = filter (λ a, key a ≠ m) l ++ filter (λ a, key a = m) l.
Proof.
  induction 1 as [|a l Hs IH Ha]; intros Hm; [done|].
  apply Forall_cons in Hm as [Ham Hm].
  rewrite !filter_cons. destruct (decide (key a = m)) as [Heq|Hne].
  - rewrite decide_False by (intros ?; done).
    assert (Hall : Forall (λ b, key b = m) l).
    { rewrite Forall_forall in Ha, Hm. apply Forall_forall. intros b Hb.
      specialize (Ha b Hb). specialize (Hm b Hb). unfold key_le in Ha. lia. }
    rewrite (filter_none (λ b, key b ≠ m) l).
    2:{ eapply Forall_impl; [exact Hall|]. simpl. intros b ? ?. done. }
    by rewrite (filter_all (λ b, key b = m) l).
  - rewrite decide_True by done. simpl. f_equal. by apply IH.
Qed.

(** X1.  The window for every trail length: for a positive length n the
    last n frames of the history of the video up to the current frame, in
    ascending order of frame index; for a length of zero or below, the
    history without its first -n frames, so a negative length cuts the oldest
    frames off instead of the newest. *)
Theorem window_by_trail_length o (v : Video) idx :
  let history := sort_by frame_idx (find_range (labels o) v 0 (idx + 1)) in
  let n := trail_length o in
  get_frame_selection o v idx
  = if 0 <? n then drop (length history - Z.to_nat n) history
    else drop (Z.to_nat (- n)) history.
Proof.
  intros history n. unfold get_frame_selection. fold history. fold n.
  destruct (Z.ltb_spec 0 n).
  - by apply slice_from_last.
  - apply slice_from_positive. lia.
Qed.

(** X2.  Whatever the trail length, the window holds labeled frames of the
    store only, all of the given video and with a frame index from 0 to the
    current one, in ascending order of frame index, and no more of them than
    the store has; before frame 0 it is empty. *)
Theorem window_frames_of_video o (v : Video) idx :
  let window := get_frame_selection o v idx in
  (∀ lf, lf ∈ window →
         lf ∈ labeled_frames (labels o) ∧ video lf = v ∧ 0 ≤ frame_idx lf ≤ idx)
  ∧ StronglySorted (key_le frame_idx) window
  ∧ window ⊆+ labeled_frames (labels o)
  ∧ (idx < 0 → window = []).
Proof.
  intros window.
  set (history := sort_by frame_idx (find_range (labels o) v 0 (idx + 1))).
  assert (Hdrop : ∃ k, window = drop k history).
  { unfold window, get_frame_selection, slice_from. by eexists. }
  destruct Hdrop as [k Hk].
  assert (Hperm : history ≡ₚ find_range (labels o) v 0 (idx + 1))
    by apply sort_by_Permutation.
  split_and!.
  - intros lf Hlf. rewrite Hk in Hlf. apply subseteq_drop in Hlf.
    rewrite Hperm in Hlf. unfold find_range in Hlf.
    apply list_elem_of_filter in Hlf as [[? ?] ?]. split_and!; (done || lia).
  - rewrite Hk. pose proof (sort_by_Sorted frame_idx
      (find_range (labels o) v 0 (idx + 1))) as Hs. fold history in Hs.
    rewrite <-(take_drop k history) in Hs. by apply StronglySorted_app_1_r in Hs.
  - rewrite Hk. etrans; [apply sublist_submseteq, sublist_drop|].
    rewrite Hperm. apply sublist_submseteq, sublist_filter.
  - intros Hneg. rewrite Hk.
    assert (Hnil : history = []).
    { apply Permutation_nil_r. rewrite Hperm. unfold find_range.
      rewrite filter_none; [done|].
      apply Forall_forall. intros lf _ [_ ?]. lia. }
    rewrite Hnil. by rewrite drop_nil.
Qed.

(** X3.  When the trail length is positive and the store has no more
    labeled frames for the current frame of the video than the trail is long
    (it normally has one), these frames are in the window, and every track
    with an instance in the current frame is among the tracks for which
    trails are drawn. *)
Theorem current_frame_in_window o (v : Video) idx :
  0 ≤ idx → 0 < trail_length o →
  (length (find_idx (labels o) v idx) ≤ Z.to_nat (trail_length o))%nat →
  find_idx (labels o) v idx ⊆ get_frame_selection o v idx
  ∧ get_tracks_in_frame o v idx false ⊆ get_tracks_in_frame o v idx true.
Proof.
  intros Hidx Hpos Hlen.
  set (history := sort_by frame_idx (find_range (labels o) v 0 (idx + 1))).
  assert (Hperm : history ≡ₚ find_range (labels o) v 0 (idx + 1))
    by apply sort_by_Permutation.
  assert (Hsub : find_idx (labels o) v idx ⊆ get_frame_selection o v idx).
  { assert (Hcur : filter (λ lf : Frame, frame_idx lf = idx) history
                   ≡ₚ find_idx (labels o) v idx).
    { rewrite Hperm. unfold find_range, find_idx. rewrite list_filter_filter.
      erewrite list_filter_iff; [done|]. intros lf. simpl. split.
      - intros (? & ? & ?). done.
      - intros (? & ?). split_and!; (done || lia). }
    assert (Hsplit : history = filter (λ lf : Frame, frame_idx lf ≠ idx) history
                               ++ filter (λ lf : Frame, frame_idx lf = idx) history).
    { apply sorted_last_keys; [apply sort_by_Sorted|].
      apply Forall_forall. intros lf Hlf. rewrite Hperm in Hlf.
      apply list_elem_of_filter in Hlf as [[? ?] ?]. lia. }
    destruct (get_frame_selection_positive o v idx Hpos) as (Hw & _).
    fold history in Hw. rewrite Hw. intros lf Hlf. rewrite <-Hcur in Hlf.
    rewrite Hsplit at 2. rewrite drop_app_le.
    - apply elem_of_app. by right.
    - rewrite Hsplit at 1. rewrite length_app, (Permutation_length Hcur). lia. }
  split; [done|].
  unfold get_tracks_in_frame. intros tr Htr.
  apply list_elem_of_bind in Htr as (lf & Htr & Hlf).
  apply list_elem_of_bind. exists lf. split; [done|]. by apply Hsub.
Qed.

(** *** More on trails *)

Lemma trail_step_sample tr node (lf : Frame) trail pt :
  pt ∈ trail_step tr node trail lf →
  pt ∈ trail ∨ ∃ inst, inst_of tr lf = Some inst ∧ sample inst node = Some pt.
Proof.
  unfold trail_step. destruct (inst_of tr lf) as [inst|]; [|by left].
  destruct (sample inst node) as [q|] eqn:Hq.
  - rewrite elem_of_app, list_elem_of_singleton. intros [?| ->]; [by left|].
    right. by exists inst.
  - unfold carry_forward. destruct (last trail) as [q|] eqn:Hl; [|by left].
    rewrite elem_of_app, list_elem_of_singleton. intros [?| ->]; left; [done|].
    by eapply last_Some_elem_of.
Qed.

Lemma trail_step_length tr node (lf : Frame) trail :
  (length (trail_step tr node trail lf)
   ≤ length trail + match inst_of tr lf with Some _ => 1 | None => 0 end)%nat.
Proof.
  unfold trail_step. destruct (inst_of tr lf) as [inst|]; [|lia].
  destruct (sample inst node); [rewrite length_app; simpl; lia|].
  unfold carry_forward. destruct (last trail); [rewrite length_app; simpl|]; lia.
Qed.

(** X4.  A trail never holds a point that was not seen: every sample of
    the trail of a landmark is the position of that landmark, visible, in the
    first instance of the track in one of the frames given. *)
Theorem trail_points_were_seen o (sel : list Frame) tr (i : nat) trail
    (pt : Coord * Coord) :
  get_track_trails o sel tr !! i = Some trail → pt ∈ trail →
  ∃ node lf inst,
    nodes (labels o) !! i = Some node ∧ lf ∈ sel
    ∧ inst_of tr lf = Some inst ∧ sample inst node = Some pt.
Proof.
  rewrite get_track_trails_per_node, list_lookup_fmap.
  destruct (nodes (labels o) !! i) as [node|]; [|done]. simpl.
  intros [= <-] Hpt. exists node.
  assert (Hgen : ∀ (frames : list Frame) (acc : Trail),
    pt ∈ foldl (trail_step tr node) acc frames →
    pt ∈ acc ∨ ∃ lf inst, lf ∈ frames ∧ inst_of tr lf = Some inst
                          ∧ sample inst node = Some pt).
  { induction frames as [|lf frames IH]; intros acc Hin; [by left|].
    simpl in Hin. apply IH in Hin as [Hin|(lf' & inst & ? & ? & ?)].
    - apply trail_step_sample in Hin as [?|(inst & ? & ?)]; [by left|].
      right. exists lf, inst. split_and!; [left|done..].
    - right. exists lf', inst. split_and!; [by right|done..]. }
  apply Hgen in Hpt as [Hpt|(lf & inst & ? & ? & ?)]; [by apply elem_of_nil in Hpt|].
  by exists lf, inst.
Qed.

(** X5.  [get_track_trails] returns one trail for each landmark of the
    store, in their order, and a trail has at most one sample for each of
    the given frames in which the track has an instance. *)
Theorem trail_per_landmark o (sel : list Frame) tr :
  length (get_track_trails o sel tr) = length (nodes (labels o))
  ∧ Forall (λ trail,
              (length trail ≤ length (filter (λ lf, is_Some (inst_of tr lf)) sel))%nat)
           (get_track_trails o sel tr).
Proof.
  rewrite get_track_trails_per_node, length_fmap. split; [done|].
  apply Forall_fmap, Forall_forall. intros node _. simpl.
  assert (Hgen : ∀ (frames : list Frame) (acc : Trail),
    (length (foldl (trail_step tr node) acc frames)
     ≤ length acc + length (filter (λ lf, is_Some (inst_of tr lf)) frames))%nat).
  { induction frames as [|lf frames IH]; intros acc; simpl; [lia|].
    etrans; [apply IH|]. pose proof (trail_step_length tr node lf acc) as Hl.
    rewrite filter_cons. destruct (inst_of tr lf) as [inst|] eqn:Hi.
    - rewrite decide_True by done. simpl. lia.
    - rewrite decide_False by (by intros [? ?]). lia. }
  apply (Hgen sel []).
Qed.

(** X6.  When the overlay is shown, [add_to_scene] keeps what is in the
    scene and adds two polygons for every landmark of the store and every
    instance of the window, whether the trail has samples or not; when it is
    not shown the scene stays as it is. *)
Theorem add_to_scene_polygon_count o (v : Video) idx (scene : list Call) :
  take (length scene) (add_to_scene o v idx scene) = scene
  ∧ length (add_to_scene o v idx scene)
    = (length scene
       + (if show o
          then 2 * length (nodes (labels o)) * length (get_tracks_in_frame o v idx true)
          else 0))%nat.
Proof.
  rewrite add_to_scene_calls. split; [by rewrite take_app_length|].
  rewrite length_app. f_equal. destruct (show o); [|done].
  assert (Htr : ∀ tr, length (track_calls o (get_frame_selection o v idx) tr)
                      = (2 * length (nodes (labels o)))%nat).
  { intros tr. unfold track_calls. rewrite get_track_trails_per_node.
    generalize (nodes (labels o)). intros ns.
    induction ns as [|node ns IHn]; [done|].
    rewrite fmap_cons, bind_cons, length_app, IHn. simpl. lia. }
  induction (get_tracks_in_frame o v idx true) as [|tr trs IH]; [simpl; lia|].
  rewrite bind_cons, length_app, IH, Htr. simpl. lia.
Qed.

(** *** The visibility of the track list *)

Lemma visible_set_lookup val (o : TrackListOverlay (Track := Track) (Node := Node)
    (Video := Video) (Coord := Coord)) (box : nat) (tb : TextBox) :
  text_box o = Some box → text_boxes o !! box = Some tb →
  ∃ tb', text_boxes (visible_set val o) !! box = Some tb'
         ∧ tb_visible tb' = val
         ∧ tb_html tb' = tb_html tb ∧ tb_opacity tb' = tb_opacity tb
         ∧ (val = true → (0 < (tb_pos tb').1)%Q)
         ∧ (val = false → tb_pos tb' = tb_pos tb).
Proof.
  intros Hbox Htb. unfold visible_set. rewrite Hbox. simpl.
  rewrite list_lookup_alter_eq, Htb. simpl. eexists. split; [reflexivity|].
  destruct val; simpl; [|by split_and!].
  destruct (Qle_bool (mapToScene o 10 10).1 0) eqn:Hle; simpl; split_and!; try done.
  intros _. apply Qnot_le_lt. intros Hx. apply Qle_bool_iff in Hx. congruence.
Qed.

Lemma visible_set_ok val (o : TrackListOverlay (Track := Track) (Node := Node)
    (Video := Video) (Coord := Coord)) :
  list_state_ok o → list_state_ok (visible_set val o).
Proof.
  intros Hok. unfold visible_set.
  destruct (text_box o) as [box|] eqn:Hb; [|done].
  destruct Hok as (Hscene & Hbox & Hvis).
  unfold list_state_ok. simpl. rewrite length_alter. split_and!; [done|..].
  - rewrite Hb in Hbox. rewrite Hbox. destruct (text_boxes o); [done|].
    rewrite !decide_False; [done|..]; by
      (intros Hnil; apply (f_equal length) in Hnil; rewrite ?length_alter in Hnil).
  - apply Forall_alter; [done|]. intros tb Htb _.
    destruct (visible_set_lookup val o box tb Hb Htb) as (tb' & Htb' & Hv & _ & _ & Hpos & _).
    unfold visible_set in Htb'. rewrite Hb in Htb'. simpl in Htb'.
    rewrite list_lookup_alter_eq, Htb in Htb'. simpl in Htb'. injection Htb' as <-.
    intros Hval. apply Hpos. by rewrite <-Hv.
Qed.

Lemma list_add_to_scene_boxes new_text_box
    (o : TrackListOverlay (Track := Track) (Node := Node) (Video := Video) (Coord := Coord))
    (v : Video) idx :
  let o' := list_add_to_scene track_name new_text_box o v idx in
  text_boxes o'
  = text_boxes o ++ [mkTextBox (list_html track_name (list_labels o) (list_track_color o))
                               (7 # 10) (tb_pos new_text_box) false]
  ∧ text_box o' = Some (length (text_boxes o))
  ∧ scene_items o' = scene_items o ++ [length (text_boxes o)].
Proof.
  unfold list_add_to_scene, visible_set. simpl.
  rewrite alter_app_r_alt, Nat.sub_diag by lia. done.
Qed.

Lemma list_run_ok new_text_box (calls : list list_call) :
  ∀ o : TrackListOverlay (Track := Track) (Node := Node) (Video := Video) (Coord := Coord),
    list_state_ok o → list_state_ok (foldl (list_run track_name new_text_box) o calls).
Proof.
  induction calls as [|c calls IH]; intros o Hok; [done|].
  simpl. apply IH. destruct c as [v idx|val|f]; simpl.
  - destruct Hok as (Hscene & Hbox & Hvis).
    destruct (list_add_to_scene_boxes new_text_box o v idx) as (Hb & Ht & Hs).
    unfold list_state_ok. rewrite Hb, Ht, Hs, Hscene, length_app. simpl.
    split_and!.
    + by rewrite Nat.add_1_r, seq_S.
    + rewrite decide_False by (by destruct (text_boxes o)).
      f_equal. lia.
    + apply Forall_app. split; [done|]. by apply Forall_singleton.
  - by apply visible_set_ok.
  - done.
Qed.

(** X7.  Whatever calls are made on a track list overlay that starts
    without a text box, drawing it, setting its visibility and moving the
    view in any order: every text box created has been added to the scene
    once and stays there, [self.text_box] is the one created last, and a
    text box that is visible is at a point whose x coordinate is positive,
    since a box is hidden when it is created and placed whenever it is
    shown. *)
Theorem track_list_state
    (lbls : Store) (color_of : Track → N * N * N) (view : Z → Z → Q * Q)
    (new_text_box : TextBox) (calls : list list_call) :
  let o := foldl (list_run track_name new_text_box)
                 (mkTrackListOverlay lbls color_of view [] None []) calls in
  scene_items o = seq 0 (length (text_boxes o))
  ∧ text_box o = (if decide (text_boxes o = []) then None
                  else Some (pred (length (text_boxes o))))
  ∧ Forall (λ tb, tb_visible tb = true → (0 < (tb_pos tb).1)%Q) (text_boxes o).
Proof.
  intros o. apply (list_run_ok new_text_box calls). unfold list_state_ok. simpl.
  by split_and!.
Qed.

(** X8.  Setting [visible] and reading it back, after any calls: the
    value set is read back once the overlay has been drawn, and before that
    the setter does nothing and [False] is read, whatever was set.  The
    setter changes the text box created last and no other, so a box of an
    earlier drawing can no longer be hidden. *)
Theorem visible_set_then_get
    (lbls : Store) (color_of : Track → N * N * N) (view : Z → Z → Q * Q)
    (new_text_box : TextBox) (calls : list list_call) (val : bool) :
  let o := foldl (list_run track_name new_text_box)
                 (mkTrackListOverlay lbls color_of view [] None []) calls in
  visible_get (visible_set val o)
  = match text_box o with Some _ => val | None => false end
  ∧ (text_box o = None → visible_set val o = o)
  ∧ ∀ box, text_box o ≠ Some box →
           text_boxes (visible_set val o) !! box = text_boxes o !! box.
Proof.
  intros o.
  assert (Hok : list_state_ok o).
  { apply (list_run_ok new_text_box calls). unfold list_state_ok. simpl. by split_and!. }
  destruct Hok as (_ & Hbox & _). split_and!.
  - destruct (text_box o) as [box|] eqn:Hb.
    + destruct (decide (text_boxes o = [])) as [|Hne]; [done|].
      injection Hbox as ->.
      destruct (text_boxes o !! pred (length (text_boxes o))) as [tb|] eqn:Htb.
      * destruct (visible_set_lookup val o _ tb Hb Htb) as (tb' & Htb' & Hv & _).
        unfold visible_get.
        replace (text_box (visible_set val o)) with (text_box o)
          by (unfold visible_set; by rewrite Hb).
        rewrite Hb, Htb'. done.
      * apply lookup_ge_None in Htb. destruct (text_boxes o); [done|]. simpl in Htb. lia.
    + unfold visible_set. rewrite Hb. unfold visible_get. by rewrite Hb.
  - intros Hb. unfold visible_set. by rewrite Hb.
  - intros box Hne. unfold visible_set. destruct (text_box o) as [box'|]; [|done].
    simpl. apply list_lookup_alter_ne. congruence.
Qed.

(** X9.  Drawing the track list creates one text box with the html of the
    list and opacity 0.7, hidden whatever a new item is, makes it
    [self.text_box] and adds it to the scene after the items already there;
    the overlay then reads as not visible, while the text boxes of earlier
    drawings stay in the scene as they were, shown if they were shown. *)
Theorem list_add_to_scene_hidden (new_text_box : TextBox)
    (o : TrackListOverlay (Track := Track) (Node := Node) (Video := Video) (Coord := Coord))
    (v : Video) idx :
  let o' := list_add_to_scene track_name new_text_box o v idx in
  text_boxes o'
  = text_boxes o ++ [mkTextBox (list_html track_name (list_labels o) (list_track_color o))
                               (7 # 10) (tb_pos new_text_box) false]
  ∧ text_box o' = Some (length (text_boxes o))
  ∧ scene_items o' = scene_items o ++ [length (text_boxes o)]
  ∧ visible_get o' = false.
Proof.
  intros o'.
  destruct (list_add_to_scene_boxes new_text_box o v idx) as (Hb & Ht & Hs).
  fold o' in Hb, Ht, Hs. split_and!; [done..|].
  unfold visible_get. rewrite Ht, Hb.
  by rewrite lookup_app_r, Nat.sub_diag by lia.
Qed.

End overlays.

(** C1 (as amended).  Every trail is split at [half], the floor of half its
    length; the earlier half, the samples before index [half], is added to the
    scene first with alpha 1.0, the later half second with alpha 0.5, both in
    the colour the colour manager gives for the track; the polygons of all
    trails of all tracks follow each other in the scene. *)
Theorem add_to_scene_earlier_half_first
    {Track Node Video Coord : Type}
    `{!EqDecision Track, !EqDecision Node, !EqDecision Video}
    (o : TrackTrailOverlay (Track := Track) (Node := Node) (Video := Video) (Coord := Coord))
    (v : Video) (idx : Z) (scene : list DrawCall) :
  add_to_scene o v idx scene
  = scene ++
    (if show o then
       tr ← get_tracks_in_frame o v idx true;
       trail ← get_track_trails o (get_frame_selection o v idx) tr;
       let half := (length trail `div` 2)%nat in
       [mkDrawCall (take half trail) (get_track_color o tr) 1;
        mkDrawCall (drop half trail) (get_track_color o tr) (1 # 2)]
     else []).
Proof. apply add_to_scene_calls. Qed.

(** C1, the claim as worded: for the trail (1,1) (2,2) (3,3) (4,4) the code
    adds (1,1) (2,2) at alpha 1.0 first and (3,3) (4,4) at alpha 0.5 second,
    not the later half first. *)
Lemma later_half_first_counterexample :
  let o := overlay diagonal_frames 4 in
  get_track_trails o (get_frame_selection o 0%nat 4) 7%nat
    = [[(1, 1); (2, 2); (3, 3); (4, 4)]]
  ∧ take 2 (add_to_scene o 0%nat 4 [])
    = [mkDrawCall [(1, 1); (2, 2)] (0, 0, 255)%N 1;
       mkDrawCall [(3, 3); (4, 4)] (0, 0, 255)%N (1 # 2)]
  ∧ add_to_scene o 0%nat 4 []
    ≠ (tr ← get_tracks_in_frame o 0%nat 4 true;
       trail ← get_track_trails o (get_frame_selection o 0%nat 4) tr;
       stated_trail_calls (get_track_color o tr) trail).
Proof.
  split_and!; [by vm_compute..|].
  intros H. vm_compute in H. discriminate H.
Qed.

(** C2 (as amended).  For every track, the trail of every landmark is built
    frame after frame in the order of the window: in a frame where the track
    has an instance, the sample of the landmark is appended if it is visible,
    otherwise the last sample of the trail if there is one, otherwise
    nothing; in a frame where the track has no instance nothing is appended.
    A landmark seen at (5,5), hidden in the instances of the next two frames
    and seen at (9,9) in the fourth has the trail (5,5) (5,5) (5,5) (9,9). *)
Theorem trail_carry_forward :
  (∀ {Track Node Video Coord : Type}
     `{!EqDecision Track, !EqDecision Node, !EqDecision Video}
     (o : TrackTrailOverlay (Track := Track) (Node := Node) (Video := Video) (Coord := Coord))
     (frame_selection : list LabeledFrame) (tr : Track),
     get_track_trails o frame_selection tr
     = (λ node, foldl (trail_step tr node) [] frame_selection) <$> nodes (labels o))
  ∧ (let o := overlay occluded_frames 4 in
     get_track_trails o (get_frame_selection o 0%nat 4) 7%nat
     = [[(5, 5); (5, 5); (5, 5); (9, 9)]]).
Proof.
  split; [|by vm_compute].
  intros. apply get_track_trails_per_node.
Qed.

(** C2, the claim as worded: when the track has no instance at all in a
    frame, the last sample is not carried forward. *)
Lemma absent_track_counterexample :
  let o := overlay absent_frames 4 in
  get_frame_selection o 0%nat 2 = absent_frames
  ∧ get_track_trails o absent_frames 7%nat = [[(5, 5)]]
  ∧ get_track_trails o absent_frames 7%nat
    ≠ (λ node, foldl (stated_trail_step 7%nat node) [] absent_frames) <$> nodes (labels o).
Proof.
  split_and!; [by vm_compute..|].
  intros H. vm_compute in H. discriminate H.
Qed.

(** C3, at the failing input: with [trail_length = 0] the window is not
    empty, it is the whole history of the video up to the current frame, and
    trails are drawn over it. *)
Theorem zero_trail_length_keeps_history :
  let o := overlay diagonal_frames 0 in
  get_frame_selection o 0%nat 4 = diagonal_frames
  ∧ get_track_trails o (get_frame_selection o 0%nat 4) 7%nat
    = [[(1, 1); (2, 2); (3, 3); (4, 4)]]
  ∧ length (add_to_scene o 0%nat 4 []) = 8%nat.
Proof. by vm_compute. Qed.

(** C7 (as amended).  The tracks for which trails are drawn are the tracks
    of the instances of the frames of the window, frame after frame: a track
    is drawn if and only if it has an instance in the window, and it is drawn
    once for each instance it has there. *)
Theorem tracks_drawn_per_instance
    {Track Node Video Coord : Type}
    `{!EqDecision Track, !EqDecision Node, !EqDecision Video}
    (o : TrackTrailOverlay (Track := Track) (Node := Node) (Video := Video) (Coord := Coord))
    (v : Video) (idx : Z) :
  let window := get_frame_selection o v idx in
  let drawn := get_tracks_in_frame o v idx true in
  (∀ scene, add_to_scene o v idx scene
            = scene ++ (if show o then drawn ≫= track_calls o window else []))
  ∧ (∀ tr, tr ∈ drawn ↔ has_instance tr window)
  ∧ (∀ tr, length (filter (λ t, t = tr) drawn) = instance_count tr window).
Proof.
  intros window drawn. split_and!.
  - intros scene. apply add_to_scene_calls.
  - intros tr. apply tracks_of_frames_elem.
  - intros tr. apply tracks_of_frames_count.
Qed.

(** C7, the claim as worded: a track with an instance in four frames of the
    window is drawn four times, not once. *)
Lemma drawn_once_counterexample :
  let o := overlay diagonal_frames 4 in
  get_tracks_in_frame o 0%nat 4 true = [7; 7; 7; 7]%nat
  ∧ ¬ NoDup (get_tracks_in_frame o 0%nat 4 true)
  ∧ add_to_scene o 0%nat 4 []
    = track_calls o (get_frame_selection o 0%nat 4) 7%nat
      ++ track_calls o (get_frame_selection o 0%nat 4) 7%nat
      ++ track_calls o (get_frame_selection o 0%nat 4) 7%nat
      ++ track_calls o (get_frame_selection o 0%nat 4) 7%nat.
Proof.
  split_and!; [by vm_compute| |by vm_compute].
  intros H. vm_compute in H. inv H. set_solver.
Qed.

(** The html of the track list: one label for each of the first
    min(9, number of tracks) tracks of the store, joined by line breaks. *)
Lemma list_html_labels
    {Track Node Video Coord : Type} (track_name : Track → string)
    (lbls : Labels (Track := Track) (Node := Node) (Video := Video) (Coord := Coord))
    (color_of : Track → N * N * N) :
  let shown := take (9 `min` length (tracks lbls)) (tracks lbls) in
  list_html track_name lbls color_of
  = String.concat "<br />"
      (imap (λ i tr, span (color_of tr) (label_text track_name (Z.of_nat i + 1) tr)) shown)
  ∧ length shown = (9 `min` length (tracks lbls))%nat.
Proof.
  intros shown. split; [|unfold shown; rewrite length_take; lia].
  unfold list_html.
  replace (Z.min 9 (Z.of_nat (length (tracks lbls))))
    with (Z.of_nat (9 `min` length (tracks lbls))) by lia.
  rewrite slice_to_take by lia. fold shown.
  etrans; [exact (list_loop track_name color_of shown 0 EmptyString)|].
  apply join_loop.
  apply Forall_forall. intros e He.
  apply list_elem_of_lookup in He as [i Hi].
  rewrite list_lookup_imap in Hi.
  destruct (shown !! i); simplify_eq/=. done.
Qed.

(** C9.  [TrackListOverlay.add_to_scene] creates one text box, makes it
    [self.text_box] and adds it to the scene after the items that are there;
    the html it gives the box shows the first min(9, number of tracks) tracks
    of the store, in the order of the store, one label each, joined by line
    breaks; a label is the name of the track in bold, in the colour of the
    track, followed by its position, counted from 1, in parentheses exactly
    when the name is not that number written out. *)
Theorem track_list_shows_first_nine
    {Track Node Video Coord : Type} (track_name : Track → string)
    (new_text_box : TextBox)
    (o : TrackListOverlay (Track := Track) (Node := Node) (Video := Video) (Coord := Coord))
    (v : Video) (idx : Z) :
  let shown := take (9 `min` length (tracks (list_labels o))) (tracks (list_labels o)) in
  let label (i : nat) (tr : Track) : string :=
    "<span style='color:" +:+ html_color (list_track_color o tr) +:+ "'>"
    +:+ "<b>" +:+ track_name tr +:+ "</b>"
    +:+ (if bool_decide (track_name tr = str_of_int (Z.of_nat i + 1)) then EmptyString
         else " (" +:+ str_of_int (Z.of_nat i + 1) +:+ ")")
    +:+ "</span>" in
  let o' := list_add_to_scene track_name new_text_box o v idx in
  let box := length (text_boxes o) in
  length shown = (9 `min` length (tracks (list_labels o)))%nat
  ∧ text_box o' = Some box
  ∧ scene_items o' = scene_items o ++ [box]
  ∧ take box (text_boxes o') = text_boxes o
  ∧ ∃ tb, text_boxes o' !! box = Some tb
          ∧ tb_html tb = String.concat "<br />" (imap label shown).
Proof.
  intros shown label o' box.
  destruct (list_add_to_scene_boxes track_name new_text_box o v idx) as (Hb & Ht & Hs).
  fold o' in Hb, Ht, Hs. fold box in Ht, Hs.
  destruct (list_html_labels track_name (list_labels o) (list_track_color o))
    as [Hhtml Hlen].
  fold shown in Hhtml, Hlen. split_and!; [done..| |].
  - rewrite Hb. unfold box. by rewrite take_app_length.
  - eexists. split.
    + rewrite Hb. unfold box. by rewrite lookup_app_r, Nat.sub_diag by lia.
    + cbn [tb_html]. rewrite Hhtml. f_equal. apply imap_ext. intros i tr _.
      unfold label, span, label_text. by rewrite !append_assoc.
Qed.

(** Two of the four frames of [diagonal_frames] make the window of frame
    4, and the one labeled frame of frame 4 is in it. *)
Lemma current_frame_in_window_witness :
  let o := overlay diagonal_frames 2 in
  (0 ≤ 4 ∧ 0 < trail_length o
   ∧ (length (find_idx (labels o) 0%nat 4) ≤ Z.to_nat (trail_length o))%nat)
  ∧ find_idx (labels o) 0%nat 4 ⊆ get_frame_selection o 0%nat 4
  ∧ get_tracks_in_frame o 0%nat 4 false ⊆ get_tracks_in_frame o 0%nat 4 true.
Proof.
  intros o.
  assert (H1 : 0 ≤ 4) by lia.
  assert (H2 : 0 < trail_length o) by (simpl; lia).
  assert (H3 : (length (find_idx (labels o) 0%nat 4) ≤ Z.to_nat (trail_length o))%nat)
    by (vm_compute; lia).
  split; [done|]. exact (current_frame_in_window o 0%nat 4 H1 H2 H3).
Defined.

(** The point (5,5) of the trail over [occluded_frames], which holds it
    three times, was seen once, in frame 1. *)
Lemma trail_points_were_seen_witness :
  let o := overlay occluded_frames 4 in
  (get_track_trails o occluded_frames 7%nat !! 0%nat
   = Some [(5, 5); (5, 5); (5, 5); (9, 9)]
   ∧ (5, 5) ∈ [(5, 5); (5, 5); (5, 5); (9, 9)])
  ∧ ∃ node lf inst,
      nodes (labels o) !! 0%nat = Some node ∧ lf ∈ occluded_frames
      ∧ inst_of 7%nat lf = Some inst ∧ sample inst node = Some (5, 5).
Proof.
  intros o.
  assert (H1 : get_track_trails o occluded_frames 7%nat !! 0%nat
               = Some [(5, 5); (5, 5); (5, 5); (9, 9)]) by (by vm_compute).
  assert (H2 : (5, 5) ∈ [(5, 5); (5, 5); (5, 5); (9, 9)]) by left.
  split; [done|].
  exact (trail_points_were_seen o occluded_frames 7%nat 0%nat _ (5, 5) H1 H2).
Defined.

End TracksFacts.

(** ** The form builder *)

Module FormFacts.
Import Py PyFacts Qt Form.

Section formbuilder.
Context `{RT : Runtime}.

Abbreviation layout := (list (string * widget)).

(** *** Menus *)

Lemma findText_lookup (text : string) (c : QComboBox) (i : Z) :
  findText text c = i → 0 ≤ i →
  ∃ it, items c !! Z.to_nat i = Some it ∧ item_text it = text.
Proof.
  unfold findText. intros Hf Hi.
  destruct (list_find _ (items c)) as [[j it]|] eqn:Hfind; [|lia].
  apply list_find_Some in Hfind as (Hj & Ht & _).
  exists it. subst i. by rewrite Nat2Z.id.
Qed.

Lemma findText_bound (text : string) (c : QComboBox) :
  - 1 ≤ findText text c < count c.
Proof.
  unfold findText, count.
  destruct (list_find _ (items c)) as [[j it]|] eqn:Hfind; [|lia].
  apply list_find_Some in Hfind as (Hj & _). apply lookup_lt_Some in Hj. lia.
Qed.

Lemma setCurrentText_found (text : string) (c : QComboBox) :
  0 ≤ findText text c →
  setCurrentText text c = mkQComboBox (items c) (findText text c)
  ∧ currentText (setCurrentText text c) = text.
Proof.
  intros Hi. pose proof (findText_bound text c) as Hb.
  assert (Heq : setCurrentText text c = mkQComboBox (items c) (findText text c)).
  { unfold setCurrentText, setCurrentIndex.
    destruct (Z.ltb_spec (-1) (findText text c)); [|lia].
    destruct (Z.leb_spec 0 (findText text c)); [|lia].
    destruct (Z.ltb_spec (findText text c) (count c)); [|lia]. done. }
  split; [done|]. rewrite Heq. unfold currentText, itemText. simpl.
  destruct (Z.leb_spec 0 (findText text c)); [|lia].
  destruct (findText_lookup text c _ eq_refl Hi) as (it & -> & Ht). done.
Qed.

Lemma setCurrentText_items (text : string) (c : QComboBox) :
  items (setCurrentText text c) = items c.
Proof. unfold setCurrentText. by destruct (_ <? _). Qed.

Lemma setValue_shape (val : pyval) (w w' : FieldComboWidget) :
  FieldComboWidget_setValue val w = Ok w' →
  result_as_idx w' = result_as_idx w ∧ add_blank_option w' = add_blank_option w
  ∧ options_list w' = options_list w ∧ items (combo w') = items (combo w).
Proof.
  unfold FieldComboWidget_setValue. intros H.
  destruct (_ : result pyval) as [val'|] in H; simplify_eq/=.
  by rewrite setCurrentText_items.
Qed.

(** The items that [set_options] appends, one per option. *)
Lemma set_options_loop (opts : list string) (c : QComboBox) :
  items c ≠ [] →
  foldl (λ c item, if bool_decide (item = "---") then insertSeparator_at_end c
                   else addItem item c) c opts
  = mkQComboBox (items c ++ (option_item <$> opts)) (currentIndex c).
Proof.
  revert c. induction opts as [|o opts IH]; intros c Hc; simpl.
  - rewrite app_nil_r. by destruct c.
  - rewrite IH.
    + unfold option_item. case_bool_decide; simpl;
        destruct (items c) eqn:?; simplify_eq/=; by rewrite <-app_assoc.
    + case_bool_decide; simpl; by destruct (items c).
Qed.

Lemma set_options_items (opts : list string) (sel : pyval) (w w' : FieldComboWidget) :
  add_blank_option w = true →
  FieldComboWidget_set_options opts sel w = Ok w' →
  result_as_idx w' = result_as_idx w ∧ add_blank_option w' = true
  ∧ options_list w' = Some opts
  ∧ items (combo w') = mkItem EmptyString false :: (option_item <$> opts).
Proof.
  intros Hblank. unfold FieldComboWidget_set_options. rewrite Hblank.
  rewrite set_options_loop by done. simpl.
  destruct sel; intros H;
    try (apply setValue_shape in H as (-> & -> & -> & ->); done).
  by simplify_eq/=.
Qed.

(** The type option [optional_index] of a list field sets both flags of
    the menu, and the value of a list field is read as the menu gives it. *)
Lemma build_list_optional_index (fol : list (string * list string)) (it : item)
    (c : control) :
  i_type it = "list" → i_type_options it = Some "optional_index" →
  build_control fol it = Ok c →
  ∃ w, c = FieldCombo w ∧ result_as_idx w = true ∧ add_blank_option w = true.
Proof.
  intros Hty Hopt. unfold build_control. rewrite Hty, Hopt. simpl.
  destruct (dict_get (i_name it) fol) as [opts|].
  { intros; simplify_eq/=. by eexists. }
  destruct (i_options it) as [opts|]; [|intros; simplify_eq/=; by eexists].
  destruct (FieldComboWidget_set_options _ _ _) as [w'|e] eqn:Hset; [|done].
  intros; simplify_eq/=.
  destruct (set_options_items _ _ (FieldComboWidget_new true true) w' eq_refl Hset)
    as (Hi & Hb & _).
  exists w'. by rewrite Hi, Hb.
Qed.

Lemma get_list_value (n : string) (w : FieldComboWidget) :
  get_widget_value (Leaf n "list" (FieldCombo w)) = Ok (FieldComboWidget_value w).
Proof. done. Qed.

(** The values of a list field in optional-index mode, whose menu is a
    blank entry followed by one entry per option: with the blank entry
    selected [value] returns the current index less one, which is -1, and with
    the entry of an option selected the zero-based index of that option in the
    list of options. *)
Lemma optional_index_value (w : FieldComboWidget) (opts : list string)
    (sel : pyval) (w' : FieldComboWidget) :
  result_as_idx w = true → add_blank_option w = true →
  FieldComboWidget_set_options opts sel w = Ok w' →
  items (combo w') = mkItem EmptyString false :: (option_item <$> opts)
  ∧ FieldComboWidget_value (FieldComboWidget_select 0 w') = PyInt (-1)
  ∧ ∀ (k : nat) (opt : string), opts !! k = Some opt →
      items (combo w') !! S k = Some (option_item opt)
      ∧ FieldComboWidget_value (FieldComboWidget_select (Z.of_nat k + 1) w')
        = PyInt (Z.of_nat k).
Proof.
  intros Hidx Hblank Hset.
  destruct (set_options_items opts sel w w' Hblank Hset) as (Hi & Hb & _ & Hitems).
  rewrite Hidx in Hi. split_and!; [done|..].
  - unfold FieldComboWidget_value, FieldComboWidget_select, setCurrentIndex, count.
    simpl. rewrite Hi, Hb, Hitems. done.
  - intros k opt Hk. split.
    + rewrite Hitems. simpl. by rewrite list_lookup_fmap, Hk.
    + unfold FieldComboWidget_value, FieldComboWidget_select, setCurrentIndex, count.
      simpl. rewrite Hi, Hb, Hitems. simpl. rewrite length_fmap.
      apply lookup_lt_Some in Hk.
      destruct (Z.leb_spec 0 (Z.of_nat k + 1)); [|lia].
      destruct (Z.ltb_spec (Z.of_nat k + 1) (Z.of_nat (S (length opts)))); [|lia].
      simpl. f_equal. lia.
Qed.

(** C10 (as amended).  In index mode, with [n] options: [setValue] with an
    integer from 0 to n-1 selects the text of that option, with an integer
    from -n to -1 the text of the option counted from the end; with n, which
    the guard lets through, and with an integer below -n, the lookup is out
    of bounds and raises [IndexError]; an integer above n is not looked up at
    all. *)
Theorem setValue_index_guard (w : FieldComboWidget) (opts : list string) (z : Z) :
  result_as_idx w = true → options_list w = Some opts →
  let n := Z.of_nat (length opts) in
  let selects text :=
    FieldComboWidget_setValue (PyInt z) w
    = Ok (mkFieldComboWidget true (add_blank_option w) (Some opts)
            (setCurrentText text (combo w))) in
  (0 ≤ z < n → ∃ o, opts !! Z.to_nat z = Some o ∧ selects o)
  ∧ (- n ≤ z < 0 → ∃ o, opts !! Z.to_nat (n + z) = Some o ∧ selects o)
  ∧ (z = n ∨ z < - n → FieldComboWidget_setValue (PyInt z) w = Raise IndexError)
  ∧ (n < z → selects (str_of_int z)).
Proof.
  intros Hidx Hopts n selects. unfold selects, FieldComboWidget_setValue.
  rewrite Hidx, Hopts. simpl. fold n. unfold index. fold n.
  split_and!.
  - intros Hz. destruct (lookup_lt_is_Some_2 opts (Z.to_nat z)) as [o Ho]; [lia|].
    exists o. split; [done|].
    destruct (Z.leb_spec z n); [|lia]. destruct (Z.leb_spec 0 z); [|lia].
    destruct (Z.ltb_spec z n); [|lia]. simpl. by rewrite Ho.
  - intros Hz. destruct (lookup_lt_is_Some_2 opts (Z.to_nat (n + z))) as [o Ho]; [lia|].
    exists o. split; [done|].
    destruct (Z.leb_spec z n); [|lia]. destruct (Z.leb_spec 0 z); [lia|].
    destruct (Z.leb_spec (- n) z); [|lia]. destruct (Z.ltb_spec z 0); [|lia].
    simpl. by rewrite Ho.
  - intros [->|Hz].
    + destruct (Z.leb_spec n n); [|lia]. destruct (Z.leb_spec 0 n); [|lia].
      destruct (Z.ltb_spec n n); [lia|]. simpl.
      destruct (Z.leb_spec (- n) n); destruct (Z.ltb_spec n 0); simpl; (done || lia).
    + destruct (Z.leb_spec z n); [|lia]. destruct (Z.leb_spec 0 z); [lia|].
      destruct (Z.leb_spec (- n) z); [lia|]. done.
  - intros Hz. destruct (Z.leb_spec z n); [lia|]. done.
Qed.

(** *** Optional spinners *)

Lemma optional_spin_none (w : OptionalSpinWidget) :
  ∃ w', OptionalSpinWidget_setValue PyNone w = Ok w'
        ∧ OptionalSpinWidget_value w' = PyNone.
Proof. eexists. split; [done|]. done. Qed.

Lemma sb_setValue_in_range (s : QSpinBox) (z : Z) :
  sb_minimum s ≤ z ≤ sb_maximum s → sb_value (sb_setValue z s) = z.
Proof. intros. unfold sb_setValue, sb_bound. simpl. lia. Qed.

Lemma optional_spin_int (w : OptionalSpinWidget) (s : QSpinBox) (z : Z) :
  spin w = IntSpin s → accepts_int s (PyInt z) = true →
  ∃ w', OptionalSpinWidget_setValue (PyInt z) w = Ok w'
        ∧ OptionalSpinWidget_value w' = PyInt z.
Proof.
  intros Hs Hacc. unfold accepts_int in Hacc.
  apply andb_true_iff in Hacc as [Hr Hc].
  apply bool_decide_eq_true in Hr, Hc.
  unfold OptionalSpinWidget_setValue. simpl. rewrite Hs. simpl.
  unfold c_int.
  destruct (Z.leb_spec (- 2 ^ 31) z); [|lia].
  destruct (Z.ltb_spec z (2 ^ 31)); [|lia]. simpl.
  eexists. split; [done|].
  unfold OptionalSpinWidget_value. cbn [check_widget spin spin_value].
  by rewrite sb_setValue_in_range.
Qed.

(** The spinner of a field built for one of the three optional types is
    the integer one, whatever the type says: the string compared with the
    constant "double" is never that object. *)
Lemma build_optional_spin (fol : list (string * list string)) (it : item) (c : control) :
  i_type it = "optional_int" ∨ i_type it = "optional_double" ∨ i_type it = "auto_int" →
  build_control fol it = Ok c →
  ∃ w s, c = OptionalSpin w ∧ spin w = IntSpin s.
Proof.
  intros Hty. unfold build_control.
  assert (Hd : bool_decide (i_type it = "double") = false).
  { apply bool_decide_eq_false. by destruct Hty as [->|[->| ->]]. }
  assert (Hi : bool_decide (i_type it = "int") = false).
  { apply bool_decide_eq_false. by destruct Hty as [->|[->| ->]]. }
  rewrite Hd, Hi, bool_decide_eq_true_2 by done.
  destruct (i_default it) as [d|]; [|done]. simpl.
  unfold OptionalSpinWidget_setValue, OptionalSpinWidget_new, is_literal. simpl.
  destruct (isNoneVal _ d); simpl.
  - intros; simplify_eq. eauto.
  - destruct (arg_int d); simpl; intros; simplify_eq. eauto.
Qed.

Lemma optional_spin_value_int (w : OptionalSpinWidget) (s : QSpinBox) (val : pyval)
    (w' : OptionalSpinWidget) :
  spin w = IntSpin s → OptionalSpinWidget_setValue val w = Ok w' →
  OptionalSpinWidget_value w' = PyNone ∨ ∃ z, OptionalSpinWidget_value w' = PyInt z.
Proof.
  intros Hs. unfold OptionalSpinWidget_setValue, OptionalSpinWidget_value.
  destruct (isNoneVal w val); simpl.
  - intros; simplify_eq/=. by left.
  - rewrite Hs. simpl. destruct (arg_int val); simpl; intros; simplify_eq/=. eauto.
Qed.

(** *** Induction on the pages of a form *)

Lemma widget_nested_ind (P : widget → Prop) :
  (∀ n t c, P (Leaf n t c)) →
  (∀ n t opts cb pages,
     Forall (λ p, Forall (λ kw, P kw.2) p.2) pages →
     P (StackBuilderWidget n t opts cb pages)) →
  ∀ w, P w.
Proof.
  intros Hleaf Hstack. fix IH 1. intros [n t c|n t opts cb pages]; [apply Hleaf|].
  apply Hstack.
  induction pages as [|[k lay] pages IHp]; constructor; [|exact IHp].
  simpl. induction lay as [|[k' w] lay IHl]; constructor; [apply IH|exact IHl].
Qed.

(** *** [find_field] *)

Lemma stack_find_field_page (field_name : string) (w : widget) :
  stack_find_field field_name w
  = (page ← current_page w; find_field page field_name).
Proof.
  destruct w as [|n t opts cb pages]; [done|]. simpl.
  rewrite (dict_get_map (λ lay, find_field_with (stack_find_field field_name) field_name lay)).
  by destruct (dict_get _ pages).
Qed.

Lemma find_field_stacks (fields : layout) (field_name : string) :
  find_field fields field_name
  = (mores ← mapM (λ w, page ← current_page w; find_field page field_name)
                  (filter (λ w, is_stack w = true) (fields.*2));
     Ok (own_matches field_name fields ++ mjoin mores)).
Proof.
  unfold find_field at 1, find_field_with. fold (own_matches field_name fields).
  generalize (own_matches field_name fields) as found.
  induction fields as [|[k w] fields IH]; intros found.
  - simpl. by rewrite app_nil_r.
  - rewrite fmap_cons, filter_cons. cbn [foldl snd].
    destruct (is_stack w) eqn:Hw.
    + rewrite decide_True by done. cbn [mbind result_bind].
      rewrite stack_find_field_page. cbn [mapM].
      destruct (page ← current_page w; find_field page field_name) as [more|e].
      * cbn [mbind result_bind]. rewrite IH.
        destruct (mapM _ _) as [mores|]; simpl; [|done]. by rewrite app_assoc.
      * cbn [mbind result_bind]. clear.
        induction fields as [|[??] ? IH]; simpl; [done|]. done.
    + rewrite decide_False by done. cbn [mbind result_bind]. apply IH.
Qed.

Lemma current_page_stack (w : widget) (page : layout) :
  current_page w = Ok page →
  is_stack w = true ∧ ∃ k n t opts cb pages,
    w = StackBuilderWidget n t opts cb pages ∧ (k, page) ∈ pages.
Proof.
  destruct w as [|n t opts cb pages]; [done|]. simpl.
  destruct (dict_get _ pages) as [lay|] eqn:Hget; intros; simplify_eq/=.
  split; [done|]. apply dict_get_elem in Hget. eauto 10.
Qed.

(** *** The forms that [build_form] makes *)

Lemma item_nested_ind (P : item → Prop) :
  (∀ n ty l d o r dt topt pages,
     Forall (λ p, Forall P p.2) pages → P (Item n ty l d o r dt topt pages)) →
  ∀ it, P it.
Proof.
  intros Hitem. fix IH 1. intros [n ty l d o r dt topt pages]. apply Hitem.
  induction pages as [|[k its] pages IHp]; constructor; [|exact IHp].
  simpl. induction its as [|it its IHi]; constructor; [apply IH|exact IHi].
Qed.

Lemma split_not_nil (sep : ascii) (s : string) : split sep s ≠ [].
Proof.
  destruct s as [|c s]; simpl; [done|].
  case_bool_decide; [done|]. by destruct (split sep s).
Qed.

Lemma build_form_step_Raise (build : item → result widget) (e : exn) (its : list item) :
  foldl (build_form_step build) (Raise e) its = Raise e.
Proof. induction its as [|it its IH]; [done|]. exact IH. Qed.

(** Every field of a layout was built from one of the items. *)
Lemma build_form_with_elem (build : item → result widget) (its : list item) :
  ∀ (acc fields : layout),
    foldl (build_form_step build) (Ok acc) its = Ok fields →
    ∀ k w, (k, w) ∈ fields → (k, w) ∈ acc ∨ ∃ it, it ∈ its ∧ build it = Ok w.
Proof.
  induction its as [|it its IH]; intros acc fields Hfold k w Hin.
  - simplify_eq/=. by left.
  - cbn [foldl] in Hfold. unfold build_form_step at 2 in Hfold. simpl in Hfold.
    destruct (build it) as [w0|e] eqn:Hit; simpl in Hfold.
    + destruct (IH _ _ Hfold k w Hin) as [Hacc|(it' & ? & ?)].
      * apply dict_set_elem in Hacc as [?|?]; simplify_eq; [|by left].
        right. exists it. split; [left|done].
      * right. exists it'. split; [by right|done].
    + by rewrite build_form_step_Raise in Hfold.
Qed.

Lemma add_page_Raise built (e : exn) (opts : list string) :
  foldl (add_page built) (Raise e) opts = Raise e.
Proof. induction opts as [|o opts IH]; [done|]. exact IH. Qed.

(** The menu and the pages after the loop over the options. *)
Lemma add_pages built (opts : list string) :
  ∀ (layouts : list (string * layout)) (cb : QComboBox) st,
    foldl (add_page built) (Ok (layouts, cb)) opts = Ok st →
    items st.2 = items cb ++ ((λ o, mkItem o false) <$> opts)
    ∧ currentIndex st.2
      = match items cb, opts with [], _ :: _ => 0 | _, _ => currentIndex cb end
    ∧ (∀ o, o ∈ opts ∨ is_Some (dict_get o layouts) → is_Some (dict_get o st.1))
    ∧ (∀ p lay, (p, lay) ∈ st.1 → (p, lay) ∈ layouts ∨ dict_get p built = Some (Ok lay)).
Proof.
  induction opts as [|o opts IH]; intros layouts cb st Hfold.
  - simplify_eq/=. rewrite app_nil_r. split_and!; try done.
    + by destruct (items cb).
    + intros o [Ho|Ho]; [by apply elem_of_nil in Ho|done].
    + auto.
  - cbn [foldl] in Hfold. unfold add_page at 2 in Hfold. simpl in Hfold.
    destruct (dict_get o built) as [[lay|e]|] eqn:Hbuilt; simpl in Hfold;
      [|by rewrite add_page_Raise in Hfold..].
    destruct (IH _ _ _ Hfold) as (Hitems & Hidx & Hsome & Hfrom).
    split_and!.
    + rewrite Hitems. simpl. by rewrite <-app_assoc.
    + rewrite Hidx. simpl. destruct (items cb); simpl; [by destruct opts|].
      by destruct (_ ++ _) eqn:Happ; [destruct l|].
    + intros o' Ho'. apply Hsome.
      destruct (decide (o = o')) as [->|Hne]; [right; by rewrite dict_get_set_eq|].
      destruct Ho' as [Ho'|Ho'].
      * apply elem_of_cons in Ho' as [?|?]; [done|by left].
      * right. by rewrite dict_get_set_ne.
    + intros p lay' Hin. destruct (Hfrom p lay' Hin) as [Hset|?]; [|by right].
      apply dict_set_elem in Hset as [?|?]; simplify_eq; [by right|by left].
Qed.

Lemma stack_setValue_current (d : pyval) (opts : list string) (cb : QComboBox) :
  opts ≠ [] → items cb = (λ o, mkItem o false) <$> opts → currentIndex cb = 0 →
  currentText (stack_setValue d opts cb) ∈ opts.
Proof.
  intros Hopts Hitems Hidx.
  assert (Hat : ∀ i : nat, (i < length opts)%nat →
    currentText (setCurrentIndex (Z.of_nat i) cb) ∈ opts).
  { intros i Hi. unfold currentText, setCurrentIndex, itemText, count. simpl.
    rewrite Hitems, length_fmap.
    destruct (Z.leb_spec 0 (Z.of_nat i)); [|lia].
    destruct (Z.ltb_spec (Z.of_nat i) (Z.of_nat (length opts))); [|lia]. simpl.
    destruct (Z.leb_spec 0 (Z.of_nat i)); [|lia].
    rewrite Nat2Z.id, !list_lookup_fmap.
    destruct (lookup_lt_is_Some_2 opts i Hi) as [o Ho]. rewrite Ho. simpl.
    by eapply list_elem_of_lookup_2. }
  assert (Hkeep : currentText cb ∈ opts).
  { destruct opts as [|o opts]; [done|].
    unfold currentText, itemText. rewrite Hidx, Hitems. simpl. left. }
  unfold stack_setValue. destruct d as [| | | |s]; try done.
  destruct (list_find _ opts) as [[idx o]|] eqn:Hfind; [|done].
  apply list_find_Some in Hfind as (Hidx' & _). apply Hat. by eapply lookup_lt_Some.
Qed.

Lemma build_field_pages_ok (fol : list (string * list string)) :
  ∀ it w, build_field fol it = Ok w → pages_ok w = true.
Proof.
  induction it as [n ty l d o r dt topt pages IH] using item_nested_ind.
  intros w. cbn [build_field i_type i_dtype i_options i_pages i_default i_name i_label].
  set (fdt := default ty dt).
  intros Hbuild. apply bind_Ok in Hbuild as (w' & Hw' & Hrow).
  assert (w' = w) as ->.
  { destruct (_ || _); [by simplify_eq|].
    destruct l; simpl in Hrow; by simplify_eq. }
  clear Hrow. case_bool_decide as Hty.
  - apply bind_Ok in Hw' as (opts & _ & Hw').
    apply bind_Ok in Hw' as ([layouts cb] & Hpages & Hw').
    apply bind_Ok in Hw' as (dflt & _ & Hw'). simplify_eq/=.
    destruct (add_pages _ _ _ _ _ Hpages) as (Hitems & Hidx & Hsome & Hfrom).
    simpl in *.
    apply andb_true_iff. split.
    + apply bool_decide_eq_true, Hsome. left.
      apply stack_setValue_current; [apply split_not_nil|done|].
      rewrite Hidx. destruct (split "," opts) eqn:Hs; [|done].
      by apply split_not_nil in Hs.
    + apply forallb_forall. intros [p lay] Hp. apply forallb_forall. intros [k w] Hw.
      apply list_elem_of_In in Hp, Hw. simpl in *.
      destruct (Hfrom p lay Hp) as [Hnil|Hbuilt]; [by apply elem_of_nil in Hnil|].
      rewrite (dict_get_map (λ its, build_form_with (build_field fol) its)) in Hbuilt.
      destruct (dict_get p pages) as [its|] eqn:Hits; simplify_eq/=.
      apply dict_get_elem in Hits.
      rewrite Forall_forall in IH. specialize (IH _ Hits). simpl in IH.
      rewrite Forall_forall in IH.
      destruct (build_form_with_elem _ _ _ _ Hbuilt k w Hw) as [Hnil|(it & Hit & Hbuild)];
        [by apply elem_of_nil in Hnil|].
      by apply (IH it Hit).
  - destruct (build_control _ _); by simplify_eq/=.
Qed.

(** In a form that [build_form] returns, every stacked widget has a layout
    for the page its menu shows. *)
Lemma build_form_pages_ok (fol : list (string * list string)) (items : list item)
    (fields : layout) :
  build_form fol items = Ok fields → form_pages_ok fields = true.
Proof.
  intros Hbuild. apply forallb_forall. intros [k w] Hw. apply list_elem_of_In in Hw.
  destruct (build_form_with_elem _ _ _ _ Hbuild k w Hw) as [Hnil|(it & _ & Hit)];
    [by apply elem_of_nil in Hnil|].
  by eapply build_field_pages_ok.
Qed.

Lemma layout_pages_ind (P : layout → Prop) :
  (∀ fields : layout,
     (∀ k n t opts cb pages p page,
        (k, StackBuilderWidget n t opts cb pages) ∈ fields → (p, page) ∈ pages → P page) →
     P fields) →
  ∀ fields, P fields.
Proof.
  intros Hstep.
  assert (Hw : ∀ w, match w with
                    | StackBuilderWidget _ _ _ _ pages => ∀ p page, (p, page) ∈ pages → P page
                    | Leaf _ _ _ => True
                    end).
  { induction w as [|n t opts cb pages IH] using widget_nested_ind; [done|].
    intros p page Hp. apply Hstep. intros k n' t' opts' cb' pages' p' page' Hin Hp'.
    rewrite Forall_forall in IH. specialize (IH _ Hp). simpl in IH.
    rewrite Forall_forall in IH. specialize (IH _ Hin). simpl in IH. eauto. }
  intros fields. apply Hstep. intros k n t opts cb pages p page _ Hp.
  exact (Hw (StackBuilderWidget n t opts cb pages) p page Hp).
Qed.

Lemma find_field_Ok (fields : layout) (field_name : string) (ws : list widget) :
  find_field fields field_name = Ok ws ↔
  ∃ mores,
    Forall2 (λ stack more, ∃ page, current_page stack = Ok page
                                   ∧ find_field page field_name = Ok more)
            (filter (λ w, is_stack w = true) (fields.*2)) mores
    ∧ ws = own_matches field_name fields ++ mjoin mores.
Proof.
  rewrite find_field_stacks, bind_Ok. split.
  - intros (mores & Hm & ?); simplify_eq. exists mores. split; [|done].
    apply mapM_Ok in Hm. eapply Forall2_impl; [exact Hm|].
    intros stack more. by rewrite bind_Ok.
  - intros (mores & Hm & ->). exists mores. split; [|done].
    apply mapM_Ok. eapply Forall2_impl; [exact Hm|].
    intros stack more. by rewrite bind_Ok.
Qed.

Lemma find_field_sound (field_name : string) :
  ∀ (fields : layout) ws w,
    find_field fields field_name = Ok ws → w ∈ ws →
    on_selected_page field_name fields w.
Proof.
  induction fields as [fields IH] using layout_pages_ind.
  intros ws w Hfind Hw. apply find_field_Ok in Hfind as (mores & Hm & ->).
  apply elem_of_app in Hw as [Hw|Hw]; [by apply on_form|].
  apply list_elem_of_join in Hw as (more & Hw & Hmore).
  apply list_elem_of_lookup in Hmore as [i Hi].
  destruct (Forall2_lookup_r _ _ _ _ _ Hm Hi) as (stack & Hs & page & Hpage & Hfind).
  apply list_elem_of_lookup_2, list_elem_of_filter in Hs as [_ Hs].
  destruct (current_page_stack _ _ Hpage) as (_ & k & n & t & opts & cb & pages & -> & Hin).
  apply list_elem_of_fmap in Hs as ([k' w'] & ? & Hs); simplify_eq/=.
  eapply on_page; [..|eapply IH; eauto].
  - apply list_elem_of_fmap. by exists (k', StackBuilderWidget n t opts cb pages).
  - done.
Qed.

Lemma find_field_complete (field_name : string) (fields : layout) (w : widget) :
  on_selected_page field_name fields w →
  ∀ ws, find_field fields field_name = Ok ws → w ∈ ws.
Proof.
  induction 1 as [fields w Hown|fields stack page w Hstack Hpage _ IH]; intros ws Hfind;
    apply find_field_Ok in Hfind as (mores & Hm & ->); apply elem_of_app.
  - by left.
  - right.
    assert (Hin : stack ∈ filter (λ w, is_stack w = true) (fields.*2)).
    { apply list_elem_of_filter. split; [|done].
      by destruct (current_page_stack _ _ Hpage). }
    apply list_elem_of_lookup in Hin as [i Hi].
    destruct (Forall2_lookup_l _ _ _ _ _ Hm Hi) as (more & Hmore & page' & Hpage' & Hfind).
    rewrite Hpage in Hpage'. simplify_eq.
    apply list_elem_of_join. exists more. split; [by apply IH|].
    by eapply list_elem_of_lookup_2.
Qed.

Lemma find_field_returns (field_name : string) :
  ∀ fields : layout, form_pages_ok fields = true →
    ∃ ws, find_field fields field_name = Ok ws.
Proof.
  induction fields as [fields IH] using layout_pages_ind. intros Hok.
  rewrite find_field_stacks.
  destruct (mapM_success (λ w, page ← current_page w; find_field page field_name)
              (filter (λ w, is_stack w = true) (fields.*2))) as [mores Hm].
  - intros stack Hs. apply list_elem_of_filter in Hs as [Hst Hs].
    apply list_elem_of_fmap in Hs as ([k w] & ? & Hs); simplify_eq/=.
    destruct w as [|n t opts cb pages]; [done|].
    unfold form_pages_ok in Hok. rewrite forallb_forall in Hok.
    specialize (Hok _ (proj1 (list_elem_of_In _ _) Hs)). simpl in Hok.
    apply andb_true_iff in Hok as [Hcur Hpages].
    apply bool_decide_eq_true in Hcur as [page Hpage].
    cbn [current_page]. rewrite Hpage. simpl.
    apply (IH k n t opts cb pages (currentText cb) page Hs).
    + by apply dict_get_elem.
    + rewrite forallb_forall in Hpages.
      exact (Hpages _ (proj1 (list_elem_of_In _ _) (dict_get_elem _ _ _ Hpage))).
  - rewrite Hm. by eexists.
Qed.

(** C8.  In a form whose stacked widgets have a layout for the page their
    menu shows, [find_field] returns the controls with the name among the
    form's own fields, followed, for each stacked widget of the form in turn,
    by what [find_field] returns for the selected page of that widget, and
    for no other page: the result holds exactly the controls with that name
    found along selected pages, and it is empty for a name that occurs on no
    selected page. *)
Theorem find_field_selected_pages (fields : layout) (field_name : string) :
  form_pages_ok fields = true →
  find_field fields field_name
  = (mores ← mapM (λ stack, page ← current_page stack; find_field page field_name)
                  (filter (λ w, is_stack w = true) (fields.*2));
     Ok (own_matches field_name fields ++ mjoin mores))
  ∧ ∃ ws, find_field fields field_name = Ok ws
          ∧ (∀ w, w ∈ ws ↔ on_selected_page field_name fields w)
          ∧ ((∀ w, ¬ on_selected_page field_name fields w) → ws = []).
Proof.
  intros Hok. split; [apply find_field_stacks|].
  destruct (find_field_returns field_name fields Hok) as [ws Hws].
  exists ws. split_and!; [done|..].
  - intros w. split; [by apply find_field_sound|].
    intros Hon. by eapply find_field_complete.
  - intros Hnone. destruct ws as [|w ws]; [done|].
    destruct (Hnone w). eapply find_field_sound; [done|left].
Qed.

(** *** Writing a value into a widget and reading it back *)

Lemma dsb_round_exact (d : N) (q : Q) :
  (Qnum q * 10 ^ Z.of_N d) `mod` Z.pos (Qden q) = 0 →
  (dsb_round d q == q)%Q.
Proof.
  intros Hmod. unfold dsb_round.
  set (scale := 10 ^ Z.of_N d).
  assert (Hscale : 0 < scale) by (apply Z.pow_pos_nonneg; lia).
  apply Z.mod_divide in Hmod as [k Hk]; [|lia]. fold scale in Hk.
  assert (Hq : (q * inject_Z scale == inject_Z k)%Q).
  { unfold Qeq, Qmult, inject_Z. simpl. lia. }
  assert (Hfloor : Qfloor (q * inject_Z scale + (1 # 2)) = k).
  { rewrite Hq. unfold Qfloor, Qplus, inject_Z. simpl.
    rewrite Z.mul_1_r.
    symmetry. apply (Z.div_unique _ _ k 1); lia. }
  rewrite Hfloor, Qred_correct.
  unfold Qeq. simpl. rewrite Z2Pos.id by lia. lia.
Qed.

Lemma dsb_setValue_exact (s : QDoubleSpinBox) (q : Q) :
  accepts_double s (PyFloat q) = true →
  (dsb_value (dsb_setValue q s) == q)%Q.
Proof.
  unfold accepts_double. rewrite !andb_true_iff.
  intros [[Hlo Hhi] Hdec].
  apply Qle_bool_iff in Hlo, Hhi. apply bool_decide_eq_true in Hdec.
  pose proof (dsb_round_exact _ _ Hdec) as Hr.
  unfold dsb_setValue, dsb_bound. simpl.
  destruct (Qle_bool (dsb_round _ q) (dsb_minimum s)) eqn:H1.
  - apply Qle_bool_iff in H1. rewrite Hr in H1. by apply Qle_antisym.
  - destruct (Qle_bool (dsb_maximum s) (dsb_round _ q)) eqn:H2; [|done].
    apply Qle_bool_iff in H2. rewrite Hr in H2. by apply Qle_antisym.
Qed.

Lemma py_eq_float_int (z : Z) : py_eq (PyFloat (inject_Z z)) (PyInt z).
Proof. simpl. reflexivity. Qed.

Section reading.
Context (w : widget).

Lemma plain_type_inv (t : string) :
  plain_type t = true → t ≠ "sci" ∧ t ≠ "int".
Proof.
  unfold plain_type. rewrite andb_true_iff, !negb_true_iff.
  intros [H1 H2]. by apply bool_decide_eq_false in H1, H2.
Qed.

Lemma get_int (z : Z) :
  read_widget w = PyInt z → ∃ v', get_widget_value w = Ok v' ∧ py_eq v' (PyInt z).
Proof.
  intros Hr. unfold get_widget_value. rewrite Hr.
  repeat case_bool_decide; simpl.
  - eexists. split; [done|]. apply py_eq_float_int.
  - eexists. split; [done|]. simpl. reflexivity.
  - destruct (String.prefix _ _); eexists; (split; [done|]); simpl; reflexivity.
Qed.

Lemma get_bool (b : bool) :
  read_widget w = PyBool b → ∃ v', get_widget_value w = Ok v' ∧ py_eq v' (PyBool b).
Proof.
  intros Hr. unfold get_widget_value. rewrite Hr.
  repeat case_bool_decide; simpl.
  - eexists. split; [done|]. simpl. reflexivity.
  - eexists. split; [done|]. simpl. reflexivity.
  - destruct (String.prefix _ _); eexists; (split; [done|]); simpl; reflexivity.
Qed.

Lemma get_float (q' q : Q) :
  read_widget w = PyFloat q' → (q' == q)%Q → field_data_type w ≠ "int" →
  ∃ v', get_widget_value w = Ok v' ∧ py_eq v' (PyFloat q).
Proof.
  intros Hr Hq Ht. unfold get_widget_value. rewrite Hr.
  repeat case_bool_decide; simpl; try done.
  - eexists. split; [done|]. done.
  - destruct (String.prefix _ _); eexists; (split; [done|]); done.
Qed.

Lemma get_none :
  read_widget w = PyNone → plain_type (field_data_type w) = true →
  get_widget_value w = Ok PyNone.
Proof.
  intros Hr [??]%plain_type_inv. unfold get_widget_value. rewrite Hr.
  repeat case_bool_decide; try done. by destruct (String.prefix _ _).
Qed.

Lemma get_str (s : string) :
  read_widget w = PyStr s → keeps_text (field_data_type w) s = true →
  get_widget_value w = Ok (PyStr s).
Proof.
  unfold keeps_text. rewrite andb_true_iff, negb_true_iff.
  intros Hr [[??]%plain_type_inv Hfile]. unfold get_widget_value. rewrite Hr.
  repeat case_bool_decide; try done.
  - subst s. by rewrite andb_true_r in Hfile; rewrite Hfile.
  - by destruct (String.prefix _ _).
Qed.

Lemma get_file_none :
  read_widget w = PyStr "None" → String.prefix "file_" (field_data_type w) = true →
  get_widget_value w = Ok PyNone.
Proof.
  intros Hr Hfile. unfold get_widget_value. rewrite Hr, Hfile.
  destruct (decide (field_data_type w = "sci")) as [Hsci|?];
    [by rewrite Hsci in Hfile|].
  destruct (decide (field_data_type w = "int")) as [Hint|?];
    [by rewrite Hint in Hfile|].
  by rewrite (bool_decide_eq_false_2 (field_data_type w = "sci")),
    (bool_decide_eq_false_2 (field_data_type w = "int")).
Qed.

End reading.

Lemma accepts_int_inv (s : QSpinBox) (v : pyval) :
  accepts_int s v = true →
  ∃ z, v = PyInt z ∧ arg_int v = Ok z ∧ sb_value (sb_setValue z s) = z.
Proof.
  destruct v as [| |z| |]; try done. simpl.
  rewrite andb_true_iff. intros [Hr Hc].
  apply bool_decide_eq_true in Hr, Hc.
  exists z. split_and!; [done|..].
  - unfold c_int. destruct (Z.leb_spec (- 2 ^ 31) z); [|lia].
    by destruct (Z.ltb_spec z (2 ^ 31)); [|lia].
  - by apply sb_setValue_in_range.
Qed.

Lemma accepts_double_inv (s : QDoubleSpinBox) (v : pyval) :
  accepts_double s v = true →
  ∃ q, v = PyFloat q ∧ arg_double v = Ok q ∧ (dsb_value (dsb_setValue q s) == q)%Q.
Proof.
  destruct v as [| | |q|]; try done. intros Hacc.
  exists q. split_and!; [done..|]. by apply dsb_setValue_exact.
Qed.

Lemma le_setText_short (s : string) :
  Z.of_nat (String.length s) ≤ 32767 → le_setText s = s.
Proof. intros. unfold le_setText. by destruct (Z.leb_spec (Z.of_nat (String.length s)) 32767); [|lia]. Qed.

Lemma set_control_roundtrip (n t : string) (c : control) (v : pyval) :
  accepts_control t c v = true →
  ∃ c' v', set_control v c = Ok c'
           ∧ get_widget_value (Leaf n t c') = Ok v' ∧ py_eq v' v
           ∧ is_button (Leaf n t c') = false.
Proof.
  destruct c as [s|s|s| |c| |]; cbn [accepts_control set_control].
  - (* QDoubleSpinBox *)
    rewrite andb_true_iff, negb_true_iff.
    intros [(q & -> & Harg & Hq)%accepts_double_inv Ht%bool_decide_eq_false].
    destruct (get_float (Leaf n t (DoubleSpinBox (dsb_setValue q s))) _ q eq_refl Hq Ht)
      as (v' & ? & ?).
    exists (DoubleSpinBox (dsb_setValue q s)), v'. by rewrite Harg.
  - (* QSpinBox *)
    intros (z & -> & Harg & Hz)%accepts_int_inv.
    destruct (get_int (Leaf n t (SpinBox (sb_setValue z s))) z) as (v' & ? & ?).
    { exact (f_equal PyInt Hz). }
    exists (SpinBox (sb_setValue z s)), v'. by rewrite Harg.
  - (* OptionalSpinWidget *)
    destruct s as [ns sp chk]. unfold OptionalSpinWidget_setValue. simpl.
    destruct v as [|b|z|q|str]; simpl.
    + intros Ht. eexists _, PyNone. split_and!; [done| |done..].
      by apply get_none.
    + by destruct sp.
    + destruct sp as [s|s]; simpl; [|done].
      intros Hacc. apply (accepts_int_inv s (PyInt z)) in Hacc as (z' & [= <-] & Harg & Hz).
      simpl in Harg. rewrite Harg. simpl.
      destruct (get_int (Leaf n t (OptionalSpin
        (mkOptionalSpinWidget ns (IntSpin (sb_setValue z s)) false))) z) as (v' & ? & ?).
      { exact (f_equal PyInt Hz). }
      by eexists _, v'.
    + destruct sp as [s|s]; simpl; [done|].
      intros Hacc. apply andb_true_iff in Hacc as [Hacc Ht].
      apply negb_true_iff, bool_decide_eq_false in Ht.
      apply (accepts_double_inv s (PyFloat q)) in Hacc as (q' & [= <-] & Harg & Hq).
      destruct (get_float (Leaf n t (OptionalSpin
        (mkOptionalSpinWidget ns (DoubleSpin (dsb_setValue q s)) false))) _ q eq_refl Hq Ht)
        as (v' & ? & ?).
      by eexists _, v'.
    + by destruct sp.
  - (* QCheckBox *)
    destruct v as [|b| | |]; try done. intros _.
    destruct (get_bool (Leaf n t (CheckBox b)) b eq_refl) as (v' & ? & ?).
    by eexists _, v'.
  - (* FieldComboWidget *)
    destruct c as [idx blank ol cb]. unfold FieldComboWidget_setValue. simpl.
    destruct idx.
    + destruct v as [| |z| |]; try done. destruct ol as [opts|]; [|done].
      rewrite andb_true_iff. intros [Hz%bool_decide_eq_true Hfind].
      destruct (opts !! Z.to_nat z) as [o|] eqn:Ho; [|done].
      apply Z.eqb_eq in Hfind.
      pose proof (lookup_lt_Some _ _ _ Ho) as Hlt. simpl.
      destruct (Z.leb_spec z (Z.of_nat (length opts))); [|lia]. simpl.
      unfold index.
      destruct (Z.leb_spec 0 z); [|lia].
      destruct (Z.ltb_spec z (Z.of_nat (length opts))); [|lia]. simpl.
      rewrite Ho. simpl.
      destruct (setCurrentText_found o cb) as [Hset _]; [destruct blank; lia|].
      rewrite Hset, Hfind.
      destruct (get_int (Leaf n t (FieldCombo (mkFieldComboWidget true blank (Some opts)
        (mkQComboBox (items cb) (z + (if blank then 1 else 0)))))) z) as (v' & ? & ?).
      { simpl. unfold FieldComboWidget_value. simpl. f_equal. destruct blank; lia. }
      by eexists _, v'.
    + destruct v as [| | | |s]; try done.
      rewrite andb_true_iff. intros [Ht Hfind%Z.leb_le]. simpl.
      destruct (setCurrentText_found s cb Hfind) as [_ Hcur].
      eexists _, (PyStr s). split_and!; [done| |done..].
      apply get_str; [|done]. simpl. unfold FieldComboWidget_value. simpl. by rewrite Hcur.
  - done.
  - (* QLineEdit *)
    destruct v as [| | | |s]; try done.
    + intros Hfile. eexists _, PyNone. split_and!; [done| |done..].
      by apply get_file_none.
    + rewrite andb_true_iff. intros [Ht Hlen%Z.leb_le].
      eexists _, (PyStr s). split_and!; [done| |done..].
      apply get_str; [|done]. simpl. by rewrite le_setText_short.
Qed.

Lemma stack_setValue_found (s : string) (opts : list string) (cb : QComboBox) :
  s ∈ opts → item_text <$> items cb = opts →
  currentText (stack_setValue (PyStr s) opts cb) = s
  ∧ items (stack_setValue (PyStr s) opts cb) = items cb
  ∧ 0 ≤ currentIndex (stack_setValue (PyStr s) opts cb)
        < count (stack_setValue (PyStr s) opts cb).
Proof.
  intros Hin Hitems. unfold stack_setValue.
  destruct (list_find (λ o, o = s) opts) as [[idx o]|] eqn:Hfind.
  - apply list_find_Some in Hfind as (Hidx & -> & _).
    pose proof (lookup_lt_Some _ _ _ Hidx) as Hlt.
    assert (Hcount : count cb = Z.of_nat (length opts)).
    { unfold count. by rewrite <-Hitems, length_fmap. }
    unfold setCurrentIndex, currentText, itemText, count in *. simpl.
    destruct (Z.leb_spec 0 (Z.of_nat idx)); [|lia].
    destruct (Z.ltb_spec (Z.of_nat idx) (Z.of_nat (length (items cb)))); [|lia]. simpl.
    destruct (Z.leb_spec 0 (Z.of_nat idx)); [|lia].
    rewrite Nat2Z.id. rewrite <-Hitems, list_lookup_fmap in Hidx.
    destruct (items cb !! idx); simplify_eq/=. split_and!; (done || lia).
  - apply list_find_None in Hfind. rewrite Forall_forall in Hfind. by destruct (Hfind s).
Qed.

Lemma wf_widget_stack n t opts cb pages :
  wf_widget (StackBuilderWidget n t opts cb pages) = true ↔
  (∃ v, get_widget_value (StackBuilderWidget n t opts cb pages) = Ok v)
  ∧ item_text <$> items cb = opts
  ∧ 0 ≤ currentIndex cb < count cb
  ∧ (∀ o, o ∈ opts → is_Some (dict_get o pages))
  ∧ (∀ p page k w, (p, page) ∈ pages → (k, w) ∈ page → wf_widget w = true).
Proof.
  cbn [wf_widget]. rewrite !andb_true_iff, !bool_decide_eq_true.
  rewrite !forallb_forall.
  split.
  - intros (Hget & (((? & ?) & Hopts) & Hpages)). split_and!; try (done || lia).
    + destruct (get_widget_value _); [eauto|done].
    + intros o Ho. apply list_elem_of_In, Hopts in Ho. by apply bool_decide_eq_true in Ho.
    + intros p page k w Hp Hw. apply list_elem_of_In, Hpages in Hp.
      simpl in Hp. rewrite forallb_forall in Hp. by apply list_elem_of_In, Hp in Hw.
  - intros ([v Hget] & ? & ? & Hopts & Hpages). rewrite Hget. split_and!; try (done || lia).
    + intros o Ho. apply bool_decide_eq_true, Hopts. by apply list_elem_of_In.
    + intros [p page] Hp. apply forallb_forall. intros [k w] Hw.
      apply list_elem_of_In in Hp, Hw. by eapply Hpages.
Qed.

Lemma set_widget_roundtrip (w : widget) (v : pyval) :
  accepts w v = true →
  ∃ w' v', set_widget_value w v = Ok w'
           ∧ get_widget_value w' = Ok v' ∧ py_eq v' v
           ∧ same_shape w w' ∧ is_button w' = false
           ∧ objectName w' ≠ EmptyString
           ∧ (wf_widget w = true → wf_widget w' = true).
Proof.
  unfold accepts. rewrite andb_true_iff, negb_true_iff. intros [Hname Hacc].
  assert (Hne : objectName w ≠ EmptyString).
  { intros Heq. by rewrite Heq in Hname. }
  destruct w as [n t c|n t opts cb pages].
  - destruct (set_control_roundtrip n t c v Hacc) as (c' & v' & Hset & Hget & Heq & Hb).
    exists (Leaf n t c'), v'. simpl. rewrite Hset. split_and!; try done.
    + unfold same_shape. split_and!; try done.
      rewrite Hb. clear -Hacc. by destruct c.
    + intros _. simpl. by rewrite Hget.
  - destruct v as [| | | |s]; try done.
    rewrite !andb_true_iff in Hacc. destruct Hacc as [[Ht Hin%bool_decide_eq_true] Hitems%bool_decide_eq_true].
    destruct (stack_setValue_found s opts cb Hin Hitems) as (Hcur & Hit & Hidx).
    assert (Hget : get_widget_value
      (StackBuilderWidget n t opts (stack_setValue (PyStr s) opts cb) pages) = Ok (PyStr s)).
    { apply get_str; [exact (f_equal PyStr Hcur)|done]. }
    eexists _, (PyStr s). split_and!; try done.
    rewrite !wf_widget_stack. intros (_ & ? & ? & ? & ?).
    split_and!; try (done || lia); [by eexists|by rewrite Hit].
Qed.

(** *** Reading a form *)

Lemma get_data_page (w : widget) :
  get_data w = (page ← current_page w; get_form_data page).
Proof.
  destruct w as [|n t opts cb pages]; [done|]. simpl.
  rewrite (dict_get_map (λ lay, form_data_with get_data lay)).
  by destruct (dict_get _ pages).
Qed.






(** *** Writing a form *)






(** *** The fields that [build_form] makes *)

Lemma c_int_Ok (z : Z) : - 2 ^ 31 ≤ z < 2 ^ 31 → c_int z = Ok z.
Proof.
  intros Hz. unfold c_int.
  destruct (Z.leb_spec (- 2 ^ 31) z); [|lia].
  destruct (Z.ltb_spec z (2 ^ 31)); [done|lia].
Qed.

Lemma gt_100_int (d : Z) : gt_100 (PyInt d) = Ok (100 <? d).
Proof.
  unfold gt_100. simpl. f_equal. unfold Qle_bool. simpl.
  rewrite Z.mul_1_r. destruct (Z.leb_spec d 100), (Z.ltb_spec 100 d); (done || lia).
Qed.

(** A field that is not a stacked one and has a label is the control that
    [build_control] makes, with the name and the data type of the item. *)
Lemma build_field_leaf (fol : list (string * list string)) (it : item) (l : string) :
  i_type it ≠ "stacked" → i_label it = Some l →
  build_field fol it
  = Leaf (i_name it) (default (i_type it) (i_dtype it)) <$> build_control fol it.
Proof.
  intros Hty Hl. destruct it as [n ty lb d o r dt topt pages].
  cbn [build_field i_type i_label i_name i_dtype] in *. subst lb.
  rewrite bool_decide_eq_false_2 by done.
  destruct (build_control fol _) as [c|e]; [|done].
  cbn [fmap result_fmap mbind result_bind of_option].
  by destruct (contains ty "stacked" || contains ty "button").
Qed.

Lemma int_field_write (n : string) (s : QSpinBox) (z : Z) :
  - 2 ^ 31 ≤ z < 2 ^ 31 →
  ∃ w', set_widget_value (Leaf n "int" (SpinBox s)) (PyInt z) = Ok w'
        ∧ get_widget_value w'
          = Ok (PyInt (Z.max (sb_minimum s) (Z.min (sb_maximum s) z))).
Proof.
  intros Hz. eexists. split.
  - cbn [set_widget_value set_control arg_int]. rewrite c_int_Ok by done. reflexivity.
  - reflexivity.
Qed.

Lemma int_field_overflow (n : string) (s : QSpinBox) (z : Z) :
  ¬ (- 2 ^ 31 ≤ z < 2 ^ 31) →
  set_widget_value (Leaf n "int" (SpinBox s)) (PyInt z) = Raise OverflowError.
Proof.
  intros Hz. cbn [set_widget_value set_control arg_int]. unfold c_int.
  destruct (Z.leb_spec (- 2 ^ 31) z); [|done].
  destruct (Z.ltb_spec z (2 ^ 31)); [lia|done].
Qed.

(** X10.  An int field without [range] whose default d is an integer
    with -2^31 <= d and 10 d < 2^31: a default above 100 gives the range 0 to
    ten times the default and the default as value; any other default leaves
    the range of a new spin box, 0 to 99, and the default is cut to it (100
    becomes 99, a negative default 0).  An integer written to the field later
    is cut to the same range without an error when it is a C int, from -2^31
    to 2^31 - 1, and raises [OverflowError] when it is not. *)
Theorem int_field_auto_range (fol : list (string * list string)) (it : item)
    (l : string) (d : Z) :
  i_type it = "int" → i_range it = None → i_dtype it = None →
  i_label it = Some l → i_default it = Some (PyInt d) →
  - 2 ^ 31 ≤ d → 10 * d < 2 ^ 31 →
  let hi := if 100 <? d then 10 * d else 99 in
  let w := Leaf (i_name it) "int"
             (SpinBox (mkQSpinBox 0 hi (if 100 <? d then d else Z.max 0 (Z.min 99 d)))) in
  build_field fol it = Ok w
  ∧ get_widget_value w = Ok (PyInt (if 100 <? d then d else Z.max 0 (Z.min 99 d)))
  ∧ (∀ z, - 2 ^ 31 ≤ z < 2 ^ 31 →
          ∃ w', set_widget_value w (PyInt z) = Ok w'
                ∧ get_widget_value w' = Ok (PyInt (Z.max 0 (Z.min hi z))))
  ∧ (∀ z, ¬ (- 2 ^ 31 ≤ z < 2 ^ 31) →
          set_widget_value w (PyInt z) = Raise OverflowError).
Proof.
  intros Hty Hr Hdt Hl Hd Hlo Hhi hi w. split_and!; [| | |apply int_field_overflow].
  - rewrite (build_field_leaf fol it l) by (by rewrite ?Hty). rewrite Hty, Hdt. simpl.
    unfold build_control. rewrite Hty, Hr, Hd.
    cbn [of_option mbind result_bind]. rewrite gt_100_int.
    rewrite bool_decide_eq_false_2, bool_decide_eq_true_2 by done.
    cbn [of_option mbind result_bind arg_int times_10]. unfold w, hi.
    destruct (Z.ltb_spec 100 d) as [Hbig|Hsmall].
    + rewrite !c_int_Ok by lia. cbn [mbind result_bind fmap result_fmap].
      unfold sb_setRange, sb_setValue, sb_bound. simpl. do 4 f_equal; lia.
    + rewrite c_int_Ok by lia. done.
  - done.
  - intros z Hz.
    exact (int_field_write (i_name it)
             (mkQSpinBox 0 hi (if 100 <? d then d else Z.max 0 (Z.min 99 d))) z Hz).
Qed.

(** X11.  An int field with [range] "lo,hi" and an integer default, all
    three of them C ints, from -2^31 to 2^31 - 1: the bounds of the spin box
    are lo and hi (hi raised to lo if it is below), whatever the default is,
    also above 100, and the default is cut to this range; an integer written
    later is cut to it too when it is a C int, and raises [OverflowError] when
    it is not. *)
Theorem int_field_explicit_range (fol : list (string * list string)) (it : item)
    (l r : string) (lo hi d : Z) :
  i_type it = "int" → i_range it = Some r → i_dtype it = None →
  i_label it = Some l → i_default it = Some (PyInt d) →
  mapM int_of_str (split "," r) = Ok [lo; hi] →
  - 2 ^ 31 ≤ lo < 2 ^ 31 → - 2 ^ 31 ≤ hi < 2 ^ 31 → - 2 ^ 31 ≤ d < 2 ^ 31 →
  let top := Z.max lo hi in
  let w := Leaf (i_name it) "int" (SpinBox (mkQSpinBox lo top (Z.max lo (Z.min top d)))) in
  build_field fol it = Ok w
  ∧ get_widget_value w = Ok (PyInt (Z.max lo (Z.min top d)))
  ∧ (∀ z, - 2 ^ 31 ≤ z < 2 ^ 31 →
          ∃ w', set_widget_value w (PyInt z) = Ok w'
                ∧ get_widget_value w' = Ok (PyInt (Z.max lo (Z.min top z))))
  ∧ (∀ z, ¬ (- 2 ^ 31 ≤ z < 2 ^ 31) →
          set_widget_value w (PyInt z) = Raise OverflowError).
Proof.
  intros Hty Hr Hdt Hl Hd Hsplit Hlo Hhi Hdz top w.
  split_and!; [| | |apply int_field_overflow].
  - rewrite (build_field_leaf fol it l) by (by rewrite ?Hty). rewrite Hty, Hdt. simpl.
    unfold build_control. rewrite Hty, Hr, Hd.
    rewrite bool_decide_eq_false_2, bool_decide_eq_true_2 by done.
    rewrite Hsplit. cbn [of_option mbind result_bind arg_int].
    rewrite !c_int_Ok by lia. done.
  - done.
  - intros z Hz.
    exact (int_field_write (i_name it)
             (mkQSpinBox lo top (Z.max lo (Z.min top d))) z Hz).
Qed.

Lemma dsb_bound_range (lo hi v : Q) :
  (lo <= hi)%Q → (lo <= dsb_bound lo hi v <= hi)%Q.
Proof.
  intros Hle. unfold dsb_bound.
  destruct (Qle_bool v lo) eqn:H1; [split; [apply Qle_refl|done]|].
  destruct (Qle_bool hi v) eqn:H2; [split; [done|apply Qle_refl]|].
  split; apply Qlt_le_weak, Qnot_le_lt; intros H%Qle_bool_iff; congruence.
Qed.

(** X12.  A double field is a spin box with the range of a new one, 0 to
    99.99, and two decimals, which the builder never changes: the default and
    every number written later are rounded to two decimals and cut to this
    range, so the field never reads below 0 or above 99.99. *)
Theorem double_field_range (fol : list (string * list string)) (it : item)
    (l : string) (d : pyval) (q : Q) :
  i_type it = "double" → i_dtype it = None → i_label it = Some l →
  i_default it = Some d → arg_double d = Ok q →
  ∃ s, build_field fol it = Ok (Leaf (i_name it) "double" (DoubleSpinBox s))
       ∧ dsb_minimum s = 0%Q ∧ dsb_maximum s = (9999 # 100)%Q ∧ dsb_decimals s = 2%N
       ∧ dsb_value s = dsb_bound 0 (9999 # 100) (dsb_round 2 q)
       ∧ (0 <= dsb_value s <= 9999 # 100)%Q
       ∧ ∀ v w', set_widget_value (Leaf (i_name it) "double" (DoubleSpinBox s)) v = Ok w' →
           ∃ s' x, w' = Leaf (i_name it) "double" (DoubleSpinBox s')
                   ∧ dsb_minimum s' = 0%Q ∧ dsb_maximum s' = (9999 # 100)%Q
                   ∧ get_widget_value w' = Ok (PyFloat x)
                   ∧ (0 <= x <= 9999 # 100)%Q.
Proof.
  intros Hty Hdt Hl Hd Hq.
  exists (dsb_setValue q QDoubleSpinBox_new). split_and!; try done.
  - rewrite (build_field_leaf fol it l) by (by rewrite ?Hty). rewrite Hty, Hdt. simpl.
    unfold build_control. rewrite Hty, Hd. simpl. by rewrite Hq.
  - by apply dsb_bound_range.
  - by apply dsb_bound_range.
  - intros v w'. cbn [set_widget_value set_control].
    destruct (arg_double v) as [x|e]; simpl; [|done]. intros [= <-].
    eexists _, _. split_and!; [reflexivity|done|done|reflexivity|..];
      by apply dsb_bound_range.
Qed.

(** *** What writing to a form leaves alone *)

Lemma set_widget_value_shape (w w' : widget) (v : pyval) :
  set_widget_value w v = Ok w' →
  same_shape w w' ∧ field_data_type w' = field_data_type w.
Proof.
  destruct w as [n t c|n t opts cb pages]; cbn [set_widget_value].
  - destruct (set_control v c) as [c'|e] eqn:Hset; [|done].
    intros [= <-]. unfold same_shape. split_and!; try done.
    destruct c; cbn [set_control] in Hset;
      repeat match type of Hset with
             | context [arg_bool ?x] => destruct (arg_bool x)
             | context [arg_int ?x] => destruct (arg_int x)
             | context [arg_double ?x] => destruct (arg_double x)
             | context [OptionalSpinWidget_setValue ?x ?y] =>
                 destruct (OptionalSpinWidget_setValue x y)
             | context [FieldComboWidget_setValue ?x ?y] =>
                 destruct (FieldComboWidget_setValue x y)
             end; by simplify_eq/=.
  - intros [= <-]. by unfold same_shape.
Qed.

Lemma set_data_step_Raise (e : exn) (m : list (string * pyval)) :
  foldl set_data_step (Raise e) m = Raise e.
Proof. induction m as [|kv m IH]; [done|]. exact IH. Qed.

Lemma set_form_data_cons (fields : layout) (k : string) (v : pyval)
    (m : list (string * pyval)) :
  foldl set_data_step (Ok fields) ((k, v) :: m)
  = foldl set_data_step
      (match dict_get k fields with
       | Some w => w' ← set_widget_value w v; Ok (dict_set k w' fields)
       | None => Ok fields
       end) m.
Proof. done. Qed.

Lemma dict_set_Forall2 (R : string * widget → string * widget → Prop)
    (k : string) (w w' : widget) (fields : layout) :
  dict_get k fields = Some w → (∀ kw, R kw kw) → R (k, w) (k, w') →
  Forall2 R fields (dict_set k w' fields).
Proof.
  intros Hget Hrefl Hk. induction fields as [|[k0 w0] fields IH]; [done|].
  simpl in *. case_bool_decide as Hk0.
  - simplify_eq. constructor; [done|]. by apply Forall_Forall2_diag, Forall_forall.
  - constructor; [done|]. by apply IH.
Qed.

(** X13.  Whatever data [set_form_data] is given, when it returns the
    form has the same fields under the same keys in the same order, each with
    the name, the data type and the kind it had and, for a stacked widget, the
    same pages; and a field whose name is not a key of the data is exactly as
    it was. *)
Theorem set_form_data_frame (fields fields' : layout) (m : list (string * pyval)) :
  set_form_data fields m = Ok fields' →
  Forall2 (λ kw kw', kw'.1 = kw.1 ∧ same_shape kw.2 kw'.2
                     ∧ field_data_type kw'.2 = field_data_type kw.2) fields fields'
  ∧ ∀ k, k ∉ m.*1 → dict_get k fields' = dict_get k fields.
Proof.
  set (R := λ kw kw' : string * widget,
              kw'.1 = kw.1 ∧ same_shape kw.2 kw'.2
              ∧ field_data_type kw'.2 = field_data_type kw.2).
  assert (Hrefl : ∀ kw, R kw kw) by (intros kw; by unfold R, same_shape).
  assert (Htrans : ∀ x y z, R x y → R y z → R x z).
  { unfold R, same_shape.
    intros x y z (? & (? & ? & ? & ?) & ?) (? & (? & ? & ? & ?) & ?).
    split_and!; congruence. }
  unfold set_form_data. revert fields.
  induction m as [|[k v] m IH]; intros fields Hset.
  - simpl in Hset. injection Hset as <-. split; [|done].
    by apply Forall_Forall2_diag, Forall_forall.
  - rewrite set_form_data_cons in Hset.
    destruct (dict_get k fields) as [w|] eqn:Hget.
    + destruct (set_widget_value w v) as [w'|e] eqn:Hw;
        cbn [mbind result_bind] in Hset;
        [|by rewrite set_data_step_Raise in Hset].
      destruct (IH _ Hset) as [Hall Hother].
      destruct (set_widget_value_shape w w' v Hw) as [Hshape Htype].
      split.
      * apply (Forall2_trans R R R fields (dict_set k w' fields) fields' Htrans);
          [|exact Hall].
        apply (dict_set_Forall2 R k w w' fields Hget Hrefl). by unfold R.
      * intros k2 Hk2. rewrite fmap_cons, not_elem_of_cons in Hk2.
        destruct Hk2 as [Hne Hk2]. rewrite Hother by done.
        by apply dict_get_set_ne.
    + destruct (IH _ Hset) as [Hall Hother]. split; [done|].
      intros k2 Hk2. rewrite fmap_cons, not_elem_of_cons in Hk2.
      destruct Hk2 as [_ Hk2]. by apply Hother.
Qed.

(** X14.  A key that is not the name of one of the form's own fields is
    passed over by [set_form_data], which leaves the form as it is when no
    key is one, while [__setitem__] and [__getitem__] raise [KeyError] for
    it. *)
Theorem unknown_keys_ignored (fields : layout) (m : list (string * pyval)) :
  Forall (λ kv, dict_get kv.1 fields = None) m →
  set_form_data fields m = Ok fields
  ∧ Forall (λ kv, __setitem__ fields kv.1 kv.2 = Raise KeyError
                  ∧ __getitem__ fields kv.1 = Raise KeyError) m.
Proof.
  intros Hm. split.
  - unfold set_form_data. induction Hm as [|[k v] m Hk _ IH]; [done|].
    rewrite set_form_data_cons. simpl in Hk. by rewrite Hk.
  - eapply Forall_impl; [exact Hm|]. intros [k v] Hk. simpl in *.
    unfold __setitem__, __getitem__. by rewrite Hk.
Qed.

(** X15.  [form[key] = val] followed by [form[key]], for a field of the
    form and a value that satisfies its constraints: the value read is equal
    to the value written, and every other key reads as before. *)
Theorem setitem_then_getitem (fields : layout) (key : string) (w : widget) (v : pyval) :
  dict_get key fields = Some w → accepts w v = true →
  ∃ fields' v',
    __setitem__ fields key v = Ok fields'
    ∧ __getitem__ fields' key = Ok v' ∧ py_eq v' v
    ∧ ∀ k, k ≠ key → __getitem__ fields' k = __getitem__ fields k.
Proof.
  intros Hget Hacc.
  destruct (set_widget_roundtrip w v Hacc) as (w' & v' & Hset & Hread & Heq & _).
  exists (dict_set key w' fields), v'. split_and!.
  - unfold __setitem__. rewrite Hget. simpl. by rewrite Hset.
  - unfold __getitem__. rewrite dict_get_set_eq. done.
  - done.
  - intros k Hk. unfold __getitem__. by rewrite dict_get_set_ne.
Qed.

(** *** The dict that [build_form] fills *)

Lemma dict_set_fst {V} (k : string) (v : V) (d : list (string * V)) :
  (dict_set k v d).*1 = if bool_decide (k ∈ d.*1) then d.*1 else d.*1 ++ [k].
Proof.
  induction d as [|[k0 v0] d IH]; [done|].
  cbn [dict_set]. destruct (decide (k0 = k)) as [->|Hk0].
  - rewrite bool_decide_eq_true_2 by done.
    rewrite !fmap_cons. simpl. by rewrite bool_decide_eq_true_2 by left.
  - rewrite (bool_decide_eq_false_2 (k0 = k)) by done.
    rewrite !fmap_cons, IH. simpl.
    destruct (decide (k ∈ d.*1)) as [Hin|Hnin].
    + rewrite !bool_decide_eq_true_2; [done|by right|done].
    + rewrite !bool_decide_eq_false_2; [done| |done].
      rewrite not_elem_of_cons. split; [congruence|done].
Qed.

Lemma dict_get_None {V} (k : string) (d : list (string * V)) :
  dict_get k d = None ↔ k ∉ d.*1.
Proof.
  induction d as [|[k0 v0] d IH]; simpl.
  - split; [intros _; apply not_elem_of_nil|done].
  - rewrite not_elem_of_cons. case_bool_decide; simplify_eq/=.
    + split; [done|]. by intros [? _].
    + rewrite IH. split; [|by intros [_ ?]]. intros ?. split; [congruence|done].
Qed.

Lemma build_field_name (fol : list (string * list string)) (it : item) (w : widget) :
  build_field fol it = Ok w →
  objectName w = i_name it ∧ field_data_type w = default (i_type it) (i_dtype it).
Proof.
  destruct it as [n ty l d o r dt topt pages].
  cbn [build_field i_type i_dtype i_options i_pages i_default i_name i_label].
  intros Hbuild. apply bind_Ok in Hbuild as (w' & Hw' & Hrow).
  assert (w' = w) as ->.
  { destruct (_ || _); [by simplify_eq|].
    destruct l; simpl in Hrow; by simplify_eq. }
  clear Hrow. case_bool_decide as Hty.
  - apply bind_Ok in Hw' as (opts & _ & Hw').
    apply bind_Ok in Hw' as (st & _ & Hw').
    apply bind_Ok in Hw' as (dflt & _ & Hw'). by simplify_eq/=.
  - destruct (build_control _ _); by simplify_eq/=.
Qed.

(** The loop of [build_form] over the items, from the fields [acc]. *)
Lemma build_form_with_keys (build : item → result widget) (its : list item) :
  ∀ (acc fields : layout),
    foldl (build_form_step build) (Ok acc) its = Ok fields →
    (NoDup (acc.*1) → NoDup (fields.*1))
    ∧ (∀ k, k ∈ fields.*1 ↔ k ∈ acc.*1 ∨ k ∈ i_name <$> its)
    ∧ (∀ k w, (k, w) ∈ fields →
              (k, w) ∈ acc ∨ ∃ it, it ∈ its ∧ i_name it = k ∧ build it = Ok w)
    ∧ (∀ its1 it its2, its = its1 ++ it :: its2 → i_name it ∉ i_name <$> its2 →
                       ∃ w, build it = Ok w ∧ dict_get (i_name it) fields = Some w)
    ∧ (∀ k, k ∉ i_name <$> its → dict_get k fields = dict_get k acc)
    ∧ (NoDup (i_name <$> its) → (∀ k, k ∈ acc.*1 → k ∉ i_name <$> its) →
       fields.*1 = acc.*1 ++ (i_name <$> its)).
Proof.
  induction its as [|it its IH]; intros acc fields Hfold.
  - simplify_eq/=. split_and!; try done.
    + intros k. split; [by left|]. intros [?|Hk]; [done|by apply elem_of_nil in Hk].
    + auto.
    + intros its1 it its2 Heq. by destruct its1.
    + intros _ _. by rewrite app_nil_r.
  - cbn [foldl] in Hfold. unfold build_form_step at 2 in Hfold. simpl in Hfold.
    destruct (build it) as [w0|e] eqn:Hit; simpl in Hfold;
      [|by rewrite build_form_step_Raise in Hfold].
    destruct (IH _ _ Hfold) as (Hnd & Hkeys & Helem & Hlast & Hother & Horder).
    assert (Hset : ∀ k, k ∈ (dict_set (i_name it) w0 acc).*1
                        ↔ k = i_name it ∨ k ∈ acc.*1).
    { intros k. rewrite dict_set_fst. case_bool_decide as Hin.
      - split; [by right|]. by intros [->|?].
      - rewrite elem_of_app, list_elem_of_singleton. tauto. }
    split_and!.
    + intros Hacc. apply Hnd. rewrite dict_set_fst. case_bool_decide as Hin; [done|].
      apply NoDup_app. split_and!; [done| |apply NoDup_singleton].
      intros k Hk ->%list_elem_of_singleton. done.
    + intros k. rewrite Hkeys, Hset, fmap_cons, elem_of_cons. tauto.
    + intros k w Hin. destruct (Helem k w Hin) as [Hacc|(it' & ? & ? & ?)].
      * apply dict_set_elem in Hacc as [?|?]; simplify_eq; [|by left].
        right. exists it. split_and!; [left|done..].
      * right. exists it'. split_and!; [by right|done..].
    + intros its1 it' its2 Heq Hnin. destruct its1 as [|it1 its1]; simplify_eq/=.
      * exists w0. split; [done|]. rewrite Hother by done. apply dict_get_set_eq.
      * by apply (Hlast its1 it' its2).
    + intros k Hk. rewrite fmap_cons, not_elem_of_cons in Hk. destruct Hk as [Hne Hk].
      rewrite Hother by done. by apply dict_get_set_ne.
    + intros Hnames Hfresh. rewrite fmap_cons in Hnames.
      apply NoDup_cons in Hnames as [Hit_fresh Hnames].
      rewrite Horder; [|done|].
      * rewrite dict_set_fst, bool_decide_eq_false_2.
        -- by rewrite <-app_assoc.
        -- intros Hin. apply (Hfresh _ Hin). rewrite fmap_cons. left.
      * intros k Hk%Hset. destruct Hk as [->|Hk]; [done|].
        intros Hin. apply (Hfresh _ Hk). rewrite fmap_cons. by right.
Qed.

(** X16.  The form that [build_form] returns is a dict with one field for
    every name among the items: under each key there is the widget built from
    an item of that name, carrying the name as object name and the [dtype] of
    the item, or else its type, as data type; of several items with one name
    the last is the one that stays; with names that are all different the
    fields are in the order of the items; and every stacked widget shows a
    page it has. *)
Theorem build_form_fields (fol : list (string * list string)) (items : list item)
    (fields : layout) :
  build_form fol items = Ok fields →
  NoDup (fields.*1)
  ∧ (∀ k, k ∈ fields.*1 ↔ k ∈ i_name <$> items)
  ∧ (∀ k w, (k, w) ∈ fields →
            objectName w = k
            ∧ ∃ it, it ∈ items ∧ i_name it = k ∧ build_field fol it = Ok w
                    ∧ field_data_type w = default (i_type it) (i_dtype it))
  ∧ (∀ its1 it its2, items = its1 ++ it :: its2 → i_name it ∉ i_name <$> its2 →
                     ∃ w, build_field fol it = Ok w
                          ∧ dict_get (i_name it) fields = Some w)
  ∧ (NoDup (i_name <$> items) → fields.*1 = i_name <$> items)
  ∧ form_pages_ok fields = true.
Proof.
  intros Hbuild.
  destruct (build_form_with_keys _ _ _ _ Hbuild)
    as (Hnd & Hkeys & Helem & Hlast & _ & Horder).
  split_and!.
  - apply Hnd, NoDup_nil_2.
  - intros k. rewrite Hkeys. simpl. rewrite elem_of_nil. tauto.
  - intros k w Hin. destruct (Helem k w Hin) as [Hnil|(it & Hit & Hname & Hw)];
      [by apply elem_of_nil in Hnil|].
    destruct (build_field_name fol it w Hw) as [Hobj Htype].
    split; [congruence|]. by exists it.
  - done.
  - intros Hnames. rewrite Horder; [done..|]. intros k Hk. by apply elem_of_nil in Hk.
  - by eapply build_form_pages_ok.
Qed.

(** X17.  The widget built for a stacked field: its menu lists the
    comma-separated options in their order, every option has a page, which is
    the form built from the items given under that option, and the page shown
    is the one of the default when the default is one of the options, and the
    one of the first option otherwise. *)
Theorem build_stacked_field (fol : list (string * list string)) (it : item) (w : widget) :
  i_type it = "stacked" → build_field fol it = Ok w →
  ∃ options d cb pages,
    i_options it = Some options ∧ i_default it = Some d
    ∧ w = StackBuilderWidget (i_name it) (default "stacked" (i_dtype it))
            (split "," options) cb pages
    ∧ items cb = (λ o, mkItem o false) <$> split "," options
    ∧ (∀ o, o ∈ split "," options →
            ∃ its page, dict_get o (i_pages it) = Some its
                        ∧ build_form fol its = Ok page
                        ∧ dict_get o pages = Some page)
    ∧ Some (currentText cb)
      = match d with
        | PyStr s => if bool_decide (s ∈ split "," options) then Some s
                     else head (split "," options)
        | _ => head (split "," options)
        end.
Proof.
  destruct it as [n ty l d o r dt topt pages].
  cbn [build_field i_type i_dtype i_options i_pages i_default i_name i_label].
  intros -> Hbuild. apply bind_Ok in Hbuild as (w' & Hw' & Hrow).
  simpl in Hrow. injection Hrow as ->.
  rewrite bool_decide_eq_true_2 in Hw' by done.
  apply bind_Ok in Hw' as (options & Hopts & Hw').
  apply bind_Ok in Hw' as ([layouts cb] & Hpages & Hw').
  apply bind_Ok in Hw' as (dflt & Hd & Hw').
  destruct o as [o|]; [|done]. destruct d as [d|]; [|done]. simplify_eq/=.
  destruct (add_pages _ _ _ _ _ Hpages) as (Hitems & Hidx & Hsome & Hfrom).
  simpl in *.
  set (opts := split "," options) in *.
  assert (Hne : opts ≠ []) by apply split_not_nil.
  assert (Hidx0 : currentIndex cb = 0).
  { rewrite Hidx. by destruct opts. }
  assert (Htexts : item_text <$> items cb = opts).
  { rewrite Hitems, <-list_fmap_compose. by rewrite list_fmap_id. }
  assert (Hfirst : Some (currentText cb) = head opts).
  { unfold currentText, itemText. rewrite Hidx0, Hitems. simpl.
    destruct opts; [done|]. done. }
  exists options, dflt, (stack_setValue dflt opts cb), layouts. split_and!; try done.
  - destruct dflt as [| | | |s]; try done. simpl.
    destruct (list_find _ opts) as [[i x]|]; [|done]. done.
  - intros o Ho. destruct (Hsome o (or_introl Ho)) as [page Hpage].
    destruct (Hfrom o page (dict_get_elem _ _ _ Hpage)) as [Hnil|Hbuilt];
      [by apply elem_of_nil in Hnil|].
    rewrite (dict_get_map (λ its, build_form_with (build_field fol) its)) in Hbuilt.
    destruct (dict_get o pages) as [its|] eqn:Hits; simplify_eq/=.
    by exists its, page.
  - destruct dflt as [| | | |s]; try done.
    case_bool_decide as Hin.
    + f_equal. by apply stack_setValue_found.
    + simpl. destruct (list_find (λ o, o = s) opts) as [[i x]|] eqn:Hfind; [|done].
      apply list_find_Some in Hfind as (Hi & -> & _).
      destruct Hin. by eapply list_elem_of_lookup_2.
Qed.

(** X18.  A field of type double, bool, optional_int, optional_double or
    auto_int, or of type int without range, needs a default: when the items
    before it can be built and it has none, [build_form] raises
    [KeyError]. *)
Theorem missing_default_raises (fol : list (string * list string))
    (its1 its2 : list item) (it : item) (fields1 : layout) :
  build_form fol its1 = Ok fields1 → i_default it = None →
  i_type it ∈ ["double"; "bool"; "optional_int"; "optional_double"; "auto_int"]
  ∨ (i_type it = "int" ∧ i_range it = None) →
  build_field fol it = Raise KeyError
  ∧ build_form fol (its1 ++ it :: its2) = Raise KeyError.
Proof.
  intros Hbuild Hd Hty.
  assert (Hit : build_field fol it = Raise KeyError).
  { destruct it as [n ty l d o r dt topt pages]. simpl in Hd, Hty. subst d.
    cbn [build_field i_type i_dtype i_options i_pages i_default i_name i_label].
    assert (Hns : ty ≠ "stacked").
    { destruct Hty as [Hty|[-> _]]; [|done]. intros ->.
      repeat (apply elem_of_cons in Hty as [?|Hty]; [done|]).
      by apply elem_of_nil in Hty. }
    rewrite bool_decide_eq_false_2 by done.
    assert (Hc : build_control fol (Item n ty l None o r dt topt pages) = Raise KeyError).
    { unfold build_control.
      cbn [i_type i_default i_range i_name i_options i_type_options i_label of_option].
      destruct Hty as [Hty|[-> ->]]; [|done].
      repeat (apply elem_of_cons in Hty as [->|Hty]; [done|]).
      by apply elem_of_nil in Hty. }
    by rewrite Hc. }
  split; [done|].
  unfold build_form, build_form_with in *. rewrite foldl_app, Hbuild.
  cbn [foldl]. unfold build_form_step at 2. simpl. rewrite Hit. simpl.
  apply build_form_step_Raise.
Qed.

(** *** Optional spinners and texts *)

(** X19.  A text written to an optional spinner made by [build_form],
    whose none-string is "none" or "auto": when the text, in lower case,
    occurs somewhere in the none-string (the empty text, "on" or "NO" for
    "none"), the box is checked and [None] is read; any other text raises
    [TypeError].  A text is never stored as a number. *)
Theorem optional_spin_text (w : OptionalSpinWidget) (s : string) :
  none_string w = "none" ∨ none_string w = "auto" →
  ((∃ pre post, none_string w = pre +:+ lower s +:+ post) →
   OptionalSpinWidget_setValue (PyStr s) w
   = Ok (mkOptionalSpinWidget (none_string w) (spin w) true)
   ∧ OptionalSpinWidget_value (mkOptionalSpinWidget (none_string w) (spin w) true)
     = PyNone)
  ∧ (¬ (∃ pre post, none_string w = pre +:+ lower s +:+ post) →
     OptionalSpinWidget_setValue (PyStr s) w = Raise TypeError)
  ∧ OptionalSpinWidget_setValue (PyStr EmptyString) w
    = Ok (mkOptionalSpinWidget (none_string w) (spin w) true).
Proof.
  intros Hns.
  assert (Hnone : isNoneVal w (PyStr s) = contains (lower s) (none_string w)
                  ∧ isNoneVal w (PyStr EmptyString) = true).
  { unfold isNoneVal. by destruct Hns as [-> | ->]. }
  destruct Hnone as [Hs Hempty].
  unfold OptionalSpinWidget_setValue. rewrite Hs, Hempty. split_and!.
  - intros Hsub%contains_spec. by rewrite Hsub.
  - intros Hsub. destruct (contains _ _) eqn:Hc; [by apply contains_spec in Hc|].
    simpl. by destruct (spin w).
  - done.
Qed.

(** X20.  A list field for which neither the item nor the options lists
    of the form give options has an empty menu and no list of options: it
    reads as the empty text, or as -2 in optional-index mode; writing an
    integer to it raises [AttributeError], and writing a text leaves it as it
    is. *)
Theorem list_field_without_options (fol : list (string * list string)) (it : item)
    (l : string) :
  i_type it = "list" → i_options it = None → dict_get (i_name it) fol = None →
  i_label it = Some l → i_dtype it = None →
  let idx := bool_decide (i_type_options it = Some "optional_index") in
  let w := Leaf (i_name it) "list" (FieldCombo (FieldComboWidget_new idx idx)) in
  build_field fol it = Ok w
  ∧ get_widget_value w = Ok (if idx then PyInt (-2) else PyStr EmptyString)
  ∧ (∀ z, set_widget_value w (PyInt z) = Raise AttributeError)
  ∧ (∀ s, set_widget_value w (PyStr s) = Ok w).
Proof.
  intros Hty Hopts Hfol Hl Hdt idx w. split_and!.
  - rewrite (build_field_leaf fol it l) by (by rewrite ?Hty). rewrite Hty, Hdt.
    unfold build_control. rewrite Hty, Hopts, Hfol. done.
  - unfold w. by destruct idx.
  - done.
  - done.
Qed.

(** X21.  Text fields with a null default: a string or optional_string
    field whose default is null or absent holds the empty text; a file_open or
    file_dir field is a disabled text field, which with a null default holds
    the text None and reads as [None]. *)
Theorem text_field_null_default (fol : list (string * list string)) (it : item)
    (l : string) :
  i_label it = Some l → i_dtype it = None →
  (i_type it ∈ ["string"; "optional_string"] →
   i_default it = None ∨ i_default it = Some PyNone →
   let w := Leaf (i_name it) (i_type it) (LineEdit EmptyString false) in
   build_field fol it = Ok w ∧ get_widget_value w = Ok (PyStr EmptyString))
  ∧ (i_type it ∈ ["file_open"; "file_dir"] → i_default it = Some PyNone →
     let w := Leaf (i_name it) (i_type it) (LineEdit "None" true) in
     build_field fol it = Ok w ∧ get_widget_value w = Ok PyNone).
Proof.
  intros Hl Hdt. split.
  - intros Hty Hd w.
    assert (Hb : build_field fol it = Ok w).
    { rewrite (build_field_leaf fol it l); [|intros Heq; rewrite Heq in Hty|done].
      2:{ repeat (apply elem_of_cons in Hty as [?|Hty]; [done|]).
          by apply elem_of_nil in Hty. }
      rewrite Hdt. unfold build_control, w.
      apply elem_of_cons in Hty as [Hty|Hty];
        [|apply list_elem_of_singleton in Hty]; rewrite Hty;
        by destruct Hd as [-> | ->]. }
    split; [done|]. unfold w.
    apply elem_of_cons in Hty as [Hty|Hty];
      [|apply list_elem_of_singleton in Hty]; by rewrite Hty.
  - intros Hty Hd w.
    assert (Hb : build_field fol it = Ok w).
    { rewrite (build_field_leaf fol it l); [|intros Heq; rewrite Heq in Hty|done].
      2:{ repeat (apply elem_of_cons in Hty as [?|Hty]; [done|]).
          by apply elem_of_nil in Hty. }
      rewrite Hdt. unfold build_control, w.
      apply elem_of_cons in Hty as [Hty|Hty];
        [|apply list_elem_of_singleton in Hty]; by rewrite Hty, Hd. }
    split; [done|]. unfold w.
    apply elem_of_cons in Hty as [Hty|Hty];
      [|apply list_elem_of_singleton in Hty]; by rewrite Hty.
Qed.

(** X22.  The select button of a file_open or file_dir field: when the
    dialog returns a path, of a length that a text field holds, the field
    reads as that path, or as [None] if the path is the text None; when the
    dialog is cancelled the field stays as it is.  The field stays
    disabled. *)
Theorem select_file_sets_path (n type text filename : string) :
  type = "file_open" ∨ type = "file_dir" →
  Z.of_nat (String.length filename) ≤ 32767 →
  let x := Leaf n type (LineEdit text true) in
  select_file type EmptyString x = x
  ∧ (filename ≠ EmptyString →
     select_file type filename x = Leaf n type (LineEdit filename true)
     ∧ get_widget_value (select_file type filename x)
       = Ok (if bool_decide (filename = "None") then PyNone else PyStr filename)).
Proof.
  intros Hty Hlen x. split.
  - unfold select_file. by destruct Hty as [-> | ->].
  - intros Hne.
    assert (Hsel : select_file type filename x = Leaf n type (LineEdit filename true)).
    { unfold select_file, x.
      assert (Hkind : bool_decide (List.last (split "_" type) EmptyString = "open")
                      || bool_decide (List.last (split "_" type) EmptyString = "dir") = true)
        by (by destruct Hty as [-> | ->]).
      rewrite Hkind. destruct filename; [done|]. cbn [String.length Nat.eqb negb].
      by rewrite le_setText_short. }
    split; [done|]. rewrite Hsel.
    unfold get_widget_value. cbn [field_data_type read_widget].
    by destruct Hty as [-> | ->].
Qed.

(** *** The form data of a form with stacked widgets *)

Lemma stack_data_step_Raise (get : widget → result (gmap string pyval)) (e : exn)
    (fields : layout) :
  foldl (stack_data_step get) (Raise e) fields = Raise e.
Proof. induction fields as [|kw fields IH]; [done|]. exact IH. Qed.

Lemma own_data_step_Raise (e : exn) (fields : layout) :
  foldl own_data_step (Raise e) fields = Raise e.
Proof. induction fields as [|kw fields IH]; [done|]. exact IH. Qed.

Lemma form_data_stacks_eq (get : widget → result (gmap string pyval)) (fields : layout) :
  ∀ data1 : gmap string pyval,
    foldl (stack_data_step get) (Ok data1) fields
    = (ds ← mapM get (filter (λ w, is_stack w = true) (fields.*2));
       Ok (foldl (λ acc d, d ∪ acc) data1 ds)).
Proof.
  induction fields as [|[k w] fields IH]; intros data1; [done|].
  rewrite fmap_cons, filter_cons. cbn [foldl]. unfold stack_data_step at 2.
  cbn [snd mbind result_bind].
  destruct (is_stack w) eqn:Hw.
  - rewrite decide_True by done. cbn [mapM].
    destruct (get w) as [d|e]; cbn [mbind result_bind].
    + rewrite IH. by destruct (mapM _ _).
    + apply stack_data_step_Raise.
  - rewrite decide_False by done. apply IH.
Qed.

Lemma union_fold_lookup (ds : list (gmap string pyval)) (k : string) :
  ∀ data1 : gmap string pyval,
    (∀ d v, last ds = Some d → d !! k = Some v →
            foldl (λ acc d, d ∪ acc) data1 ds !! k = Some v)
    ∧ ((∀ d, d ∈ ds → d !! k = None) →
       foldl (λ acc d, d ∪ acc) data1 ds !! k = data1 !! k)
    ∧ (is_Some (foldl (λ acc d, d ∪ acc) data1 ds !! k)
       ↔ is_Some (data1 !! k) ∨ ∃ d, d ∈ ds ∧ is_Some (d !! k)).
Proof.
  induction ds as [|d0 ds IH]; intros data1.
  - split_and!; [done..|]. split; [by left|].
    intros [?|(d & Hd & _)]; [done|by apply elem_of_nil in Hd].
  - destruct (IH (d0 ∪ data1)) as (Hlast & Hnone & Hdom). cbn [foldl]. split_and!.
    + intros d v Hd Hv. destruct ds as [|d1 ds]; [|by apply (Hlast d v)].
      simpl in *. simplify_eq. by apply lookup_union_Some_l.
    + intros Hall. rewrite Hnone by (intros d Hd; apply Hall; by right).
      apply lookup_union_r, Hall. left.
    + rewrite Hdom. split.
      * intros [[v Hu]|(d & Hd & Hk)].
        -- apply lookup_union_Some_raw in Hu as [Hu|[_ Hu]]; [|by left].
           right. exists d0. split; [left|done].
        -- right. exists d. split; [by right|done].
      * intros [[v Hv]|(d & Hd & Hk)].
        -- left. destruct (d0 !! k) as [v0|] eqn:H0.
           ++ exists v0. by apply lookup_union_Some_l.
           ++ exists v. rewrite lookup_union_r; done.
        -- apply elem_of_cons in Hd as [->|Hd]; [|right; by exists d].
           left. destruct Hk as [v Hv]. exists v. by apply lookup_union_Some_l.
Qed.

Lemma get_form_data_Ok (fields : layout) (data : gmap string pyval) :
  get_form_data fields = Ok data →
  ∃ data1 ds,
    own_form_data fields = Ok data1
    ∧ Forall2 (λ stack d, ∃ page, current_page stack = Ok page
                                  ∧ get_form_data page = Ok d)
              (filter (λ w, is_stack w = true) (fields.*2)) ds
    ∧ data = foldl (λ acc d, d ∪ acc) data1 ds.
Proof.
  unfold get_form_data at 1, form_data_with. intros Hdata.
  apply bind_Ok in Hdata as (data1 & Hown & Hfold).
  rewrite form_data_stacks_eq in Hfold.
  apply bind_Ok in Hfold as (ds & Hds & Heq). injection Heq as <-.
  exists data1, ds. split_and!; [done| |done].
  apply mapM_Ok in Hds. eapply Forall2_impl; [exact Hds|].
  intros stack d Hget. simpl in Hget. rewrite get_data_page in Hget.
  apply bind_Ok in Hget as (page & ? & ?). by exists page.
Qed.

(** X23.  [get_form_data] is the dict of the form's own fields, updated
    with the form data of the page shown by each stacked widget, one after
    the other: where a field of such a page has the name of one of the form's
    own fields, or of a field of the page of an earlier stacked widget, the
    value reported under that name is the one of the page of the last stacked
    widget that has it; a name that is on none of these pages keeps the value
    of the form's own field. *)
Theorem page_data_overrides (fields : layout) (data : gmap string pyval) :
  get_form_data fields = Ok data →
  ∃ data1 ds,
    own_form_data fields = Ok data1
    ∧ Forall2 (λ stack d, ∃ page, current_page stack = Ok page
                                  ∧ get_form_data page = Ok d)
              (filter (λ w, is_stack w = true) (fields.*2)) ds
    ∧ data = foldl (λ acc d, d ∪ acc) data1 ds
    ∧ (∀ k d v, last ds = Some d → d !! k = Some v → data !! k = Some v)
    ∧ (∀ k, (∀ d, d ∈ ds → d !! k = None) → data !! k = data1 !! k).
Proof.
  intros Hdata. destruct (get_form_data_Ok fields data Hdata) as (data1 & ds & ? & ? & ->).
  exists data1, ds. split_and!; [done..| |].
  - intros k d v. apply (union_fold_lookup ds k data1).
  - intros k. apply (union_fold_lookup ds k data1).
Qed.

Lemma own_data_step_cons (acc : gmap string pyval) (k : string) (w : widget)
    (fields : layout) :
  foldl own_data_step (Ok acc) ((k, w) :: fields)
  = foldl own_data_step
      (if negb (String.length (objectName w) =? 0)%nat && negb (is_button w)
       then val ← get_widget_value w; Ok (<[objectName w := val]> acc)
       else Ok acc) fields.
Proof. done. Qed.

(** The keys of the dict comprehension of [get_form_data]. *)
Lemma own_form_data_dom (fields : layout) :
  ∀ (acc data : gmap string pyval),
    foldl own_data_step (Ok acc) fields = Ok data →
    ∀ k, is_Some (data !! k)
         ↔ is_Some (acc !! k)
           ∨ (k ≠ EmptyString ∧ ∃ w, w ∈ own_matches k fields).
Proof.
  induction fields as [|[k0 w] fields IH]; intros acc data Hfold k.
  - simpl in Hfold. injection Hfold as <-. split; [by left|].
    intros [?|(_ & w & Hw)]; [done|]. by apply elem_of_nil in Hw.
  - rewrite own_data_step_cons in Hfold.
    assert (Hown : ∀ w', w' ∈ own_matches k ((k0, w) :: fields)
                         ↔ (w' = w ∧ objectName w = k ∧ is_button w = false)
                           ∨ w' ∈ own_matches k fields).
    { intros w'. unfold own_matches. rewrite fmap_cons, filter_cons. simpl.
      destruct (decide (objectName w = k ∧ is_button w = false)) as [Hw|Hw].
      - rewrite elem_of_cons. split.
        + intros [->|?]; [left|by right]. by destruct Hw.
        + intros [(-> & _)|?]; [by left|by right].
      - split; [by right|]. intros [(_ & ? & ?)|?]; [|done]. by destruct Hw. }
    destruct (negb (String.length (objectName w) =? 0)%nat && negb (is_button w)) eqn:Hc.
    + apply andb_true_iff in Hc as [Hname Hbutton].
      apply negb_true_iff in Hbutton.
      apply negb_true_iff, Nat.eqb_neq in Hname.
      assert (Hne : objectName w ≠ EmptyString).
      { intros Heq. by rewrite Heq in Hname. }
      destruct (get_widget_value w) as [v|e]; cbn [mbind result_bind] in Hfold;
        [|by rewrite own_data_step_Raise in Hfold].
      rewrite (IH _ _ Hfold k), lookup_insert_is_Some'. split.
      * intros [[Heq|?]|(Hk & w' & Hw')].
        -- right. split; [congruence|]. exists w. apply Hown. by left.
        -- by left.
        -- right. split; [done|]. exists w'. apply Hown. by right.
      * intros [?|(Hk & w' & Hw')]; [left; by right|].
        apply Hown in Hw' as [(_ & Hn & _)|Hw'].
        -- left. by left.
        -- right. split; [done|]. by exists w'.
    + rewrite (IH _ _ Hfold k). split.
      * intros [?|(Hk & w' & Hw')]; [by left|].
        right. split; [done|]. exists w'. apply Hown. by right.
      * intros [?|(Hk & w' & Hw')]; [by left|].
        apply Hown in Hw' as [(_ & Hn & Hb)|Hw'].
        -- apply andb_false_iff in Hc as [Hc|Hc].
           ++ apply negb_false_iff, Nat.eqb_eq in Hc. destruct Hk.
              rewrite <-Hn. by destruct (objectName w).
           ++ by rewrite Hb in Hc.
        -- right. split; [done|]. by exists w'.
Qed.

(** The keys of the form data of a form. *)
Lemma get_form_data_dom :
  ∀ (fields : layout) (data : gmap string pyval),
    get_form_data fields = Ok data →
    ∀ k, is_Some (data !! k)
         ↔ k ≠ EmptyString ∧ ∃ w, on_selected_page k fields w.
Proof.
  induction fields as [fields IH] using layout_pages_ind. intros data Hdata k.
  destruct (get_form_data_Ok fields data Hdata) as (data1 & ds & Hown & Hds & ->).
  destruct (union_fold_lookup ds k data1) as (_ & _ & Hdom). rewrite Hdom.
  rewrite (own_form_data_dom fields ∅ data1 Hown k), lookup_empty.
  assert (Hpage : ∀ stack page d,
    stack ∈ fields.*2 → current_page stack = Ok page → get_form_data page = Ok d →
    (is_Some (d !! k) ↔ k ≠ EmptyString ∧ ∃ w, on_selected_page k page w)).
  { intros stack page d Hin Hcur Hd.
    destruct (current_page_stack stack page Hcur)
      as (_ & p & n & t & opts & cb & pages & -> & Hp).
    apply list_elem_of_fmap in Hin as ([key w'] & ? & Hin); simplify_eq/=.
    by apply (IH key n t opts cb pages p page Hin Hp). }
  split.
  - intros [[Hnone|(Hk & w & Hw)]|(d & Hd & Hsome)].
    + by destruct Hnone.
    + split; [done|]. exists w. by apply on_form.
    + apply list_elem_of_lookup in Hd as [i Hi].
      destruct (Forall2_lookup_r _ _ _ _ _ Hds Hi) as (stack & Hstack & page & Hcur & Hget).
      apply list_elem_of_lookup_2, list_elem_of_filter in Hstack as [_ Hstack].
      apply (Hpage stack page d Hstack Hcur Hget) in Hsome as (Hk & w & Hw).
      split; [done|]. exists w. by eapply on_page.
  - intros (Hk & w & Hw). destruct Hw as [fields w Hw|fields stack page w Hin Hcur Hw].
    + left. right. split; [done|]. by exists w.
    + right.
      assert (Hstack : stack ∈ filter (λ w, is_stack w = true) (fields.*2)).
      { apply list_elem_of_filter. split; [|done].
        by destruct (current_page_stack stack page Hcur). }
      apply list_elem_of_lookup in Hstack as [i Hi].
      destruct (Forall2_lookup_l _ _ _ _ _ Hds Hi) as (d & Hd & page' & Hcur' & Hget).
      assert (page' = page) as -> by congruence.
      exists d. split; [by eapply list_elem_of_lookup_2|].
      apply (Hpage stack page d Hin Hcur Hget). split; [done|]. by exists w.
Qed.

(** X24.  The keys of the dict that [get_form_data] returns are the names,
    other than the empty one, of the fields that [find_field] looks through:
    the form's own fields that are not buttons and, in the same way, the
    fields of the page shown by each of its stacked widgets. *)
Theorem form_data_keys :
  ∀ (fields : layout) (data : gmap string pyval),
    get_form_data fields = Ok data →
    ∀ k, is_Some (data !! k)
         ↔ k ≠ EmptyString ∧ ∃ w, on_selected_page k fields w.
Proof. apply get_form_data_dom. Qed.

(** The menu after the loop of [set_options] over the options. *)
Lemma set_options_fold (opts : list string) :
  ∀ c : QComboBox,
    foldl (λ c item, if bool_decide (item = "---") then insertSeparator_at_end c
                     else addItem item c) c opts
    = mkQComboBox (items c ++ (option_item <$> opts))
                  (match items c, opts with [], _ :: _ => 0 | _, _ => currentIndex c end).
Proof.
  induction opts as [|o opts IH]; intros c.
  - simpl. rewrite app_nil_r. by destruct c as [[|??] ?].
  - cbn [foldl]. rewrite IH.
    assert (Hstep : (if bool_decide (o = "---") then insertSeparator_at_end c
                     else addItem o c) = append_item (option_item o) c).
    { unfold option_item. by case_bool_decide. }
    rewrite Hstep. unfold append_item. cbn [items currentIndex].
    rewrite fmap_cons, <-app_assoc. simpl.
    destruct (items c) as [|i0 its]; simpl; by destruct opts.
Qed.

(** *** [set_field_options] *)

Lemma mapM_if {A B} (b : A → bool) (m : A → B) (e : exn) (f : A → result B)
    (l : list A) :
  (∀ x, x ∈ l → f x = if b x then Ok (m x) else Raise e) →
  mapM f l = if forallb b l then Ok (map m l) else Raise e.
Proof.
  induction l as [|x l IH]; intros Hf; [done|].
  cbn [mapM forallb map]. rewrite Hf by left.
  destruct (b x); cbn [mbind result_bind andb]; [|done].
  rewrite IH by (intros y Hy; apply Hf; by right).
  by destruct (forallb b l).
Qed.

Lemma dict_set_middle {V} (pre rest : list (string * V)) (k : string) (v v0 : V) :
  k ∉ pre.*1 → dict_set k v (pre ++ (k, v0) :: rest) = pre ++ (k, v) :: rest.
Proof.
  induction pre as [|[k1 v1] pre IH]; intros Hk; simpl.
  - by rewrite bool_decide_eq_true_2.
  - rewrite fmap_cons, not_elem_of_cons in Hk. destruct Hk as [Hne Hk].
    rewrite bool_decide_eq_false_2 by done. by rewrite IH.
Qed.

(** A loop over the items of a dict that stores a new value under the key
    of some of them gives the dict of the values, item by item. *)
Lemma foldl_dict_update (h : string * widget → result (option widget))
    (step : result layout → string * widget → result layout) :
  (∀ fields kw,
     step (Ok fields) kw
     = (o ← h kw;
        Ok (match o with Some w' => dict_set kw.1 w' fields | None => fields end))) →
  (∀ e kw, step (Raise e) kw = Raise e) →
  ∀ (rest pre : layout), NoDup ((pre ++ rest).*1) →
    foldl step (Ok (pre ++ rest)) rest
    = (ws ← mapM (λ kw, (λ o, (kw.1, default kw.2 o)) <$> h kw) rest;
       Ok (pre ++ ws)).
Proof.
  intros Hstep Hraise.
  assert (Hfail : ∀ e l, foldl step (Raise e) l = Raise e).
  { intros e l. induction l as [|kw l IH]; [done|]. cbn [foldl]. by rewrite Hraise. }
  induction rest as [|[k w] rest IH]; intros pre Hnd.
  - simpl. by rewrite app_nil_r.
  - cbn [foldl mapM]. rewrite Hstep. cbn [fst snd].
    destruct (h (k, w)) as [o|e]; cbn [mbind result_bind fmap result_fmap];
      [|apply Hfail].
    assert (Hk : k ∉ pre.*1).
    { rewrite fmap_app, fmap_cons in Hnd. apply NoDup_app in Hnd as (_ & Hnd & _).
      intros Hin. apply (Hnd k Hin). left. }
    assert (Hnew : match o with
                   | Some w' => dict_set k w' (pre ++ (k, w) :: rest)
                   | None => pre ++ (k, w) :: rest
                   end = (pre ++ [(k, default w o)]) ++ rest).
    { rewrite <-app_assoc. destruct o as [w'|]; [|done]. by apply dict_set_middle. }
    rewrite Hnew, IH.
    + destruct (mapM _ rest) as [ws|e]; cbn [mbind result_bind]; [|done].
      unfold mret, result_ret. by rewrite <-app_assoc.
    + rewrite <-app_assoc. simpl.
      by rewrite fmap_app, fmap_cons in Hnd |- *.
Qed.

Lemma set_options_list (fol : list (string * list string)) (k : string)
    (opts : list string) (w : widget) :
  dict_get k fol = Some opts →
  set_options opts w
  = if is_list_field w then Ok (options_field fol k w) else Raise AttributeError.
Proof.
  intros Hk. unfold options_field. rewrite Hk.
  destruct w as [n t c|]; [|done]. by destruct c.
Qed.

Lemma options_pages_kind (fol : list (string * list string)) (w : widget) :
  is_list_field (options_pages fol w) = is_list_field w
  ∧ is_stack (options_pages fol w) = is_stack w.
Proof. by destruct w. Qed.

Lemma forallb_andb {A} (b1 b2 : A → bool) (l : list A) :
  forallb (λ x, b1 x && b2 x) l = forallb b1 l && forallb b2 l.
Proof.
  induction l as [|x l IH]; [done|]. simpl. rewrite IH.
  destruct (b1 x), (b2 x), (forallb b1 l); done.
Qed.

(** [set_field_options] of one layout, given what the one of its stacked
    widgets does. *)
Lemma set_field_options_layout (stack_set : widget → result widget)
    (fol : list (string * list string)) (name : string) (options : list string)
    (fields : layout) :
  NoDup (fields.*1) →
  (∀ kw, kw ∈ fields → is_stack kw.2 = true →
         stack_set kw.2
         = if options_pages_ok (dict_set name options fol) kw.2
           then Ok (options_pages (dict_set name options fol) kw.2)
           else Raise AttributeError) →
  set_field_options_with stack_set fol name options fields
  = if options_form_ok (dict_set name options fol) fields
    then Ok (options_form (dict_set name options fol) fields)
    else Raise AttributeError.
Proof.
  intros Hnd Hstack. unfold set_field_options_with.
  set (fol' := dict_set name options fol) in *.
  pose proof (foldl_dict_update
                (λ kw, if is_stack kw.2 then Some <$> stack_set kw.2 else Ok None)
                (stacked_options_step stack_set) ltac:(
                  intros fs kw; unfold stacked_options_step; cbn [mbind result_bind];
                  destruct (is_stack kw.2); [by destruct (stack_set kw.2)|done])
                ltac:(done) fields [] Hnd) as Hloop.
  cbn [app] in Hloop. rewrite Hloop. clear Hloop.
  rewrite (mapM_if (λ kw, options_pages_ok fol' kw.2)
                   (λ kw, (kw.1, options_pages fol' kw.2)) AttributeError).
  2:{ intros [k w] Hin. cbn [fst snd]. destruct (is_stack w) eqn:Hw.
      - pose proof (Hstack (k, w) Hin Hw) as Hs. cbn [snd] in Hs. rewrite Hs.
        by destruct (options_pages_ok fol' w).
      - by destruct w. }
  unfold options_form_ok. rewrite forallb_andb, andb_comm.
  destruct (forallb (λ kw, options_pages_ok fol' kw.2) fields);
    cbn [mbind result_bind andb app]; [|done].
  unfold update_field_options.
  set (fields1 := map (λ kw : string * widget, (kw.1, options_pages fol' kw.2)) fields).
  assert (Hkeys : fields1.*1 = fields.*1).
  { unfold fields1. clear. induction fields as [|[k w] fields IH]; [done|].
    simpl. f_equal. exact IH. }
  pose proof (foldl_dict_update
                (λ kw, match dict_get kw.1 fol' with
                       | Some opts => Some <$> set_options opts kw.2
                       | None => Ok None
                       end)
                (update_options_step fol') ltac:(
                  intros fs kw; unfold update_options_step; cbn [mbind result_bind];
                  destruct (dict_get kw.1 fol'); [by destruct (set_options _ kw.2)|done])
                ltac:(done) fields1 []) as Hloop.
  cbn [app] in Hloop. rewrite Hloop by (by rewrite Hkeys). clear Hloop.
  rewrite (mapM_if (λ kw, options_field_ok fol' kw.1 kw.2)
                   (λ kw, (kw.1, options_field fol' kw.1 kw.2)) AttributeError).
  2:{ intros [k w] _. cbn [fst snd]. unfold options_field_ok.
      destruct (dict_get k fol') as [opts|] eqn:Hk.
      - rewrite (set_options_list fol' k opts w Hk). by destruct (is_list_field w).
      - unfold options_field. by rewrite Hk. }
  assert (Hok : forallb (λ kw, options_field_ok fol' kw.1 kw.2) fields1
                = forallb (λ kw, options_field_ok fol' kw.1 kw.2) fields).
  { unfold fields1. clear. induction fields as [|[k w] fields IH]; [done|].
    simpl. rewrite IH. f_equal. unfold options_field_ok.
    destruct (dict_get k fol'); [|done]. apply options_pages_kind. }
  rewrite Hok. destruct (forallb _ fields); cbn [mbind result_bind app]; [|done].
  unfold options_form, fields1. rewrite map_map. done.
Qed.

Lemma stack_set_field_options_pages (fol : list (string * list string))
    (name : string) (options : list string) :
  ∀ w, keys_unique w = true → is_stack w = true →
       stack_set_field_options fol name options w
       = if options_pages_ok (dict_set name options fol) w
         then Ok (options_pages (dict_set name options fol) w)
         else Raise AttributeError.
Proof.
  induction w as [n t c|n t opts cb pages IH] using widget_nested_ind; [done|].
  intros Huniq _. cbn [stack_set_field_options options_pages_ok options_pages].
  set (fol' := dict_set name options fol) in *.
  cbn [keys_unique] in Huniq.
  assert (Hpages :
    mapM (λ p : string * result layout, lay ← p.2; Ok (p.1, lay))
         (map (λ p, (p.1, set_field_options_with
                            (stack_set_field_options fol name options)
                            fol name options p.2)) pages)
    = if forallb (λ p, options_form_ok fol' p.2) pages
      then Ok (map (λ p, (p.1, options_form fol' p.2)) pages)
      else Raise AttributeError).
  { induction pages as [|[p page] pages IHp]; [done|].
    cbn [forallb] in Huniq. apply andb_true_iff in Huniq as [Hpage Huniq].
    apply andb_true_iff in Hpage as [Hnd%bool_decide_eq_true Hfields].
    apply Forall_cons in IH as [IHpage IH].
    cbn [map mapM forallb fst snd].
    rewrite (set_field_options_layout _ fol name options page Hnd).
    2:{ intros kw Hkw Hst. rewrite Forall_forall in IHpage.
        apply (IHpage kw Hkw); [|done].
        rewrite forallb_forall in Hfields. apply Hfields. by apply list_elem_of_In. }
    fold fol'. destruct (options_form_ok fol' page); cbn [mbind result_bind andb]; [|done].
    rewrite (IHp IH Huniq).
    destruct (forallb (λ p0 : string * layout, options_form_ok fol' p0.2) pages);
      cbn [mbind result_bind]; [|done].
    by unfold mret, result_ret. }
  rewrite Hpages.
  change (forallb (λ p, forallb (λ kw, options_field_ok fol' kw.1 kw.2
                                      && options_pages_ok fol' kw.2) p.2) pages)
    with (forallb (λ p, options_form_ok fol' p.2) pages).
  by destruct (forallb (λ p : string * layout, options_form_ok fol' p.2) pages).
Qed.

Lemma dict_get_map_key {V W} (f : string → V → W) (k : string) (d : list (string * V)) :
  dict_get k (map (λ p, (p.1, f p.1 p.2)) d) = f k <$> dict_get k d.
Proof.
  induction d as [|[k0 v0] d IH]; [done|]. simpl.
  case_bool_decide; [by subst|done].
Qed.

(** X25.  [set_field_options] on a form whose layouts are dicts: the
    entry is written into the dict of options lists, and when every field
    whose key has an entry in that dict, the new entry or an earlier one, on
    the form and on every page of its stacked widgets down to any depth, is a
    list field, the call returns and each of these fields has been given, by
    [set_options], the options under its key, on the pages that are not shown
    as well; every other field is as it was.  When one of these fields is
    another kind of widget, the call raises [AttributeError]. *)
Theorem set_field_options_all_pages (fol : list (string * list string))
    (name : string) (options : list string) (fields : layout) :
  form_keys_unique fields = true →
  let fol' := dict_set name options fol in
  set_field_options fol name options fields
  = if options_form_ok fol' fields then Ok (fol', options_form fol' fields)
    else Raise AttributeError.
Proof.
  intros Hkeys fol'. unfold form_keys_unique in Hkeys.
  apply andb_true_iff in Hkeys as [Hnd%bool_decide_eq_true Huniq].
  unfold set_field_options.
  rewrite (set_field_options_layout _ fol name options fields Hnd).
  - fold fol'. by destruct (options_form_ok fol' fields).
  - intros kw Hkw Hst. apply stack_set_field_options_pages; [|done].
    rewrite forallb_forall in Huniq. apply Huniq. by apply list_elem_of_In.
Qed.

(** X26.  After [set_field_options] has returned, a list field of the
    form whose key has an entry in the dict of options lists, whether it is
    the field named in the call or not, has the menu of that entry and has
    lost its selection: its menu is the blank entry, if it has one, followed
    by one entry per option, whatever it was before, and the entry selected is
    the first one, the blank entry or else the first option when that is not
    the separator; a menu without entries has none selected. *)
Theorem set_field_options_resets (fol fol' : list (string * list string))
    (name : string) (options : list string) (fields fields' : layout)
    (k n t : string) (c : FieldComboWidget) (opts : list string) :
  form_keys_unique fields = true →
  set_field_options fol name options fields = Ok (fol', fields') →
  dict_get k fol' = Some opts →
  dict_get k fields = Some (Leaf n t (FieldCombo c)) →
  fol' = dict_set name options fol
  ∧ ∃ c', dict_get k fields' = Some (Leaf n t (FieldCombo c'))
          ∧ options_list c' = Some opts
          ∧ result_as_idx c' = result_as_idx c
          ∧ add_blank_option c' = add_blank_option c
          ∧ items (combo c')
            = (if add_blank_option c then [mkItem EmptyString false] else [])
              ++ (option_item <$> opts)
          ∧ (add_blank_option c = true ∨ (∃ o, head opts = Some o ∧ o ≠ "---") →
             currentIndex (combo c') = 0)
          ∧ (add_blank_option c = false → opts = [] → currentIndex (combo c') = -1).
Proof.
  unfold form_keys_unique. rewrite andb_true_iff.
  intros [Hnd%bool_decide_eq_true Huniq] Hset Hk Hget. unfold set_field_options in Hset.
  rewrite (set_field_options_layout _ fol name options fields Hnd) in Hset.
  2:{ intros kw Hkw Hst. apply stack_set_field_options_pages; [|done].
      rewrite forallb_forall in Huniq. apply Huniq. by apply list_elem_of_In. }
  destruct (options_form_ok _ fields); [|done]. injection Hset as <- <-.
  split; [done|]. unfold options_form.
  rewrite (dict_get_map_key (λ k w, options_field (dict_set name options fol) k
                                      (options_pages (dict_set name options fol) w))).
  rewrite Hget. cbn [fmap option_fmap option_map options_pages].
  unfold options_field. rewrite Hk.
  destruct (FieldComboWidget_set_options opts PyNone c) as [c'|e] eqn:Hc; [|done].
  exists c'. split; [done|]. unfold FieldComboWidget_set_options in Hc.
  injection Hc as <-. cbn [options_list result_as_idx add_blank_option combo].
  rewrite set_options_fold. cbn [items currentIndex].
  split_and!; try done.
  - by destruct (add_blank_option c).
  - intros [Hb|(o & Ho & _)].
    + by rewrite Hb.
    + destruct (add_blank_option c); [done|]. by destruct opts.
  - intros Hb ->. by rewrite Hb.
Qed.

(** *** The menu of a list field when it is built *)

Lemma findText_options (d : string) (opts : list string) (i : Z) :
  "---" ∉ opts →
  (0 ≤ findText d (mkQComboBox (option_item <$> opts) i) ↔ d ∈ opts).
Proof.
  intros Hsep. unfold findText. cbn [items].
  assert (Htext : ∀ o, o ∈ opts → item_text (option_item o) = o).
  { intros o Ho. unfold option_item. rewrite bool_decide_eq_false_2; [done|].
    intros ->. done. }
  destruct (list_find _ _) as [[j it]|] eqn:Hfind.
  - split; [intros _|lia]. apply list_find_Some in Hfind as (Hj & Ht & _).
    rewrite list_lookup_fmap in Hj. destruct (opts !! j) as [o|] eqn:Ho; [|done].
    simpl in Hj. injection Hj as <-.
    rewrite Htext in Ht by (by eapply list_elem_of_lookup_2).
    subst d. by eapply list_elem_of_lookup_2.
  - split; [lia|]. intros Hd. apply list_find_None in Hfind.
    rewrite Forall_fmap, Forall_forall in Hfind. destruct (Hfind d Hd). simpl.
    by apply Htext.
Qed.

Lemma menu_text_selected (opts : list string) (t first : string) :
  "---" ∉ opts → head opts = Some first →
  currentText (setCurrentText t (mkQComboBox (option_item <$> opts) 0))
  = (if bool_decide (t ∈ opts) then t else first)
  ∧ currentText (mkQComboBox (option_item <$> opts) 0) = first.
Proof.
  intros Hsep Hfirst. set (menu := mkQComboBox (option_item <$> opts) 0).
  assert (Hcur : currentText menu = first).
  { unfold currentText, itemText, menu. cbn [currentIndex items].
    destruct opts as [|o1 opts']; [done|]. simpl in Hfirst. injection Hfirst as ->.
    simpl. unfold option_item. rewrite bool_decide_eq_false_2; [done|].
    intros ->. apply Hsep. left. }
  split; [|done]. case_bool_decide as Hin.
  - apply setCurrentText_found. by apply findText_options.
  - assert (Hnot : ¬ 0 ≤ findText t menu).
    { intros Hf. by apply findText_options in Hf. }
    unfold setCurrentText. by destruct (Z.ltb_spec (-1) (findText t menu)); [lia|].
Qed.

(** X27.  A list field built from an item with options and none of the
    separator entry, in a form without an options list for its name and not
    in optional-index mode.  Its menu holds the comma-separated options in
    their order.  When the default of the item is null nothing is selected by
    the builder and the first option shows.  Any other default, the empty
    text when the item has none, is turned into text by [str], also a number,
    and the field reads that text when it is one of the options, and the first
    option when it is not. *)
Theorem list_field_default_selected (fol : list (string * list string)) (it : item)
    (l options first : string) :
  i_type it = "list" → i_label it = Some l → i_dtype it = None →
  dict_get (i_name it) fol = None → i_options it = Some options →
  i_type_options it ≠ Some "optional_index" →
  "---" ∉ split "," options → head (split "," options) = Some first →
  let selected :=
    match default (PyStr EmptyString) (i_default it) with
    | PyNone => first
    | d => if bool_decide (str d ∈ split "," options) then str d else first
    end in
  ∃ c, build_field fol it = Ok (Leaf (i_name it) "list" (FieldCombo c))
       ∧ options_list c = Some (split "," options)
       ∧ items (combo c) = (λ o, mkItem o false) <$> split "," options
       ∧ get_widget_value (Leaf (i_name it) "list" (FieldCombo c))
         = Ok (PyStr selected).
Proof.
  intros Hty Hl Hdt Hfol Hopts Hmode Hsep Hfirst selected.
  set (opts := split "," options) in *.
  set (menu := mkQComboBox (option_item <$> opts) 0).
  set (d := default (PyStr EmptyString) (i_default it)) in *.
  assert (Hitems : option_item <$> opts = (λ o, mkItem o false) <$> opts).
  { apply list_fmap_ext. intros i o Ho. unfold option_item.
    rewrite bool_decide_eq_false_2; [done|]. intros ->.
    apply Hsep. by eapply list_elem_of_lookup_2. }
  set (cb := match d with PyNone => menu | _ => setCurrentText (str d) menu end).
  assert (Hbuild : build_control fol it
                   = Ok (FieldCombo (mkFieldComboWidget false false (Some opts) cb))).
  { unfold build_control. rewrite Hty, Hfol, Hopts. fold d.
    rewrite (bool_decide_eq_false_2 (i_type_options it = Some "optional_index")) by done.
    cbn [bool_decide decide_rel]. unfold FieldComboWidget_set_options.
    cbn [add_blank_option FieldComboWidget_new combo result_as_idx].
    rewrite set_options_fold. fold opts. cbn [clear QComboBox_new items app currentIndex].
    assert (Hmenu : mkQComboBox (option_item <$> opts)
                      match opts with [] => -1 | _ :: _ => 0 end = menu).
    { unfold menu. by destruct opts. }
    rewrite Hmenu. unfold cb.
    destruct d as [|b|z|q|s]; try done.
    unfold FieldComboWidget_setValue. cbn [options_list of_option mbind result_bind
                                           result_as_idx andb combo add_blank_option].
    by rewrite andb_false_r. }
  assert (Hcb_items : items cb = (λ o, mkItem o false) <$> opts).
  { unfold cb. destruct d; rewrite ?setCurrentText_items; exact Hitems. }
  assert (Hcb_text : currentText cb = selected).
  { unfold cb, selected.
    destruct d as [|b|z|q|s];
      [exact (proj2 (menu_text_selected opts EmptyString first Hsep Hfirst))
      |exact (proj1 (menu_text_selected opts _ first Hsep Hfirst))..]. }
  eexists. split_and!.
  - rewrite (build_field_leaf fol it l) by (by rewrite ?Hty).
    rewrite Hbuild, Hty, Hdt. reflexivity.
  - done.
  - exact Hcb_items.
  - unfold get_widget_value. cbn [field_data_type read_widget FieldComboWidget_value
                                  result_as_idx combo bool_decide decide_rel fmap].
    change (String.prefix "file_" "list") with false. cbn match. by rewrite Hcb_text.
Qed.

(** X28.  A list field whose name has an entry in the options lists of the
    form is built with the options of that entry: the options and the default
    of the item are not looked at, so the entry selected is the first one,
    the blank one in optional-index mode and otherwise the first option when
    that is not the separator, whatever default the item gives. *)
Theorem custom_options_ignore_default (fol : list (string * list string)) (it : item)
    (l : string) (opts : list string) :
  i_type it = "list" → i_label it = Some l → i_dtype it = None →
  dict_get (i_name it) fol = Some opts →
  let idx := bool_decide (i_type_options it = Some "optional_index") in
  ∃ c, build_field fol it = Ok (Leaf (i_name it) "list" (FieldCombo c))
       ∧ options_list c = Some opts
       ∧ items (combo c)
         = (if idx then [mkItem EmptyString false] else []) ++ (option_item <$> opts)
       ∧ (idx = true ∨ (∃ o, head opts = Some o ∧ o ≠ "---") → currentIndex (combo c) = 0)
       ∧ ∀ d o, build_field fol (Item (i_name it) "list" (Some l) d o (i_range it) None
                                      (i_type_options it) (i_pages it))
                = build_field fol it.
Proof.
  intros Hty Hl Hdt Hfol idx.
  assert (Hbuild : ∀ it', i_type it' = "list" → i_name it' = i_name it →
                          i_type_options it' = i_type_options it →
    build_control fol it'
    = Ok (FieldCombo (mkFieldComboWidget idx idx (Some opts)
            (mkQComboBox ((if idx then [mkItem EmptyString false] else [])
                          ++ (option_item <$> opts))
               (if idx then 0 else match opts with [] => -1 | _ => 0 end))))).
  { intros it' Hty' Hname' Hmode'. unfold build_control.
    rewrite Hty', Hname', Hmode', Hfol. fold idx. cbn [bool_decide decide_rel].
    unfold FieldComboWidget_set_options.
    cbn [add_blank_option FieldComboWidget_new combo result_as_idx].
    rewrite set_options_fold. by destruct idx, opts. }
  eexists. split_and!.
  - rewrite (build_field_leaf fol it l) by (by rewrite ?Hty).
    rewrite (Hbuild it) by done. rewrite Hty, Hdt. reflexivity.
  - done.
  - done.
  - cbn [combo currentIndex]. intros [->|(o & Ho & _)]; [done|].
    destruct idx; [done|]. by destruct opts.
  - intros d o.
    rewrite (build_field_leaf fol _ l), (build_field_leaf fol it l)
      by (by rewrite ?Hty). cbn [i_name i_type i_dtype].
    rewrite (Hbuild it), Hbuild, Hty, Hdt by done. done.
Qed.

(** *** Writing a form and reading it back *)


End formbuilder.

#[local] Existing Instance example_runtime.

(** C4, at the failing input: the list field built in optional-index mode
    over the options a and b has the blank entry selected, and the value read
    from it is the integer -1: neither [None], as the claim has it, nor the
    empty text that the docstring of [FieldComboWidget] announces for the
    blank option.  With the entry of option b selected the value is the
    index 1, as claimed. *)
Theorem blank_entry_reads_minus_one :
  ∃ w, build_field [] index_list_item = Ok (Leaf "node" "list" (FieldCombo w))
       ∧ result_as_idx w = true ∧ add_blank_option w = true
       ∧ items (combo w)
         = [mkItem EmptyString false; mkItem "a" false; mkItem "b" false]
       ∧ currentIndex (combo w) = 0
       ∧ get_widget_value (Leaf "node" "list" (FieldCombo w)) = Ok (PyInt (-1))
       ∧ get_widget_value (Leaf "node" "list" (FieldCombo w)) ≠ Ok PyNone
       ∧ get_widget_value (Leaf "node" "list" (FieldCombo w)) ≠ Ok (PyStr EmptyString)
       ∧ get_widget_value
           (Leaf "node" "list" (FieldCombo (FieldComboWidget_select 2 w)))
         = Ok (PyInt 1).
Proof.
  eexists. split_and!; [by vm_compute..| | |by vm_compute];
    intros H; vm_compute in H; discriminate H.
Qed.

(** The menu of the options a and b, and the entry of b picked. *)
Example optional_index_value_witness :
  let w := FieldComboWidget_new true true in
  let w' := mkFieldComboWidget true true (Some ["a"; "b"])
              (mkQComboBox [mkItem EmptyString false; mkItem "a" false; mkItem "b" false] 0) in
  (result_as_idx w = true ∧ add_blank_option w = true
   ∧ FieldComboWidget_set_options ["a"; "b"] PyNone w = Ok w')
  ∧ items (combo w') = mkItem EmptyString false :: (option_item <$> ["a"; "b"])
  ∧ FieldComboWidget_value (FieldComboWidget_select 0 w') = PyInt (-1)
  ∧ ∀ (k : nat) (opt : string), ["a"; "b"] !! k = Some opt →
      items (combo w') !! S k = Some (option_item opt)
      ∧ FieldComboWidget_value (FieldComboWidget_select (Z.of_nat k + 1) w')
        = PyInt (Z.of_nat k).
Proof.
  intros w w'. split; [by split_and!|].
  exact (optional_index_value w ["a"; "b"] PyNone w' eq_refl eq_refl eq_refl).
Defined.

(** C10, the claim as worded: an integer below the number of options need
    not be in bounds. *)
Lemma below_length_counterexample :
  let w := mkFieldComboWidget true false (Some ["a"; "b"])
             (mkQComboBox [mkItem "a" false; mkItem "b" false] 0) in
  -3 < Z.of_nat (length ["a"; "b"])
  ∧ FieldComboWidget_setValue (PyInt (-3)) w = Raise IndexError.
Proof. by vm_compute. Qed.

(** Two options: 1 is looked up, 2 passes the guard and raises. *)
Lemma setValue_index_guard_witness :
  let w := mkFieldComboWidget true false (Some ["a"; "b"])
             (mkQComboBox [mkItem "a" false; mkItem "b" false] 0) in
  (result_as_idx w = true ∧ options_list w = Some ["a"; "b"])
  ∧ FieldComboWidget_setValue (PyInt 2) w = Raise IndexError.
Proof.
  intros w. split; [done|].
  refine (proj1 (proj2 (proj2 (setValue_index_guard w ["a"; "b"] 2 eq_refl eq_refl))) _).
  by left.
Defined.

(** C5, at the failing input: the control built for an [optional_double]
    field holds an integer spinner, so after [setValue(2.5)] the value read
    back is the integer 2, which is not equal to 2.5. *)
Theorem optional_double_loses_fraction :
  build_field [] optional_double_item
  = Ok (Leaf "sigma" "optional_double"
          (OptionalSpin (mkOptionalSpinWidget "none" (IntSpin QSpinBox_new) true)))
  ∧ (w ← build_field [] optional_double_item;
     w ← set_widget_value w (PyFloat (5 # 2));
     get_widget_value w) = Ok (PyInt 2)
  ∧ ¬ py_eq (PyInt 2) (PyFloat (5 # 2)).
Proof. split_and!; [by vm_compute..|]. by vm_compute. Qed.

Example build_stacked_form : build_form [] stacked_items = Ok stacked_form.
Proof. by vm_compute. Qed.

(** In [stacked_form] the first of the two pages is selected: the field of
    that page is found, the field of the other page is not. *)
Lemma find_field_selected_pages_witness :
  form_pages_ok stacked_form = true
  ∧ find_field stacked_form "s"
    = (mores ← mapM (λ stack, page ← current_page stack; find_field page "s")
                    (filter (λ w, is_stack w = true) (stacked_form.*2));
       Ok (own_matches "s" stacked_form ++ mjoin mores))
  ∧ ∃ ws, find_field stacked_form "s" = Ok ws
          ∧ (∀ w, w ∈ ws ↔ on_selected_page "s" stacked_form w)
          ∧ ((∀ w, ¬ on_selected_page "s" stacked_form w) → ws = []).
Proof.
  split; [reflexivity|].
  apply (find_field_selected_pages stacked_form "s"). reflexivity.
Defined.

Example find_field_other_page :
  find_field stacked_form "n" = Ok [Leaf "n" "int" (SpinBox (mkQSpinBox 0 99 3))]
  ∧ find_field stacked_form "s" = Ok [].
Proof. by vm_compute. Qed.


(** In [hidden_clash_form] the page that has a field n is not shown, and
    the value written under n is the one read back. *)
Example hidden_page_round_trip :
  (fields' ← set_form_data hidden_clash_form [("n", PyInt 5)];
   (λ data : gmap string pyval, data !! "n") <$> get_form_data fields')
  = Ok (Some (PyInt 5)).
Proof. by vm_compute. Qed.

(** The field [plain_int_item] has default 8: its range is 0 to 99. *)
Lemma int_field_auto_range_witness :
  let w := Leaf "batch" "int" (SpinBox (mkQSpinBox 0 99 8)) in
  (i_type plain_int_item = "int" ∧ i_range plain_int_item = None
   ∧ i_dtype plain_int_item = None ∧ i_label plain_int_item = Some "batch"
   ∧ i_default plain_int_item = Some (PyInt 8) ∧ - 2 ^ 31 ≤ 8 ∧ 10 * 8 < 2 ^ 31)
  ∧ build_field [] plain_int_item = Ok w
  ∧ get_widget_value w = Ok (PyInt 8)
  ∧ (∀ z, - 2 ^ 31 ≤ z < 2 ^ 31 →
          ∃ w', set_widget_value w (PyInt z) = Ok w'
                ∧ get_widget_value w' = Ok (PyInt (Z.max 0 (Z.min 99 z))))
  ∧ (∀ z, ¬ (- 2 ^ 31 ≤ z < 2 ^ 31) →
          set_widget_value w (PyInt z) = Raise OverflowError).
Proof.
  intros w. split; [by split_and!|].
  exact (int_field_auto_range [] plain_int_item "batch" 8
           eq_refl eq_refl eq_refl eq_refl eq_refl ltac:(lia) ltac:(lia)).
Defined.

(** The field [ranged_int_item] has the range 1 to 1000 and default 500. *)
Lemma int_field_explicit_range_witness :
  let w := Leaf "epochs" "int" (SpinBox (mkQSpinBox 1 1000 500)) in
  (i_type ranged_int_item = "int" ∧ i_range ranged_int_item = Some "1,1000"
   ∧ i_dtype ranged_int_item = None ∧ i_label ranged_int_item = Some "Epochs"
   ∧ i_default ranged_int_item = Some (PyInt 500)
   ∧ mapM (int_of_str (Runtime := decimal_runtime)) (split "," "1,1000") = Ok [1; 1000])
  ∧ build_field (RT := decimal_runtime) [] ranged_int_item = Ok w
  ∧ get_widget_value (RT := decimal_runtime) w = Ok (PyInt 500)
  ∧ (∀ z, - 2 ^ 31 ≤ z < 2 ^ 31 →
          ∃ w', set_widget_value (RT := decimal_runtime) w (PyInt z) = Ok w'
                ∧ get_widget_value (RT := decimal_runtime) w'
                  = Ok (PyInt (Z.max 1 (Z.min 1000 z))))
  ∧ (∀ z, ¬ (- 2 ^ 31 ≤ z < 2 ^ 31) →
          set_widget_value (RT := decimal_runtime) w (PyInt z) = Raise OverflowError).
Proof.
  intros w. split; [by split_and!|].
  exact (int_field_explicit_range (RT := decimal_runtime) [] ranged_int_item
           "Epochs" "1,1000" 1 1000 500
           eq_refl eq_refl eq_refl eq_refl eq_refl eq_refl
           ltac:(lia) ltac:(lia) ltac:(lia)).
Defined.

(** A double field with default 150: it holds 99.99. *)
Lemma double_field_range_witness :
  let it := field "sigma" "double" (Some (PyFloat 150)) in
  (i_type it = "double" ∧ i_dtype it = None ∧ i_label it = Some "sigma"
   ∧ i_default it = Some (PyFloat 150) ∧ arg_double (PyFloat 150) = Ok 150%Q)
  ∧ ∃ s, build_field [] it = Ok (Leaf (i_name it) "double" (DoubleSpinBox s))
       ∧ dsb_minimum s = 0%Q ∧ dsb_maximum s = (9999 # 100)%Q ∧ dsb_decimals s = 2%N
       ∧ dsb_value s = dsb_bound 0 (9999 # 100) (dsb_round 2 150)
       ∧ (0 <= dsb_value s <= 9999 # 100)%Q
       ∧ ∀ v w', set_widget_value (Leaf (i_name it) "double" (DoubleSpinBox s)) v = Ok w' →
           ∃ s' x, w' = Leaf (i_name it) "double" (DoubleSpinBox s')
                   ∧ dsb_minimum s' = 0%Q ∧ dsb_maximum s' = (9999 # 100)%Q
                   ∧ get_widget_value w' = Ok (PyFloat x)
                   ∧ (0 <= x <= 9999 # 100)%Q.
Proof.
  intros it. split; [by split_and!|].
  exact (double_field_range [] it "sigma" (PyFloat 150) 150%Q
           eq_refl eq_refl eq_refl eq_refl eq_refl).
Defined.

(** Writing the batch size of [stacked_form], with a key that it does not
    have. *)
Lemma set_form_data_frame_witness :
  let m := [("batch", PyInt 7); ("rate", PyInt 1)] in
  let fields' := dict_set "batch" (Leaf "batch" "int" (SpinBox (mkQSpinBox 0 99 7)))
                          stacked_form in
  set_form_data stacked_form m = Ok fields'
  ∧ Forall2 (λ kw kw', kw'.1 = kw.1 ∧ same_shape kw.2 kw'.2
                       ∧ field_data_type kw'.2 = field_data_type kw.2)
            stacked_form fields'
  ∧ ∀ k, k ∉ m.*1 → dict_get k fields' = dict_get k stacked_form.
Proof.
  intros m fields'.
  assert (H : set_form_data stacked_form m = Ok fields') by (by vm_compute).
  split; [done|]. exact (set_form_data_frame stacked_form fields' m H).
Defined.

(** The field n of [stacked_form] is on a page, not among its own
    fields. *)
Lemma unknown_keys_ignored_witness :
  let m := [("rate", PyInt 1); ("n", PyInt 5)] in
  Forall (λ kv, dict_get kv.1 stacked_form = None) m
  ∧ set_form_data stacked_form m = Ok stacked_form
  ∧ Forall (λ kv, __setitem__ stacked_form kv.1 kv.2 = Raise KeyError
                  ∧ __getitem__ stacked_form kv.1 = Raise KeyError) m.
Proof.
  intros m.
  assert (H : Forall (λ kv, dict_get kv.1 stacked_form = None) m)
    by (by repeat constructor).
  split; [done|]. exact (unknown_keys_ignored stacked_form m H).
Defined.

Lemma setitem_then_getitem_witness :
  let w := Leaf "batch" "int" (SpinBox (mkQSpinBox 0 99 5)) in
  (dict_get "batch" stacked_form = Some w ∧ accepts w (PyInt 7) = true)
  ∧ ∃ fields' v',
      __setitem__ stacked_form "batch" (PyInt 7) = Ok fields'
      ∧ __getitem__ fields' "batch" = Ok v' ∧ py_eq v' (PyInt 7)
      ∧ ∀ k, k ≠ "batch" → __getitem__ fields' k = __getitem__ stacked_form k.
Proof.
  intros w. split; [by vm_compute|].
  exact (setitem_then_getitem stacked_form "batch" w (PyInt 7) eq_refl eq_refl).
Defined.

Lemma build_form_fields_witness :
  build_form [] stacked_items = Ok stacked_form
  ∧ NoDup (stacked_form.*1)
  ∧ (∀ k, k ∈ stacked_form.*1 ↔ k ∈ i_name <$> stacked_items)
  ∧ (∀ k w, (k, w) ∈ stacked_form →
            objectName w = k
            ∧ ∃ it, it ∈ stacked_items ∧ i_name it = k ∧ build_field [] it = Ok w
                    ∧ field_data_type w = default (i_type it) (i_dtype it))
  ∧ (∀ its1 it its2, stacked_items = its1 ++ it :: its2 → i_name it ∉ i_name <$> its2 →
                     ∃ w, build_field [] it = Ok w
                          ∧ dict_get (i_name it) stacked_form = Some w)
  ∧ (NoDup (i_name <$> stacked_items) → stacked_form.*1 = i_name <$> stacked_items)
  ∧ form_pages_ok stacked_form = true.
Proof.
  assert (H : build_form [] stacked_items = Ok stacked_form) by (by vm_compute).
  split; [done|]. exact (build_form_fields [] stacked_items stacked_form H).
Defined.

(** The stacked field of [stacked_items]: the default one is the first of
    the options one and two. *)
Lemma build_stacked_field_witness :
  let it := Item "method" "stacked" None (Some (PyStr "one")) (Some "one,two")
              None None None
              [("one", [field "n" "int" (Some (PyInt 3))]);
               ("two", [field "s" "string" None])] in
  let w := StackBuilderWidget "method" "stacked" ["one"; "two"]
             (mkQComboBox [mkItem "one" false; mkItem "two" false] 0)
             [("one", [("n", Leaf "n" "int" (SpinBox (mkQSpinBox 0 99 3)))]);
              ("two", [("s", Leaf "s" "string" (LineEdit EmptyString false))])] in
  (i_type it = "stacked" ∧ build_field [] it = Ok w)
  ∧ ∃ options d cb pages,
      i_options it = Some options ∧ i_default it = Some d
      ∧ w = StackBuilderWidget (i_name it) (default "stacked" (i_dtype it))
              (split "," options) cb pages
      ∧ items cb = (λ o, mkItem o false) <$> split "," options
      ∧ (∀ o, o ∈ split "," options →
              ∃ its page, dict_get o (i_pages it) = Some its
                          ∧ build_form [] its = Ok page
                          ∧ dict_get o pages = Some page)
      ∧ Some (currentText cb)
        = match d with
          | PyStr s => if bool_decide (s ∈ split "," options) then Some s
                       else head (split "," options)
          | _ => head (split "," options)
          end.
Proof.
  intros it w.
  assert (H : build_field [] it = Ok w) by (by vm_compute).
  split; [done|]. exact (build_stacked_field [] it w eq_refl H).
Defined.

(** A check box without default after the two fields of [stacked_items]. *)
Lemma missing_default_raises_witness :
  let it := field "flip" "bool" None in
  (build_form [] stacked_items = Ok stacked_form ∧ i_default it = None
   ∧ (i_type it ∈ ["double"; "bool"; "optional_int"; "optional_double"; "auto_int"]
      ∨ (i_type it = "int" ∧ i_range it = None)))
  ∧ build_field [] it = Raise KeyError
  ∧ build_form [] (stacked_items ++ it :: []) = Raise KeyError.
Proof.
  intros it.
  assert (H1 : build_form [] stacked_items = Ok stacked_form) by (by vm_compute).
  assert (H2 : i_type it ∈ ["double"; "bool"; "optional_int"; "optional_double"; "auto_int"]
               ∨ (i_type it = "int" ∧ i_range it = None)).
  { left. right. left. }
  split; [done|].
  exact (missing_default_raises [] stacked_items [] it stacked_form H1 eq_refl H2).
Defined.

(** The text ON written to an optional spinner with the none-string
    "none". *)
Lemma optional_spin_text_witness :
  let w := mkOptionalSpinWidget "none" (IntSpin QSpinBox_new) false in
  (none_string w = "none" ∨ none_string w = "auto")
  ∧ ((∃ pre post, none_string w = pre +:+ lower "ON" +:+ post) →
     OptionalSpinWidget_setValue (PyStr "ON") w
     = Ok (mkOptionalSpinWidget (none_string w) (spin w) true)
     ∧ OptionalSpinWidget_value (mkOptionalSpinWidget (none_string w) (spin w) true)
       = PyNone)
  ∧ (¬ (∃ pre post, none_string w = pre +:+ lower "ON" +:+ post) →
     OptionalSpinWidget_setValue (PyStr "ON") w = Raise TypeError)
  ∧ OptionalSpinWidget_setValue (PyStr EmptyString) w
    = Ok (mkOptionalSpinWidget (none_string w) (spin w) true).
Proof.
  intros w. split; [by left|].
  exact (optional_spin_text w "ON" (or_introl eq_refl)).
Defined.

(** A list field in optional-index mode without options. *)
Lemma list_field_without_options_witness :
  let it := Item "node" "list" (Some "node") None None None None
              (Some "optional_index") [] in
  let w := Leaf "node" "list" (FieldCombo (FieldComboWidget_new true true)) in
  (i_type it = "list" ∧ i_options it = None
   ∧ dict_get (i_name it) ([] : list (string * list string)) = None
   ∧ i_label it = Some "node" ∧ i_dtype it = None)
  ∧ build_field [] it = Ok w
  ∧ get_widget_value w = Ok (PyInt (-2))
  ∧ (∀ z, set_widget_value w (PyInt z) = Raise AttributeError)
  ∧ (∀ s, set_widget_value w (PyStr s) = Ok w).
Proof.
  intros it w. split; [by split_and!|].
  exact (list_field_without_options [] it "node" eq_refl eq_refl eq_refl eq_refl eq_refl).
Defined.

(** A file_open field whose default is null. *)
Lemma text_field_null_default_witness :
  let it := field "weights" "file_open" (Some PyNone) in
  (i_label it = Some "weights" ∧ i_dtype it = None)
  ∧ (i_type it ∈ ["string"; "optional_string"] →
     i_default it = None ∨ i_default it = Some PyNone →
     let w := Leaf (i_name it) (i_type it) (LineEdit EmptyString false) in
     build_field [] it = Ok w ∧ get_widget_value w = Ok (PyStr EmptyString))
  ∧ (i_type it ∈ ["file_open"; "file_dir"] → i_default it = Some PyNone →
     let w := Leaf (i_name it) (i_type it) (LineEdit "None" true) in
     build_field [] it = Ok w ∧ get_widget_value w = Ok PyNone).
Proof.
  intros it. split; [done|].
  exact (text_field_null_default [] it "weights" eq_refl eq_refl).
Defined.

Lemma select_file_sets_path_witness :
  let x := Leaf "weights" "file_open" (LineEdit "None" true) in
  (("file_open" = "file_open" ∨ "file_open" = "file_dir")
   ∧ Z.of_nat (String.length "/data/m.h5") ≤ 32767)
  ∧ select_file "file_open" EmptyString x = x
  ∧ ("/data/m.h5" ≠ EmptyString →
     select_file "file_open" "/data/m.h5" x
     = Leaf "weights" "file_open" (LineEdit "/data/m.h5" true)
     ∧ get_widget_value (select_file "file_open" "/data/m.h5" x)
       = Ok (if bool_decide ("/data/m.h5" = "None") then PyNone else PyStr "/data/m.h5")).
Proof.
  intros x.
  assert (H1 : "file_open" = "file_open" ∨ "file_open" = "file_dir") by (by left).
  assert (H2 : Z.of_nat (String.length "/data/m.h5") ≤ 32767) by (by vm_compute).
  split; [done|].
  exact (select_file_sets_path "weights" "file_open" "None" "/data/m.h5" H1 H2).
Defined.

(** In [clash_form] the name n is reported with the value of the field
    of the page, 3, not with the value 1 of the form's own field. *)
Lemma page_data_overrides_witness :
  let data : gmap string pyval := {[ "n" := PyInt 3; "method" := PyStr "one" ]} in
  get_form_data clash_form = Ok data
  ∧ ∃ data1 ds,
      own_form_data clash_form = Ok data1
      ∧ Forall2 (λ stack d, ∃ page, current_page stack = Ok page
                                    ∧ get_form_data page = Ok d)
                (filter (λ w, is_stack w = true) (clash_form.*2)) ds
      ∧ data = foldl (λ acc d, d ∪ acc) data1 ds
      ∧ (∀ k d v, last ds = Some d → d !! k = Some v → data !! k = Some v)
      ∧ (∀ k, (∀ d, d ∈ ds → d !! k = None) → data !! k = data1 !! k).
Proof.
  intros data.
  assert (H : get_form_data clash_form = Ok data) by (by vm_compute).
  split; [done|]. exact (page_data_overrides clash_form data H).
Defined.

(** The three keys of the form data of [stacked_form]: the two fields
    of the form and the field of the page shown. *)
Lemma form_data_keys_witness :
  let data : gmap string pyval :=
    {[ "batch" := PyInt 5; "method" := PyStr "one"; "n" := PyInt 3 ]} in
  get_form_data stacked_form = Ok data
  ∧ ∀ k, is_Some (data !! k)
         ↔ k ≠ EmptyString ∧ ∃ w, on_selected_page k stacked_form w.
Proof.
  intros data.
  assert (H : get_form_data stacked_form = Ok data) by (by vm_compute).
  split; [done|]. exact (form_data_keys stacked_form data H).
Defined.

(** The options a and b for the name node in [node_form]: both list
    fields get them, the one on the page that is not shown too. *)
Lemma set_field_options_all_pages_witness :
  let fol' := dict_set "node" ["a"; "b"] [] in
  form_keys_unique node_form = true
  ∧ set_field_options [] "node" ["a"; "b"] node_form
    = if options_form_ok fol' node_form then Ok (fol', options_form fol' node_form)
      else Raise AttributeError.
Proof.
  intros fol'.
  assert (H : form_keys_unique node_form = true) by (by vm_compute).
  split; [done|]. exact (set_field_options_all_pages [] "node" ["a"; "b"] node_form H).
Defined.

Example set_field_options_node_form :
  set_field_options [] "node" ["a"; "b"] node_form
  = Ok ([("node", ["a"; "b"])], node_form_ab)
  ∧ set_field_options [] "n" ["a"] stacked_form = Raise AttributeError.
Proof. by vm_compute. Qed.

(** Setting the options x and y for a list field without blank entry
    that shows a and b, with b selected. *)
Lemma set_field_options_resets_witness :
  let c := mkFieldComboWidget false false (Some ["a"; "b"])
             (mkQComboBox [mkItem "a" false; mkItem "b" false] 1) in
  let c2 := mkFieldComboWidget false false (Some ["x"; "y"])
              (mkQComboBox [mkItem "x" false; mkItem "y" false] 0) in
  let fields := [("node", Leaf "node" "list" (FieldCombo c))] in
  let fields' := [("node", Leaf "node" "list" (FieldCombo c2))] in
  let fol := [("node", ["a"; "b"])] in
  let fol' := [("node", ["x"; "y"])] in
  (form_keys_unique fields = true
   ∧ set_field_options fol "node" ["x"; "y"] fields = Ok (fol', fields')
   ∧ dict_get "node" fol' = Some ["x"; "y"]
   ∧ dict_get "node" fields = Some (Leaf "node" "list" (FieldCombo c)))
  ∧ fol' = dict_set "node" ["x"; "y"] fol
  ∧ ∃ c', dict_get "node" fields' = Some (Leaf "node" "list" (FieldCombo c'))
          ∧ options_list c' = Some ["x"; "y"]
          ∧ result_as_idx c' = result_as_idx c
          ∧ add_blank_option c' = add_blank_option c
          ∧ items (combo c')
            = (if add_blank_option c then [mkItem EmptyString false] else [])
              ++ (option_item <$> ["x"; "y"])
          ∧ (add_blank_option c = true ∨ (∃ o, head ["x"; "y"] = Some o ∧ o ≠ "---") →
             currentIndex (combo c') = 0)
          ∧ (add_blank_option c = false → ["x"; "y"] = [] →
             currentIndex (combo c') = -1).
Proof.
  intros c c2 fields fields' fol fol'.
  assert (H1 : form_keys_unique fields = true) by (by vm_compute).
  assert (H2 : set_field_options fol "node" ["x"; "y"] fields = Ok (fol', fields'))
    by (by vm_compute).
  split; [by split_and!|].
  exact (set_field_options_resets fol fol' "node" ["x"; "y"] fields fields'
           "node" "node" "list" c ["x"; "y"] H1 H2 eq_refl eq_refl).
Defined.

(** A list field with the options 1, 2 and 3 and the number 2 as default:
    it reads the text 2. *)
Lemma list_field_default_selected_witness :
  let it := Item "rank" "list" (Some "rank") (Some (PyInt 2)) (Some "1,2,3")
              None None None [] in
  (i_type it = "list" ∧ i_label it = Some "rank" ∧ i_dtype it = None
   ∧ dict_get (i_name it) ([] : list (string * list string)) = None
   ∧ i_options it = Some "1,2,3" ∧ i_type_options it ≠ Some "optional_index"
   ∧ ("---" ∉ split "," "1,2,3") ∧ head (split "," "1,2,3") = Some "1")
  ∧ ∃ c, build_field [] it = Ok (Leaf (i_name it) "list" (FieldCombo c))
         ∧ options_list c = Some (split "," "1,2,3")
         ∧ items (combo c) = (λ o, mkItem o false) <$> split "," "1,2,3"
         ∧ get_widget_value (Leaf (i_name it) "list" (FieldCombo c))
           = Ok (PyStr (if bool_decide (str (PyInt 2) ∈ split "," "1,2,3")
                        then str (PyInt 2) else "1")).
Proof.
  intros it.
  assert (H1 : i_type_options it ≠ Some "optional_index") by done.
  assert (H2 : "---" ∉ split "," "1,2,3").
  { intros H. vm_compute in H.
    repeat (apply elem_of_cons in H as [H|H]; [done|]). by apply elem_of_nil in H. }
  split; [by split_and!|].
  exact (list_field_default_selected [] it "rank" "1,2,3" "1"
           eq_refl eq_refl eq_refl eq_refl eq_refl H1 H2 eq_refl).
Defined.

Example list_field_number_default :
  (w ← build_field [] (Item "rank" "list" (Some "rank") (Some (PyInt 2)) (Some "1,2,3")
                            None None None []);
   get_widget_value w) = Ok (PyStr "2").
Proof. by vm_compute. Qed.

(** The same item in a form that has the options x and y for node. *)
Lemma custom_options_ignore_default_witness :
  let it := Item "node" "list" (Some "node") (Some (PyStr "b")) (Some "a,b,c")
              None None None [] in
  let fol := [("node", ["x"; "y"])] in
  (i_type it = "list" ∧ i_label it = Some "node" ∧ i_dtype it = None
   ∧ dict_get (i_name it) fol = Some ["x"; "y"])
  ∧ ∃ c, build_field fol it = Ok (Leaf (i_name it) "list" (FieldCombo c))
         ∧ options_list c = Some ["x"; "y"]
         ∧ items (combo c) = [] ++ (option_item <$> ["x"; "y"])
         ∧ (false = true ∨ (∃ o, head ["x"; "y"] = Some o ∧ o ≠ "---") →
            currentIndex (combo c) = 0)
         ∧ ∀ d o, build_field fol (Item (i_name it) "list" (Some "node") d o (i_range it)
                                        None (i_type_options it) (i_pages it))
                  = build_field fol it.
Proof.
  intros it fol. split; [by split_and!|].
  exact (custom_options_ignore_default fol it "node" ["x"; "y"]
           eq_refl eq_refl eq_refl eq_refl).
Defined.

End FormFacts.
